(** * COVID-19 data tool: the loaders, the radius aggregation and the
    request reader of [src/data_functions.py], [src/haversine.py] and [run.py],
    and the data of the totals figure of [src/plotting.py].

    Conventions of the embedding.
    - Python [str] is [string] (ASCII characters; other bytes are neither
      whitespace nor letters), [int] is [Z], [float] is the kernel's binary64
      [float].
    - A Python [dict] is an association list in insertion order with one
      binding per key; [d[k] = v] overwrites in place or appends.
    - Code that prints, mutates the class-level tables or raises runs in the
      monad [M]: the process state is threaded through, and an exception leaves
      the state as it was when it was raised.
    - What the sources take from outside is the class [Runtime]: the builtins
      [int()] and [float()] on strings, libm's [sin], [cos], [atan2], and the
      table [us_state_abbrev] of the module [src.us_states]. *)

From Stdlib Require Import String Ascii List ZArith Bool Lia PrimFloat Uint63 Floats Permutation.
Import ListNotations.

Set Warnings "-inexact-float".
Set Implicit Arguments.

Local Open Scope string_scope.
Local Open Scope Z_scope.

(** ** Strings *)

(** [str.isspace] on one ASCII character. *)
Definition is_space (c : ascii) : bool :=
  let n := nat_of_ascii c in
  ((9 <=? n)%nat && (n <=? 13)%nat) || ((28 <=? n)%nat && (n <=? 32)%nat).

(** [s.rstrip()] *)
Fixpoint rstrip (s : string) : string :=
  match s with
  | EmptyString => EmptyString
  | String c s' =>
      match rstrip s' with
      | EmptyString => if is_space c then EmptyString else String c EmptyString
      | r => String c r
      end
  end.

(** [s.split(sep)] for a one-character separator: never the empty list. *)
Fixpoint split (sep : ascii) (s : string) : list string :=
  match s with
  | EmptyString => [EmptyString]
  | String c s' =>
      if Ascii.eqb c sep then EmptyString :: split sep s'
      else match split sep s' with
           | [] => [String c EmptyString]
           | h :: t => String c h :: t
           end
  end.

Definition lower_char (c : ascii) : ascii :=
  let n := nat_of_ascii c in
  if ((65 <=? n)%nat && (n <=? 90)%nat) then ascii_of_nat (n + 32) else c.

(** [s.lower()] *)
Fixpoint lower (s : string) : string :=
  match s with
  | EmptyString => EmptyString
  | String c s' => String (lower_char c) (lower s')
  end.

Definition comma : ascii := ","%char.
Definition dash : ascii := "-"%char.

(** ** Dictionaries *)

Definition dict (V : Type) : Type := list (string * V).

Fixpoint dict_get {V} (d : dict V) (k : string) : option V :=
  match d with
  | [] => None
  | (k', v) :: d' => if String.eqb k k' then Some v else dict_get d' k
  end.

(** [k in d] *)
Definition dict_mem {V} (d : dict V) (k : string) : bool :=
  match dict_get d k with Some _ => true | None => false end.

(** [d[k] = v] *)
Fixpoint dict_set {V} (d : dict V) (k : string) (v : V) : dict V :=
  match d with
  | [] => [(k, v)]
  | (k', v') :: d' =>
      if String.eqb k k' then (k', v) :: d' else (k', v') :: dict_set d' k v
  end.

Definition dict_keys {V} (d : dict V) : list string := map fst d.

(** ** Values, records, exceptions, output *)

(** What a statistics record holds under a key: the fips string, or a count. *)
Inductive value : Type :=
| VStr (s : string)
| VInt (n : Z).

(** The four-key dictionary of one county in [geo_dict]. *)
Record GeoRecord : Type := mkGeo {
  lat : float;
  lon : float;
  population : Z;
  largest_city : Z }.

Inductive message : Type :=
| CountiesFileNotFound (path : string)
| GeocodesFileNotFound (path : string)
| ColumnMismatch (column expected : string)
| StatisticNotFound (stat : string)
| StateNotFound (state : string)
| CountyNotFound (county state : string)
| InputFileMissing (path : string)
| DistanceTooLarge
| InvalidInputData (err : message)
| InvalidLiteral (s : string)
| UnpackMismatch (expected got : nat)
| MathDomainError
| DateOutOfRange
| IntTooLarge
| KeyRepr (key : string)
| IndexOutOfRange
| NumberRequired
| NoSuchFile (path : string).

Inductive exn : Type :=
| RuntimeError (m : message)
| ValueError (m : message)
| KeyError (key : string)
| IndexError
| TypeError
| OverflowError
| FileNotFoundError (path : string).

(** [str(err)] *)
Definition str_of_exn (e : exn) : message :=
  match e with
  | RuntimeError m => m
  | ValueError m => m
  | KeyError k => KeyRepr k
  | IndexError => IndexOutOfRange
  | TypeError => NumberRequired
  | OverflowError => IntTooLarge
  | FileNotFoundError p => NoSuchFile p
  end.

(** The lines the program prints. *)
Inductive Msg : Type :=
| WarnIncomplete (linenum : Z)
| SkippingLine (line : string)
| WarnAlreadyLoaded (county state : string)
| ReplacingWith (date_field : string)
| Finding (stat : string) (distance : float) (county state : string)
| DistBetween (county state new_county new_state : string) (dist : float)
| Adding (cases total : Z) (new_county new_state : string)
| InTotal (total : Z) (stat : string) (distance : float)
          (county state : string) (population : Z).

(** ** Process state and the monad of the program *)

(** The two class attributes of [CovidData], shared by all its instances,
    and what was printed so far. *)
Record World : Type := mkWorld {
  covid_dict : dict (dict (dict value));
  geo_dict : dict (dict GeoRecord);
  stdout : list Msg }.

Definition M (A : Type) : Type := World -> World * (exn + A).

Definition ret {A} (a : A) : M A := fun w => (w, inr a).
Definition raise {A} (e : exn) : M A := fun w => (w, inl e).
Definition bind {A B} (m : M A) (k : A -> M B) : M B :=
  fun w => match m w with
           | (w', inl e) => (w', inl e)
           | (w', inr a) => k a w'
           end.

Declare Scope py_scope.
Delimit Scope py_scope with py.
Notation "x <- m ;; k" := (bind m (fun x => k))
  (at level 61, m at next level, right associativity) : py_scope.
Notation "m ;; k" := (bind m (fun _ => k))
  (at level 61, right associativity) : py_scope.
Local Open Scope py_scope.

(** A computation that only returns or raises. *)
Definition lift {A} (r : exn + A) : M A := fun w => (w, r).

Definition ebind {A B} (m : exn + A) (k : A -> exn + B) : exn + B :=
  match m with
  | inl e => inl e
  | inr a => k a
  end.

Notation "x <~ m ;; k" := (ebind m (fun x => k))
  (at level 61, m at next level, right associativity) : py_scope.

Definition print (m : Msg) : M unit :=
  fun w => (mkWorld (covid_dict w) (geo_dict w) (stdout w ++ [m]), inr tt).

Definition get_covid : M (dict (dict (dict value))) := fun w => (w, inr (covid_dict w)).
Definition get_geo : M (dict (dict GeoRecord)) := fun w => (w, inr (geo_dict w)).
Definition put_covid (d : dict (dict (dict value))) : M unit :=
  fun w => (mkWorld d (geo_dict w) (stdout w), inr tt).
Definition put_geo (d : dict (dict GeoRecord)) : M unit :=
  fun w => (mkWorld (covid_dict w) d (stdout w), inr tt).

(** [l[i]] *)
Definition list_index {A} (l : list A) (i : nat) : exn + A :=
  match nth_error l i with
  | Some a => inr a
  | None => inl IndexError
  end.

(** [d[k]] *)
Definition dict_index {V} (d : dict V) (k : string) : exn + V :=
  match dict_get d k with
  | Some v => inr v
  | None => inl (KeyError k)
  end.

(** ** What the sources take from outside *)

Class Runtime : Type := {
  (** [int(s)]; [None] is its [ValueError]. *)
  py_int : string -> option Z;
  (** [float(s)]; [None] is its [ValueError]. *)
  py_float : string -> option float;
  (** [math.sin], [math.cos], [math.atan2]; [None] is a math domain error. *)
  math_sin : float -> option float;
  math_cos : float -> option float;
  math_atan2 : float -> float -> option float;
  (** The table of [src/us_states.py], full state name to abbreviation. *)
  us_state_abbrev : dict string }.

(** A file is the list of its lines as [readline] returns them. A path
    either names no file or names a text file that opens and reads: a path
    that is there and cannot be opened or decoded (a directory, a file
    without permission, bytes that are no text) is outside the model. *)
Definition FileSystem : Type := string -> option (list string).

Definition exists_ (fs : FileSystem) (path : string) : bool :=
  match fs path with Some _ => true | None => false end.

Definition open (fs : FileSystem) (path : string) : exn + list string :=
  match fs path with
  | Some f => inr f
  | None => inl (FileNotFoundError path)
  end.

(** [f.readline()]: the next line and the rest, [''] at the end of the file. *)
Definition readline (f : list string) : string * list string :=
  match f with
  | [] => (EmptyString, [])
  | l :: f' => (l, f')
  end.

(** ** [datetime.date] *)

Record date : Type := mkDate { year : Z; month : Z; day : Z }.

Definition date_eqb (a b : date) : bool :=
  (year a =? year b) && (month a =? month b) && (day a =? day b).

Definition is_leap (y : Z) : bool :=
  (y mod 4 =? 0) && (negb (y mod 100 =? 0) || (y mod 400 =? 0)).

Definition days_in_month (y m : Z) : Z :=
  if m =? 2 then (if is_leap y then 29 else 28)
  else if (m =? 4) || (m =? 6) || (m =? 9) || (m =? 11) then 30 else 31.

Definition fits_c_int (z : Z) : bool := (- 2147483648 <=? z) && (z <=? 2147483647).

(** [date(y, m, d)] *)
Definition new_date (y m d : Z) : exn + date :=
  if negb (fits_c_int y && fits_c_int m && fits_c_int d) then inl OverflowError
  else if (1 <=? y) && (y <=? 9999) && (1 <=? m) && (m <=? 12)
          && (1 <=? d) && (d <=? days_in_month y m)
       then inr (mkDate y m d)
       else inl (ValueError DateOutOfRange).

(** ** class CovidData *)

(** The attributes of one instance. The tables are not among them: they are
    class attributes, held in [World]. *)
Record CovidData : Type := mkCovidData {
  counties_path : string;
  geocodes_path : string;
  target_date : option date;
  stat_names : list string }.

Definition counties_data_types : list string := ["date"; "county"; "state"; "fips"].
Definition num_fixed_types : nat := List.length counties_data_types.

Definition geo_data_types : list string :=
  ["zip"; "primary_city"; "state"; "latitude"; "longitude"; "county"; "type";
   "world_region"; "country"; "decommissioned"; "estimated_population"; "notes"].

(** Lines 235-239: a further city of a county already in the table. *)
Definition geo_update (rec : GeoRecord) (lat_ lon_ : float) (pop : Z) : GeoRecord :=
  let total := population rec + pop in
  if pop >? largest_city rec then mkGeo lat_ lon_ total pop
  else mkGeo (lat rec) (lon rec) total (largest_city rec).

Section Loaders.
Context {RT : Runtime}.

Definition int_ (s : string) : exn + Z :=
  match py_int s with Some n => inr n | None => inl (ValueError (InvalidLiteral s)) end.

Definition float_ (s : string) : exn + float :=
  match py_float s with Some x => inr x | None => inl (ValueError (InvalidLiteral s)) end.

(** The loop of [validate_header] over [range(num_fixed_types)]. *)
Fixpoint validate_columns (data_types : list string) (range : list nat)
  : exn + unit :=
  match range with
  | [] => inr tt
  | i :: range' =>
      col <~ list_index data_types i ;;
      expected <~ list_index counties_data_types i ;;
      if negb (String.eqb (lower col) expected)
      then inl (ValueError (ColumnMismatch col expected))
      else validate_columns data_types range'
  end.

(** [validate_header] only returns or raises. *)
Definition validate_header (header : string) (data_names : list string)
  : exn + list string :=
  let data_types := split comma (rstrip header) in
  _ <~ validate_columns data_types (seq 0 num_fixed_types) ;;
  inr (skipn num_fixed_types data_types).

(** [year, month, day = field.split('-'); date(int(year), int(month), int(day))] *)
Definition parse_date (field : string) : exn + date :=
  match split dash field with
  | [y; m; d] =>
      y' <~ int_ y ;; m' <~ int_ m ;; d' <~ int_ d ;; new_date y' m' d'
  | parts => inl (ValueError (UnpackMismatch 3 (List.length parts)))
  end.

(** [self.covid_dict[state][county][key] = v] *)
Definition covid_record_set (state county key : string) (v : value) : M unit :=
  covid <- get_covid ;;
  counties <- lift (dict_index covid state) ;;
  rec <- lift (dict_index counties county) ;;
  put_covid (dict_set covid state (dict_set counties county (dict_set rec key v))).

(** The loop over [enumerate(self.stat_names)], lines 154-163. *)
Fixpoint enter_stats (line_data : list string) (state county : string)
    (names : list string) (i : nat) : M unit :=
  match names with
  | [] => ret tt
  | stat :: names' =>
      field <- lift (list_index line_data (i + num_fixed_types)) ;;
      v <- (if String.eqb field "" then ret 0 else lift (int_ field)) ;;
      covid_record_set state county stat (VInt v) ;;
      enter_stats line_data state county names' (S i)
  end.

(** One turn of the [while] loop of [load_counties_data], on the line just
    read; the result is the next [linenum]. *)
Definition counties_row (self : CovidData) (line : string) (linenum : Z) : M Z :=
  let line_data := split comma (rstrip line) in
  if negb (Nat.eqb (List.length line_data)
                   (num_fixed_types + List.length (stat_names self)))
  then print (WarnIncomplete linenum) ;; print (SkippingLine line) ;;
       ret (linenum + 1)
  else
    current_date <-
      match target_date self with
      | Some _ => date_field <- lift (list_index line_data 0) ;;
                  d <- lift (parse_date date_field) ;; ret (Some d)
      | None => ret None
      end ;;
    let other_date :=
      match target_date self, current_date with
      | Some t, Some d => negb (date_eqb d t)
      | Some _, None => true
      | None, _ => false
      end in
    if other_date then ret (linenum + 1)
    else
      county <- lift (list_index line_data 1) ;;
      state_name <- lift (list_index line_data 2) ;;
      state <- lift (dict_index us_state_abbrev state_name) ;;
      fips <- lift (list_index line_data 3) ;;
      covid <- get_covid ;;
      (if negb (dict_mem covid state)
       then put_covid (dict_set covid state ([] : dict (dict value)))
       else ret tt) ;;
      covid <- get_covid ;;
      counties <- lift (dict_index covid state) ;;
      (if negb (dict_mem counties county)
       then put_covid (dict_set covid state
                         (dict_set counties county [("fips", VStr fips)]))
       else print (WarnAlreadyLoaded county state) ;;
            date_field <- lift (list_index line_data 0) ;;
            print (ReplacingWith date_field) ;;
            covid_record_set state county "fips" (VStr fips)) ;;
      enter_stats line_data state county (stat_names self) 0 ;;
      ret (linenum + 1).

(** The [while line:] loop of a loader over the lines after the header:
    each turn reads a line and handles it, the [''] of the end of the file
    included, and the loop ends after the turn that read an empty string. *)
Fixpoint read_rows (row : string -> Z -> M Z) (rest : list string) (linenum : Z)
  : M unit :=
  match rest with
  | [] => row "" linenum ;; ret tt
  | line :: rest' =>
      linenum' <- row line linenum ;;
      if String.eqb line "" then ret tt else read_rows row rest' linenum'
  end.

Definition with_stat_names (self : CovidData) (names : list string) : CovidData :=
  mkCovidData (counties_path self) (geocodes_path self) (target_date self) names.

(** [load_counties_data]; the result is [self] with [stat_names] assigned. *)
Definition load_counties_data (fs : FileSystem) (self : CovidData) : M CovidData :=
  if negb (exists_ fs (counties_path self))
  then raise (RuntimeError (CountiesFileNotFound (counties_path self)))
  else
    f <- lift (open fs (counties_path self)) ;;
    let (line, rest) := readline f in
    names <- lift (validate_header line counties_data_types) ;;
    let self' := with_stat_names self names in
    (if String.eqb line "" then ret tt
     else read_rows (counties_row self') rest 1) ;;
    ret self'.

(** One turn of the [while] loop of [load_geocodes_data]. *)
Definition geocodes_row (line : string) (linenum : Z) : M Z :=
  let line_data := split comma (rstrip line) in
  if (List.length line_data <? List.length geo_data_types)%nat
  then print (WarnIncomplete linenum) ;; print (SkippingLine line) ;;
       ret (linenum + 1)
  else
    state <- lift (list_index line_data 2) ;;
    county <- lift (list_index line_data 5) ;;
    lat_field <- lift (list_index line_data 3) ;;
    lat_ <- lift (float_ lat_field) ;;
    lon_field <- lift (list_index line_data 4) ;;
    lon_ <- lift (float_ lon_field) ;;
    pop_field <- lift (list_index line_data 10) ;;
    pop <- lift (int_ pop_field) ;;
    geo <- get_geo ;;
    (if negb (dict_mem geo state)
     then put_geo (dict_set geo state ([] : dict GeoRecord))
     else ret tt) ;;
    geo <- get_geo ;;
    counties <- lift (dict_index geo state) ;;
    (if negb (dict_mem counties county)
     then put_geo (dict_set geo state
                     (dict_set counties county (mkGeo lat_ lon_ pop pop)))
     else rec <- lift (dict_index counties county) ;;
          put_geo (dict_set geo state
                     (dict_set counties county (geo_update rec lat_ lon_ pop)))) ;;
    ret (linenum + 1).

(** [load_geocodes_data]: the path tested is [counties_path], as in the source. *)
Definition load_geocodes_data (fs : FileSystem) (self : CovidData) : M unit :=
  if negb (exists_ fs (counties_path self))
  then raise (RuntimeError (GeocodesFileNotFound (counties_path self)))
  else
    f <- lift (open fs (geocodes_path self)) ;;
    let (line, rest) := readline f in
    if String.eqb line "" then ret tt
    else read_rows geocodes_row rest 1.

(** [CovidData.__init__] *)
Definition init (fs : FileSystem) (counties_path_ geocodes_path_ : string)
    (target_date_ : option date) : M CovidData :=
  let self := mkCovidData counties_path_ geocodes_path_ target_date_ [] in
  self' <- load_counties_data fs self ;;
  load_geocodes_data fs self' ;;
  ret self'.

End Loaders.

(** ** [src/haversine.py] in binary64 *)

Section Aggregation.
Context {RT : Runtime}.

Definition math_result (r : option float) : exn + float :=
  match r with Some y => inr y | None => inl (ValueError MathDomainError) end.

(** [math.sqrt]: a negative argument is a math domain error. *)
Definition math_sqrt (x : float) : exn + float :=
  if PrimFloat.ltb x 0%float then inl (ValueError MathDomainError)
  else inr (PrimFloat.sqrt x).

(** [math.radians]: the argument times pi/180. *)
Definition radians (x : float) : float :=
  (x * (3.141592653589793 / 180))%float.

(** [haversine] touches neither the tables nor the output: it is a function
    to a distance or an exception. *)
Definition haversine (origin destination : float * float) : exn + float :=
  let (lat1, lon1) := origin in
  let (lat2, lon2) := destination in
  let radius := 6371%float in
  let dlat := radians (lat2 - lat1)%float in
  let dlon := radians (lon2 - lon1)%float in
  s1 <~ math_result (math_sin (dlat / 2)%float) ;;
  s2 <~ math_result (math_sin (dlat / 2)%float) ;;
  c1 <~ math_result (math_cos (radians lat1)) ;;
  c2 <~ math_result (math_cos (radians lat2)) ;;
  s3 <~ math_result (math_sin (dlon / 2)%float) ;;
  s4 <~ math_result (math_sin (dlon / 2)%float) ;;
  let a := (s1 * s2 + c1 * c2 * s3 * s4)%float in
  y <~ math_sqrt a ;;
  x <~ math_sqrt (1 - a)%float ;;
  t <~ math_result (math_atan2 y x) ;;
  let c := (2 * t)%float in
  let d := (radius * c)%float in
  inr (d / 1.60934)%float.

(** ** [compute_stats] *)

Record Request : Type := mkRequest {
  req_state : string;
  req_county : string;
  req_distance : float }.

Record Result : Type := mkResult {
  res_state : string;
  res_county : string;
  res_fips : list value;
  res_counties : list (string * string);
  res_stat : string;
  res_population : Z;
  res_stat_total : Z;
  res_cords : float * float }.

(** The entries of [result] the scan updates. *)
Record Totals : Type := mkTotals {
  stat_total : Z;
  pop_total : Z;
  counties : list (string * string);
  fips : list value }.

(** The body of the inner [for], lines 305-330, on one entry of
    [geo_dict[new_state]]. *)
Definition scan_county (county state stat : string) (distance : float)
    (origin : float * float) (new_state : string)
    (entry : string * GeoRecord) (acc : Totals) : M Totals :=
  let (new_county, rec) := entry in
  if String.eqb new_county "" then ret acc
  else
    let point := (lat rec, lon rec) in
    dist <- lift (haversine origin point) ;;
    if PrimFloat.leb dist distance
    then
      covid <- get_covid ;;
      table <- lift (dict_index covid new_state) ;;
      if dict_mem table new_county
      then
        print (DistBetween county state new_county new_state dist) ;;
        crec <- lift (dict_index table new_county) ;;
        v <- lift (dict_index crec stat) ;;
        n <- match v with
             | VInt n => ret n
             | VStr _ => raise TypeError
             end ;;
        print (Adding n (stat_total acc) new_county new_state) ;;
        f <- lift (dict_index crec "fips") ;;
        ret (mkTotals (stat_total acc + n) (pop_total acc + population rec)
                      (counties acc ++ [(new_county, new_state)])
                      (fips acc ++ [f]))
      else ret acc
    else ret acc.

Fixpoint scan_counties (county state stat : string) (distance : float)
    (origin : float * float) (new_state : string)
    (entries : dict GeoRecord) (acc : Totals) : M Totals :=
  match entries with
  | [] => ret acc
  | entry :: entries' =>
      acc' <- scan_county county state stat distance origin new_state entry acc ;;
      scan_counties county state stat distance origin new_state entries' acc'
  end.

Fixpoint scan_states (county state stat : string) (distance : float)
    (origin : float * float) (geo : dict (dict GeoRecord)) (acc : Totals)
  : M Totals :=
  match geo with
  | [] => ret acc
  | (new_state, entries) :: geo' =>
      acc' <- scan_counties county state stat distance origin new_state entries acc ;;
      scan_states county state stat distance origin geo' acc'
  end.

Definition compute_stats (self : CovidData) (request : Request) (stat : string)
  : M Result :=
  let state := req_state request in
  let county := req_county request in
  let distance := req_distance request in
  if negb (existsb (String.eqb stat) (stat_names self))
  then raise (ValueError (StatisticNotFound stat))
  else
    print (Finding stat distance county state) ;;
    geo <- get_geo ;;
    if negb (dict_mem geo state)
    then raise (ValueError (StateNotFound state))
    else
      table <- lift (dict_index geo state) ;;
      if negb (dict_mem table county)
      then raise (ValueError (CountyNotFound county state))
      else
        rec <- lift (dict_index table county) ;;
        let origin := (lat rec, lon rec) in
        acc <- scan_states county state stat distance origin geo
                 (mkTotals 0 0 [] []) ;;
        print (InTotal (stat_total acc) stat distance county state (pop_total acc)) ;;
        ret (mkResult state county (fips acc) (counties acc) stat
                      (pop_total acc) (stat_total acc) origin).

(** ** [run.py] *)

(** [try: body except Exception as err: handler(err)], for a body that only
    returns or raises. *)
Definition try_except {A} (body : exn + A) (handler : exn -> M A) : M A :=
  match body with
  | inl err => handler err
  | inr a => ret a
  end.

(** The [try] block of [get_requests] on one line. *)
Definition request_of_line (line : string) : exn + Request :=
  match split comma line with
  | [county; state; dist] =>
      x <~ float_ dist ;;
      if PrimFloat.ltb 1000%float x
      then inl (ValueError DistanceTooLarge)
      else x' <~ float_ dist ;;
           inr (mkRequest state county x')
  | parts => inl (ValueError (UnpackMismatch 3 (List.length parts)))
  end.

(** The [while line:] loop of [get_requests]: [line] is the stripped line in
    hand, [rest] what the file still holds. *)
Fixpoint requests_loop (line : string) (rest : list string)
    (requests : list Request) : M (list Request) :=
  if String.eqb line "" then ret requests
  else
    req <- try_except (request_of_line line)
             (fun err => raise (RuntimeError (InvalidInputData (str_of_exn err)))) ;;
    match rest with
    | [] => ret (requests ++ [req])%list
    | l :: rest' => requests_loop (rstrip l) rest' (requests ++ [req])%list
    end.

Definition get_requests (fs : FileSystem) (input_path : string)
  : M (list Request) :=
  if negb (exists_ fs input_path)
  then raise (RuntimeError (InputFileMissing input_path))
  else
    f <- lift (open fs input_path) ;;
    let (_, f1) := readline f in
    let (line, f2) := readline f1 in
    requests_loop (rstrip line) f2 [].

(** The [for request in requests] loop of [main]. *)
Fixpoint serve (data : CovidData) (requests : list Request) (statistic : string)
  : M (list Result) :=
  match requests with
  | [] => ret []
  | request :: requests' =>
      r <- compute_stats data request statistic ;;
      rs <- serve data requests' statistic ;;
      ret (r :: rs)
  end.

(** [main] from the requests on: argument parsing before and plotting after
    are left out. *)
Definition main (fs : FileSystem) (counties_data geocodes input_path : string)
    (target_date_ : option date) (statistic : string) : M (list Result) :=
  requests <- get_requests fs input_path ;;
  data <- init fs counties_data geocodes target_date_ ;;
  serve data requests statistic.

End Aggregation.

(** ** Readings of the source used to state its properties

    Each definition of this part restates lines of the source as a function
    of the table or of the line; the lemmas below show that the code above
    computes them. *)

Section Readings.
Context {RT : Runtime}.

(** A request row whose radius is at most 1000 miles, and the request it
    stands for. *)
Definition within_limit (line : string) (r : Request) : Prop :=
  exists county state dist x,
    split comma (rstrip line) = [county; state; dist]
    /\ py_float dist = Some x
    /\ PrimFloat.leb x 1000%float = true
    /\ r = mkRequest state county x.

(** A request row whose radius is above 1000 miles. *)
Definition above_limit (line : string) : Prop :=
  exists county state dist x,
    split comma (rstrip line) = [county; state; dist]
    /\ py_float dist = Some x
    /\ PrimFloat.ltb 1000%float x = true.

Definition too_large : exn := RuntimeError (InvalidInputData DistanceTooLarge).

(** The loop started on the first of [rows]. *)
Definition requests_from (rows : list string) (acc : list Request)
  : M (list Request) :=
  match rows with
  | [] => ret acc
  | l :: rest => requests_loop (rstrip l) rest acc
  end.

(** The exceptions [compute_stats] raises for a request it cannot look up. *)
Definition lookup_error (e : exn) : bool :=
  match e with
  | ValueError (StatisticNotFound _)
  | ValueError (StateNotFound _)
  | ValueError (CountyNotFound _ _) => true
  | _ => false
  end.

Definition printed (w : World) (m : Msg) : World :=
  mkWorld (covid_dict w) (geo_dict w) (stdout w ++ [m]).

(** An entry of the geocode table with a county name, within [distance] of
    [origin], whose state the statistics table [covid] does not have. *)
Definition uncovered_state (covid : dict (dict (dict value)))
    (origin : float * float) (distance : float)
    (new_state : string) (entry : string * GeoRecord) : Prop :=
  fst entry <> ""
  /\ (exists dist, haversine origin (lat (snd entry), lon (snd entry)) = inr dist
                   /\ PrimFloat.leb dist distance = true)
  /\ dict_get covid new_state = None.

(** [d[k1][k2]], when both keys are there. *)
Definition lookup2 {V} (d : dict (dict V)) (k1 k2 : string) : option V :=
  match dict_get d k1 with
  | Some t => dict_get t k2
  | None => None
  end.

(** One row of the geocode file that has all its columns: a city. *)
Record City : Type := mkCity {
  city_state : string;
  city_county : string;
  city_lat : float;
  city_lon : float;
  city_population : Z }.

Inductive GeoRow : Type :=
| ShortRow
| BadRow (e : exn)
| CityRow (c : City).

(** Lines 221-239 on the table. *)
Definition geo_enter (geo : dict (dict GeoRecord)) (c : City) : dict (dict GeoRecord) :=
  let geo1 := if dict_mem geo (city_state c) then geo
              else dict_set geo (city_state c) ([] : dict GeoRecord) in
  match dict_get geo1 (city_state c) with
  | None => geo1
  | Some table =>
      match dict_get table (city_county c) with
      | None =>
          dict_set geo1 (city_state c)
            (dict_set table (city_county c)
               (mkGeo (city_lat c) (city_lon c) (city_population c) (city_population c)))
      | Some rec =>
          dict_set geo1 (city_state c)
            (dict_set table (city_county c)
               (geo_update rec (city_lat c) (city_lon c) (city_population c)))
      end
  end.

Definition with_geo (geo : dict (dict GeoRecord)) (w : World) : World :=
  mkWorld (covid_dict w) geo (stdout w).

(** Lines 193-212: what a line of the geocode file is read as. *)
Definition read_geo_row (line : string) : GeoRow :=
  let line_data := split comma (rstrip line) in
  if (List.length line_data <? List.length geo_data_types)%nat then ShortRow
  else
    match py_float (nth 3 line_data "") with
    | None => BadRow (ValueError (InvalidLiteral (nth 3 line_data "")))
    | Some lat_ =>
        match py_float (nth 4 line_data "") with
        | None => BadRow (ValueError (InvalidLiteral (nth 4 line_data "")))
        | Some lon_ =>
            match py_int (nth 10 line_data "") with
            | None => BadRow (ValueError (InvalidLiteral (nth 10 line_data "")))
            | Some pop =>
                CityRow (mkCity (nth 2 line_data "") (nth 5 line_data "")
                           lat_ lon_ pop)
            end
        end
    end.

(** The cities among the lines of a file, in order. *)
Definition cities_of_rows (rows : list string) : list City :=
  flat_map (fun line => match read_geo_row line with
                        | CityRow c => [c]
                        | _ => []
                        end) rows.

Definition in_county (state county : string) (c : City) : bool :=
  String.eqb (city_state c) state && String.eqb (city_county c) county.

(** The record a city leaves in its county. *)
Definition absorb (r : option GeoRecord) (c : City) : GeoRecord :=
  match r with
  | None => mkGeo (city_lat c) (city_lon c) (city_population c) (city_population c)
  | Some rec => geo_update rec (city_lat c) (city_lon c) (city_population c)
  end.

(** The county's record after a run of cities, from what it was before. *)
Definition absorb_all (r : option GeoRecord) (cs : list City) : option GeoRecord :=
  fold_left (fun r c => Some (absorb r c)) cs r.

Definition total_population (cs : list City) : Z :=
  fold_right (fun c n => city_population c + n) 0 cs.

(** [rec] stands for the cities [cs]: their summed population, and the
    coordinates of the first city of the largest population. *)
Definition merged (cs : list City) (rec : GeoRecord) : Prop :=
  population rec = total_population cs
  /\ exists i c,
       nth_error cs i = Some c
       /\ lat rec = city_lat c /\ lon rec = city_lon c
       /\ largest_city rec = city_population c
       /\ (forall j c', nth_error cs j = Some c' ->
             city_population c' <= city_population c)
       /\ (forall j c', (j < i)%nat -> nth_error cs j = Some c' ->
             city_population c' < city_population c).

Definition warned (w : World) (linenum : Z) (line : string) : World :=
  mkWorld (covid_dict w) (geo_dict w)
          ((stdout w ++ [WarnIncomplete linenum]) ++ [SkippingLine line]).

Definition named (entry : string * GeoRecord) : bool := negb (String.eqb (fst entry) "").

(** The geocode table without its records of an empty county name. *)
Definition named_only (geo : dict (dict GeoRecord)) : dict (dict GeoRecord) :=
  map (fun st => (fst st, filter named (snd st))) geo.

Definition on_world {A} (f : World -> World) (x : World * (exn + A)) : World * (exn + A) :=
  (f (fst x), snd x).

(** [d[k1][k2] = v], with [d[k1] = {}] first when [k1] is not in [d]. *)
Definition set2 {V} (d : dict (dict V)) (k1 k2 : string) (v : V) : dict (dict V) :=
  match dict_get d k1 with
  | Some t => dict_set d k1 (dict_set t k2 v)
  | None => dict_set d k1 [(k2, v)]
  end.

Definition with_covid (covid : dict (dict (dict value))) (w : World) : World :=
  mkWorld covid (geo_dict w) (stdout w).

(** What a line of the statistics file is read as, before any statistic is
    parsed: lines 88-133. *)
Inductive CountiesRow : Type :=
| Malformed
| OtherDate
| Failing (e : exn)
| StatRow (date_field county state fips : string) (fields : list string).

(** Lines 136-151 on the county's record: a fresh one, or its fips replaced. *)
Definition fips_entered (old : option (dict value)) (fips : string) : dict value :=
  match old with
  | None => [("fips", VStr fips)]
  | Some rec => dict_set rec "fips" (VStr fips)
  end.

Definition read_counties_row (self : CovidData) (line : string) : CountiesRow :=
  let line_data := split comma (rstrip line) in
  if negb (Nat.eqb (List.length line_data)
                   (num_fixed_types + List.length (stat_names self)))
  then Malformed
  else
    let keyed :=
      match dict_get us_state_abbrev (nth 2 line_data "") with
      | None => Failing (KeyError (nth 2 line_data ""))
      | Some state =>
          StatRow (nth 0 line_data "") (nth 1 line_data "") state
                  (nth 3 line_data "") (skipn num_fixed_types line_data)
      end in
    match target_date self with
    | None => keyed
    | Some t =>
        match parse_date (nth 0 line_data "") with
        | inl e => Failing e
        | inr d => if negb (date_eqb d t) then OtherDate else keyed
        end
    end.

(** Lines 157-161: the count a field stands for. *)
Definition stat_value (field : string) : exn + Z :=
  if String.eqb field "" then inr 0 else int_ field.

(** Lines 154-163 on the county's record: the statistics of the row entered
    one by one, up to the first field that does not parse. *)
Fixpoint enter_values (rec : dict value) (names fields : list string)
  : dict value * option exn :=
  match names with
  | [] => (rec, None)
  | stat :: names' =>
      match fields with
      | [] => (rec, Some IndexError)
      | field :: fields' =>
          match stat_value field with
          | inl e => (rec, Some e)
          | inr v => enter_values (dict_set rec stat (VInt v)) names' fields'
          end
      end
  end.

(** The record a row gives a county not yet in the table. *)
Definition row_record (names : list string) (fips : string) (fields : list string)
  : dict value :=
  fst (enter_values (fips_entered None fips) names fields).

(** One binding per key, for states and for the counties of each state. *)
Definition one_record_per_key {V} (d : dict (dict V)) : Prop :=
  NoDup (dict_keys d) /\ forall k t, In (k, t) d -> NoDup (dict_keys t).

(** What one turn of the loop does, by what the line is read as. *)
Definition row_effect (self : CovidData) (row : CountiesRow) (linenum : Z)
    (line : string) (w : World) : World * (exn + Z) :=
  match row with
  | Malformed => (warned w linenum line, inr (linenum + 1))
  | OtherDate => (w, inr (linenum + 1))
  | Failing e => (w, inl e)
  | StatRow date_field county state fips fields =>
      let old := lookup2 (covid_dict w) state county in
      let out := match old with
                 | Some _ => [WarnAlreadyLoaded county state; ReplacingWith date_field]
                 | None => []
                 end in
      let entered := enter_values (fips_entered old fips) (stat_names self) fields in
      (mkWorld (set2 (covid_dict w) state county (fst entered)) (geo_dict w)
               (stdout w ++ out),
       match snd entered with
       | None => inr (linenum + 1)
       | Some e => inl e
       end)
  end.

(** A run of records entered into the table. *)
Definition set2_all {V} (updates : list (string * string * V)) (d : dict (dict V))
  : dict (dict V) :=
  fold_left (fun d u => set2 d (fst (fst u)) (snd (fst u)) (snd u)) updates d.

End Readings.

(** ** Further readings: the region of a request, complete records, the
    loop of the statistics loader *)

Definition sum (l : list Z) : Z := fold_right Z.add 0 l.

Section FurtherReadings.
Context {RT : Runtime}.

(** Lines 307-324: whether the scan takes an entry of [geo_dict[new_state]]
    into the region. *)
Definition in_region (covid : dict (dict (dict value))) (origin : float * float)
    (distance : float) (new_state : string) (entry : string * GeoRecord) : bool :=
  negb (String.eqb (fst entry) "")
  && match haversine origin (lat (snd entry), lon (snd entry)) with
     | inr dist => PrimFloat.leb dist distance
     | inl _ => false
     end
  && match dict_get covid new_state with
     | Some table => dict_mem table (fst entry)
     | None => false
     end.

(** The entries of the geocode table the scan takes, in the order of the
    table: state, county and geocode record. *)
Definition region (covid : dict (dict (dict value))) (origin : float * float)
    (distance : float) (geo : dict (dict GeoRecord))
  : list (string * string * GeoRecord) :=
  flat_map (fun st => map (fun entry => (fst st, fst entry, snd entry))
                        (filter (in_region covid origin distance (fst st)) (snd st)))
           geo.

(** What the scan adds to the totals for a run of entries it takes. *)
Definition totals_extended (covid : dict (dict (dict value))) (stat : string)
    (items : list (string * string * GeoRecord)) (acc acc' : Totals) : Prop :=
  counties acc' = (counties acc ++ map (fun i => (snd (fst i), fst (fst i))) items)%list
  /\ pop_total acc'
     = pop_total acc + sum (map (fun i => population (snd i)) items)
  /\ exists ns fs,
       Forall2 (fun i n => exists crec,
                    lookup2 covid (fst (fst i)) (snd (fst i)) = Some crec
                    /\ dict_get crec stat = Some (VInt n)) items ns
       /\ Forall2 (fun i f => exists crec,
                      lookup2 covid (fst (fst i)) (snd (fst i)) = Some crec
                      /\ dict_get crec "fips" = Some f) items fs
       /\ stat_total acc' = stat_total acc + sum ns
       /\ fips acc' = (fips acc ++ fs)%list.

(** The statistics table after the loop of [load_counties_data] over [rows],
    and the exception that ended it, if any: the loop with its line counter
    and its output left out. *)
Fixpoint counties_after (self : CovidData) (rows : list string)
    (covid : dict (dict (dict value))) : dict (dict (dict value)) * option exn :=
  match rows with
  | [] => (covid, None)
  | line :: rows' =>
      match read_counties_row self line with
      | Malformed | OtherDate =>
          if String.eqb line "" then (covid, None)
          else counties_after self rows' covid
      | Failing e => (covid, Some e)
      | StatRow _ county state fips fields =>
          let entered :=
            enter_values (fips_entered (lookup2 covid state county) fips)
                         (stat_names self) fields in
          let covid' := set2 covid state county (fst entered) in
          match snd entered with
          | Some e => (covid', Some e)
          | None => if String.eqb line "" then (covid', None)
                    else counties_after self rows' covid'
          end
      end
  end.

(** A row the loader enters or fails on: neither of a wrong number of fields
    nor of another date than the target. *)
Definition row_counts (self : CovidData) (line : string) : bool :=
  match read_counties_row self line with
  | Malformed | OtherDate => false
  | _ => true
  end.

End FurtherReadings.

(** A record of the statistics table that has a fips entry and a count under
    every statistic name. *)
Definition complete_record (names : list string) (rec : dict value) : Prop :=
  dict_get rec "fips" <> None
  /\ forall k, In k names -> exists n, dict_get rec k = Some (VInt n).

Definition complete_table (names : list string) (covid : dict (dict (dict value)))
  : Prop :=
  forall state county rec,
    lookup2 covid state county = Some rec -> complete_record names rec.

(** How a loop over the rows of a file ends. *)
Definition outcome (r : option exn) : exn + unit :=
  match r with
  | None => inr tt
  | Some e => inl e
  end.

(** A request whose radius is not above 1000 miles. *)
Definition accepted (r : Request) : Prop :=
  PrimFloat.ltb 1000%float (req_distance r) = false.

(** ** [src/plotting.py]: the data of the totals figure *)

(** [l[i] = v] on a list, for [i] within its length. *)
Fixpoint list_set {A} (l : list A) (i : nat) (v : A) : list A :=
  match l, i with
  | [], _ => []
  | _ :: l', O => v :: l'
  | x :: l', S i' => x :: list_set l' i' v
  end.

(** What the first loop of [plot_results] keeps: the largest total so far
    and the two lists handed to the figure. *)
Record TotalsData : Type := mkTotalsData {
  biggest_stat_value : Z;
  plot_fips : list value;
  plot_values : list Z }.

(** Lines 36-40. *)
Definition totals_loop (results : list Result) : TotalsData :=
  fold_left
    (fun acc result =>
       mkTotalsData
         (Z.max (biggest_stat_value acc) (res_stat_total result))
         (plot_fips acc ++ res_fips result)
         (plot_values acc
          ++ repeat (res_stat_total result) (List.length (res_fips result))))
    results (mkTotalsData 0 [] []).

(** Lines 43-46: the five binning endpoints. *)
Definition total_bins (biggest : Z) : list Z :=
  let bin_size := biggest / 5 in
  fold_left (fun bins i => list_set bins i ((Z.of_nat i + 1) * bin_size))
            (seq 0 5) (repeat 0 5).


(** ** A small runtime and small files, for running the model *)

Module Sample.

Definition digit_of (c : ascii) : option Z :=
  let n := nat_of_ascii c in
  if ((48 <=? n)%nat && (n <=? 57)%nat) then Some (Z.of_nat (n - 48)) else None.

Fixpoint digits (s : string) (acc : Z) : option Z :=
  match s with
  | EmptyString => Some acc
  | String c s' =>
      match digit_of c with
      | Some d => digits s' (10 * acc + d)
      | None => None
      end
  end.

(** [int(s)] on an optional minus sign and decimal digits. *)
Definition int_of_string (s : string) : option Z :=
  match s with
  | EmptyString => None
  | String "-" (String c s') => option_map Z.opp (digits (String c s') 0)
  | _ => digits s 0
  end.

Definition float_of_Z (z : Z) : float :=
  if z <? 0 then PrimFloat.opp (PrimFloat.of_uint63 (Uint63.of_Z (- z)))
  else PrimFloat.of_uint63 (Uint63.of_Z z).

(** [float(s)] on plain decimals [-ddd.ddd] of at most fifteen digits: the
    quotient of two exactly represented numbers, rounded once. *)
Definition float_of_string (s : string) : option float :=
  let (neg, body) :=
    match s with
    | String "-" s' => (true, s')
    | _ => (false, s)
    end in
  let parts :=
    match split "."%char body with
    | [i] => Some (i, EmptyString)
    | [i; f] => Some (i, f)
    | _ => None
    end in
  match parts with
  | None => None
  | Some (i, f) =>
      if String.eqb (i ++ f) "" then None
      else if (15 <? String.length (i ++ f))%nat then None
      else match digits (i ++ f) 0 with
           | None => None
           | Some n =>
               let x := (float_of_Z n / float_of_Z (10 ^ Z.of_nat (String.length f)))%float in
               Some (if neg then PrimFloat.opp x else x)
           end
  end.

(** Short Taylor polynomials in place of libm: good for the small angles of
    the sample files only. *)
Definition sin_poly (x : float) : option float :=
  Some (x - x * x * x / 6 + x * x * x * x * x / 120)%float.

Definition cos_poly (x : float) : option float :=
  Some (1 - x * x / 2 + x * x * x * x / 24)%float.

Definition atan2_poly (y x : float) : option float :=
  if PrimFloat.ltb 0%float x
  then let t := (y / x)%float in
       Some (t - t * t * t / 3 + t * t * t * t * t / 5)%float
  else None.

Definition runtime : Runtime := {|
  py_int := int_of_string;
  py_float := float_of_string;
  math_sin := sin_poly;
  math_cos := cos_poly;
  math_atan2 := atan2_poly;
  us_state_abbrev := [("California", "CA"); ("Nevada", "NV"); ("Oregon", "OR")] |}.

(** libm's sine where the polynomial is of no use: at the double nearest to
    pi/2 it is 1. At the small angles of the points below the polynomials
    give libm's values to the last bit. *)
Definition sin_libm (x : float) : option float :=
  if PrimFloat.eqb x 1.5707963267948966%float then Some 1%float else sin_poly x.

Definition runtime_libm : Runtime := {|
  py_int := int_of_string;
  py_float := float_of_string;
  math_sin := sin_libm;
  math_cos := cos_poly;
  math_atan2 := atan2_poly;
  us_state_abbrev := [("California", "CA"); ("Nevada", "NV"); ("Oregon", "OR")] |}.

Definition nl : string := String (ascii_of_nat 10) EmptyString.

Definition counties_header : string := "date,county,state,fips,cases,deaths" ++ nl.
Definition alameda_may1 : string := "2020-05-01,Alameda,California,06001,1636,63" ++ nl.
Definition alameda_may2 : string := "2020-05-02,Alameda,California,06001,1700,65" ++ nl.
Definition contra_costa_may1 : string :=
  "2020-05-01,Contra Costa,California,06013,907,28" ++ nl.

Definition counties_csv : list string :=
  [counties_header; alameda_may1; contra_costa_may1].

(** The same county on two dates, and no target date to choose between them. *)
Definition counties_twice_csv : list string :=
  [counties_header; alameda_may1; alameda_may2; contra_costa_may1].

(** A header one column short. *)
Definition counties_short_csv : list string :=
  ["date,county,state" ++ nl; "2020-05-01,Alameda,California" ++ nl].

Definition geo_header : string :=
  "zip,primary_city,state,latitude,longitude,county,type,world_region,country,decommissioned,estimated_population,notes"
  ++ nl.
Definition alameda_city : string :=
  "94501,Alameda,CA,37.77,-122.27,Alameda,STANDARD,NA,US,0,100," ++ nl.
Definition oakland_city : string :=
  "94601,Oakland,CA,37.78,-122.22,Alameda,STANDARD,NA,US,0,300," ++ nl.
Definition concord_city : string :=
  "94520,Concord,CA,37.98,-122.03,Contra Costa,STANDARD,NA,US,0,200," ++ nl.
Definition unnamed_city : string :=
  "94000,Nowhere,CA,37.5,-122.5,,STANDARD,NA,US,0,50," ++ nl.
Definition reno_city : string :=
  "89501,Reno,NV,39.52,-119.81,Washoe,STANDARD,NA,US,0,250," ++ nl.

Definition geocodes_csv : list string :=
  [geo_header; alameda_city; oakland_city; concord_city].

(** With a city that names no county. *)
Definition geocodes_unnamed_csv : list string :=
  [geo_header; alameda_city; unnamed_city].

(** With a city of a state the statistics files above do not cover. *)
Definition geocodes_nevada_csv : list string :=
  [geo_header; alameda_city; oakland_city; reno_city].

Definition requests_header : string := "county,state,distance" ++ nl.

Definition requests_csv : list string :=
  [requests_header; "Alameda,CA,30" ++ nl; "Contra Costa,CA,1000" ++ nl].

Definition requests_far_csv : list string :=
  [requests_header; "Alameda,CA,30" ++ nl; "Alameda,CA,1000.5" ++ nl;
   "Contra Costa,CA,10" ++ nl].

Definition requests_wide_csv : list string :=
  [requests_header; "Alameda,CA,500" ++ nl].

Definition files (path : string) : option (list string) :=
  if String.eqb path "counties.csv" then Some counties_csv
  else if String.eqb path "counties_twice.csv" then Some counties_twice_csv
  else if String.eqb path "counties_short.csv" then Some counties_short_csv
  else if String.eqb path "geocodes.csv" then Some geocodes_csv
  else if String.eqb path "geocodes_unnamed.csv" then Some geocodes_unnamed_csv
  else if String.eqb path "geocodes_nevada.csv" then Some geocodes_nevada_csv
  else if String.eqb path "requests.csv" then Some requests_csv
  else if String.eqb path "requests_far.csv" then Some requests_far_csv
  else if String.eqb path "requests_wide.csv" then Some requests_wide_csv
  else None.

Definition empty_world : World := mkWorld [] [] [].

(** An instance over the sample files, as [__init__] leaves it. *)
Definition data : CovidData :=
  mkCovidData "counties.csv" "geocodes.csv" None ["cases"; "deaths"].

(** The process state after [CovidData("counties.csv", "geocodes.csv", None)]. *)
Definition loaded : World :=
  fst (@init runtime files "counties.csv" "geocodes.csv" None empty_world).

(** The process state after
    [CovidData("counties.csv", "geocodes_nevada.csv", None)]. *)
Definition loaded_nevada : World :=
  fst (@init runtime files "counties.csv" "geocodes_nevada.csv" None empty_world).

(** The sample files with the file at [path] replaced. *)
Definition files_with (path : string) (content : list string) : FileSystem :=
  fun p => if String.eqb p path then Some content else files p.

(** A line of too few fields, and a county of a state the table of state
    names does not have. *)
Definition torn_line : string := "2020-05-01,Alameda" ++ nl.
Definition king_may1 : string := "2020-05-01,King,Washington,53033,6000,400" ++ nl.

(** A city whose latitude is not a number. *)
Definition lost_city : string :=
  "94601,Oakland,CA,north,-122.22,Alameda,STANDARD,NA,US,0,300," ++ nl.

End Sample.

(** * Proofs *)

Unset Implicit Arguments.

Ltac break_match :=
  match goal with
  | |- context [match ?x with _ => _ end] =>
      lazymatch x with
      | context [match _ with _ => _ end] => fail
      | _ => let E := fresh "E" in destruct x eqn:E
      end
  | H : context [match ?x with _ => _ end] |- _ =>
      lazymatch x with
      | context [match _ with _ => _ end] => fail
      | _ => let E := fresh "E" in destruct x eqn:E
      end
  end.

Ltac inv H := inversion H; subst; clear H.

Ltac run :=
  repeat progress
    (unfold bind, ret, raise, print, lift, get_covid, get_geo, put_covid, put_geo,
       dict_index, list_index, dict_mem in *; simpl in *).


(** ** The loaders, the scan and the request reader *)

Section Proofs.
Context {RT : Runtime}.

Lemma bind_ok {A B} {m : M A} (k : A -> M B) {w w1 a} :
  m w = (w1, inr a) -> bind m k w = k a w1.
Proof. unfold bind; intros ->; reflexivity. Qed.

Lemma bind_err {A B} {m : M A} (k : A -> M B) {w w1 e} :
  m w = (w1, inl e) -> bind m k w = (w1, inl e).
Proof. unfold bind; intros ->; reflexivity. Qed.

Lemma bind_inv_ok {A B} {m : M A} {k : A -> M B} {w w' b} :
  bind m k w = (w', inr b) ->
  exists w1 a, m w = (w1, inr a) /\ k a w1 = (w', inr b).
Proof.
  unfold bind. destruct (m w) as [w1 [e | a]]; [discriminate |].
  intros H; exists w1, a; auto.
Qed.

Lemma SFleb_not_gt (a b : SpecFloat.spec_float) :
  SpecFloat.SFleb a b = true -> SpecFloat.SFltb b a = false.
Proof.
  unfold SpecFloat.SFleb, SpecFloat.SFltb.
  destruct a as [sa | sa | | sa ma ea], b as [sb | sb | | sb mb eb]; simpl;
    try destruct sa; try destruct sb; simpl; try congruence.
  all: rewrite (Z.compare_antisym ea eb);
       destruct (ea ?= eb)%Z eqn:E; simpl; try congruence.
  all: pose proof (Pos.compare_cont_antisym ma mb Eq) as A; simpl in A;
       change (PosDef.Pos.compare_cont Eq mb ma) with (Pos.compare_cont Eq mb ma);
       rewrite <- A;
       destruct (Pos.compare_cont Eq ma mb) eqn:C;
       change (PosDef.Pos.compare_cont Eq ma mb) with (Pos.compare_cont Eq ma mb);
       rewrite ?C; simpl; congruence.
Qed.

Lemma leb_not_gt (x y : float) :
  PrimFloat.leb x y = true -> PrimFloat.ltb y x = false.
Proof. rewrite leb_spec, ltb_spec. apply SFleb_not_gt. Qed.

Lemma three_fields_nonempty (s a b c : string) :
  split comma s = [a; b; c] -> String.eqb s "" = false.
Proof. destruct s; [discriminate | reflexivity]. Qed.

Lemma request_within_limit {line r} w :
  within_limit line r ->
  String.eqb (rstrip line) "" = false
  /\ try_except (request_of_line (rstrip line))
       (fun err => raise (RuntimeError (InvalidInputData (str_of_exn err)))) w
     = (w, inr r).
Proof.
  intros (county & state & dist & x & Hs & Hf & Hle & ->).
  split; [eapply three_fields_nonempty; eauto |].
  unfold try_except, request_of_line. rewrite Hs.
  unfold float_, bind. rewrite Hf. simpl.
  rewrite (leb_not_gt _ _ Hle). reflexivity.
Qed.

Lemma request_above_limit {line} w :
  above_limit line ->
  String.eqb (rstrip line) "" = false
  /\ try_except (request_of_line (rstrip line))
       (fun err => raise (RuntimeError (InvalidInputData (str_of_exn err)))) w
     = (w, inl too_large).
Proof.
  intros (county & state & dist & x & Hs & Hf & Hgt).
  split; [eapply three_fields_nonempty; eauto |].
  unfold try_except, request_of_line. rewrite Hs.
  unfold float_, bind. rewrite Hf. simpl. rewrite Hgt. reflexivity.
Qed.

Lemma requests_from_accept {rows reqs} :
  Forall2 within_limit rows reqs ->
  forall acc w, requests_from rows acc w = (w, inr (acc ++ reqs)%list).
Proof.
  induction 1 as [| l r rows reqs Hl Hrest IH]; intros acc w.
  - simpl. rewrite app_nil_r. reflexivity.
  - destruct (request_within_limit w Hl) as [Hne Htry].
    simpl. destruct rows as [| l' rows'].
    + inversion Hrest; subst. simpl. rewrite Hne.
      rewrite (bind_ok _ Htry). reflexivity.
    + simpl. rewrite Hne. rewrite (bind_ok _ Htry).
      specialize (IH (acc ++ [r])%list w). simpl in IH. rewrite IH.
      rewrite <- app_assoc. reflexivity.
Qed.

Lemma requests_from_reject pre reqs row post :
  Forall2 within_limit pre reqs -> above_limit row ->
  forall acc w, requests_from (pre ++ row :: post) acc w = (w, inl too_large).
Proof.
  intros Hpre Hrow. induction Hpre as [| l r pre reqs Hl Hrest IH]; intros acc w.
  - destruct (request_above_limit w Hrow) as [Hne Htry].
    simpl. destruct post; simpl; rewrite Hne; rewrite (bind_err _ Htry); reflexivity.
  - destruct (request_within_limit w Hl) as [Hne Htry].
    simpl. destruct (pre ++ row :: post)%list as [| l' rows'] eqn:E.
    + destruct pre; discriminate.
    + simpl. rewrite Hne. rewrite (bind_ok _ Htry).
      specialize (IH (acc ++ [r])%list w). simpl in IH. exact IH.
Qed.

Lemma get_requests_rows {fs path header rows} w :
  fs path = Some (header :: rows) ->
  get_requests fs path w = requests_from rows [] w.
Proof.
  intros Hf. unfold get_requests, exists_, open. rewrite Hf. simpl.
  unfold bind, ret. destruct rows; reflexivity.
Qed.

(** C9. A request file whose rows up to some row are all within the limit
    and whose next row carries a radius above 1000 is refused:
    [get_requests] raises, and so does [main], with the process state
    untouched, before any file is loaded or distance computed. A file whose
    rows are all within the limit yields the list of their requests, in
    order; a radius equal to 1000 is within the limit. *)
Theorem radius_limit (fs : FileSystem) (path header : string) (w : World) :
  (forall pre reqs row post,
      fs path = Some (header :: pre ++ row :: post) ->
      Forall2 within_limit pre reqs -> above_limit row ->
      get_requests fs path w = (w, inl too_large)
      /\ forall counties_data geocodes target statistic,
          main fs counties_data geocodes path target statistic w
          = (w, inl too_large))
  /\ (forall rows reqs,
         fs path = Some (header :: rows) ->
         Forall2 within_limit rows reqs ->
         get_requests fs path w = (w, inr reqs))
  /\ PrimFloat.leb 1000%float 1000%float = true.
Proof.
  split; [| split].
  - intros pre reqs row post Hf Hpre Hrow.
    assert (G : get_requests fs path w = (w, inl too_large)).
    { rewrite (get_requests_rows w Hf). eapply requests_from_reject; eauto. }
    split; [exact G |]. intros. unfold main. rewrite (bind_err _ G). reflexivity.
  - intros rows reqs Hf Hrows.
    rewrite (get_requests_rows w Hf).
    rewrite (requests_from_accept Hrows). reflexivity.
  - reflexivity.
Qed.

Lemma haversine_error o p e : haversine o p = inl e -> e = ValueError MathDomainError.
Proof.
  destruct o as [lat1 lon1], p as [lat2 lon2]. unfold haversine, ebind, math_result, math_sqrt.
  repeat break_match; intros H; try discriminate; congruence.
Qed.

(** A turn of the scan reads the tables and only adds to the output; what it
    raises is no lookup error. *)
Lemma scan_county_frame {county state stat distance origin new_state entry acc w w' r} :
  scan_county county state stat distance origin new_state entry acc w = (w', r) ->
  covid_dict w' = covid_dict w /\ geo_dict w' = geo_dict w
  /\ (forall e, r = inl e -> lookup_error e = false).
Proof.
  unfold scan_county. destruct entry as [new_county rec]. run.
  destruct (haversine origin (lat rec, lon rec)) as [e0 | dist] eqn:Hh.
  - apply haversine_error in Hh; subst e0.
    repeat break_match; intros H; inv H; repeat split; auto; try (intros ? He; inv He; reflexivity).
  - repeat break_match; intros H; inv H; simpl; repeat split; auto;
      intros ? He; inv He; reflexivity.
Qed.

Lemma scan_counties_frame {county state stat distance origin new_state entries
    acc w w' r} :
  scan_counties county state stat distance origin new_state entries acc w = (w', r) ->
  covid_dict w' = covid_dict w /\ geo_dict w' = geo_dict w
  /\ (forall e, r = inl e -> lookup_error e = false).
Proof.
  revert acc w w' r.
  induction entries as [| entry entries IH]; intros acc w w' r; simpl.
  - unfold ret. intros H; inv H. repeat split; auto. discriminate.
  - unfold bind.
    destruct (scan_county county state stat distance origin new_state entry acc w)
      as [w1 [e | acc1]] eqn:E1;
      destruct (scan_county_frame E1) as (Hc & Hg & He).
    + intros H; inv H. repeat split; auto.
    + intros H. destruct (IH _ _ _ _ H) as (Hc' & Hg' & He').
      repeat split; congruence || auto.
Qed.

Lemma scan_states_frame {county state stat distance origin geo acc w w' r} :
  scan_states county state stat distance origin geo acc w = (w', r) ->
  covid_dict w' = covid_dict w /\ geo_dict w' = geo_dict w
  /\ (forall e, r = inl e -> lookup_error e = false).
Proof.
  revert acc w w' r.
  induction geo as [| [new_state entries] geo IH]; intros acc w w' r; simpl.
  - unfold ret. intros H; inv H. repeat split; auto. discriminate.
  - unfold bind.
    destruct (scan_counties county state stat distance origin new_state entries acc w)
      as [w1 [e | acc1]] eqn:E1;
      destruct (scan_counties_frame E1) as (Hc & Hg & He).
    + intros H; inv H. repeat split; auto.
    + intros H. destruct (IH _ _ _ _ H) as (Hc' & Hg' & He').
      repeat split; congruence || auto.
Qed.

Lemma scan_county_uncovered county state stat {distance origin new_state entry} acc {w} :
  uncovered_state (covid_dict w) origin distance new_state entry ->
  scan_county county state stat distance origin new_state entry acc w
  = (w, inl (KeyError new_state)).
Proof.
  destruct entry as [new_county rec]. intros (Hn & (dist & Hh & Hle) & Hc). simpl in *.
  unfold scan_county. apply String.eqb_neq in Hn. rewrite Hn.
  run. rewrite Hh, Hle, Hc. reflexivity.
Qed.

Lemma scan_counties_uncovered county state stat distance origin new_state entries :
  forall entry acc w,
  In entry entries ->
  uncovered_state (covid_dict w) origin distance new_state entry ->
  exists w' e,
    scan_counties county state stat distance origin new_state entries acc w
    = (w', inl e).
Proof.
  induction entries as [| entry0 entries IH]; intros entry acc w Hin Hu; [destruct Hin |].
  simpl. unfold bind.
  destruct (scan_county county state stat distance origin new_state entry0 acc w)
    as [w1 [e | acc1]] eqn:E1; [eauto |].
  destruct Hin as [-> | Hin].
  - rewrite (scan_county_uncovered county state stat acc Hu) in E1. discriminate.
  - destruct (scan_county_frame E1) as (Hc & _).
    apply (IH entry acc1 w1 Hin). rewrite Hc. exact Hu.
Qed.

Lemma scan_states_uncovered county state stat distance origin geo :
  forall new_state entries entry acc w,
  In (new_state, entries) geo -> In entry entries ->
  uncovered_state (covid_dict w) origin distance new_state entry ->
  exists w' e,
    scan_states county state stat distance origin geo acc w = (w', inl e).
Proof.
  induction geo as [| [s0 entries0] geo IH];
    intros new_state entries entry acc w Hin Hin' Hu; [destruct Hin |].
  simpl. unfold bind.
  destruct (scan_counties county state stat distance origin s0 entries0 acc w)
    as [w1 [e | acc1]] eqn:E1; [eauto |].
  destruct Hin as [Heq | Hin].
  - inv Heq.
    destruct (scan_counties_uncovered county state stat _ _ _ _ _ acc _ Hin' Hu)
      as (w2 & e & E2).
    rewrite E2 in E1. discriminate.
  - destruct (scan_counties_frame E1) as (Hc & _).
    apply (IH new_state entries entry acc1 w1 Hin Hin'). rewrite Hc. exact Hu.
Qed.

Lemma known_stat stat names :
  In stat names <-> existsb (String.eqb stat) names = true.
Proof.
  rewrite existsb_exists. split.
  - intros H; exists stat; split; [exact H | apply String.eqb_refl].
  - intros (x & Hx & E). apply String.eqb_eq in E. subst; exact Hx.
Qed.

(** What [compute_stats] does once the statistic is known and the county is
    in the geocode table: the scan from the county's point. *)
Lemma compute_stats_scan {self request stat w table rec} :
  In stat (stat_names self) ->
  dict_get (geo_dict w) (req_state request) = Some table ->
  dict_get table (req_county request) = Some rec ->
  compute_stats self request stat w
  = (acc <- scan_states (req_county request) (req_state request) stat
              (req_distance request) (lat rec, lon rec) (geo_dict w)
              (mkTotals 0 0 [] []) ;;
     print (InTotal (stat_total acc) stat (req_distance request)
              (req_county request) (req_state request) (pop_total acc)) ;;
     ret (mkResult (req_state request) (req_county request) (fips acc)
            (counties acc) stat (pop_total acc) (stat_total acc)
            (lat rec, lon rec)))
      (printed w (Finding stat (req_distance request) (req_county request)
                    (req_state request))).
Proof.
  intros Hs Hg Ht. unfold compute_stats.
  apply known_stat in Hs. rewrite Hs. simpl.
  run. rewrite Hg. simpl. rewrite Ht. simpl. reflexivity.
Qed.

Lemma compute_stats_unknown_stat self request stat w :
  ~ In stat (stat_names self) ->
  compute_stats self request stat w = (w, inl (ValueError (StatisticNotFound stat))).
Proof.
  intros Hs. unfold compute_stats.
  destruct (existsb (String.eqb stat) (stat_names self)) eqn:E.
  - apply known_stat in E. contradiction.
  - reflexivity.
Qed.

Lemma compute_stats_unknown_state self request stat w :
  In stat (stat_names self) ->
  dict_get (geo_dict w) (req_state request) = None ->
  compute_stats self request stat w
  = (printed w (Finding stat (req_distance request) (req_county request)
                  (req_state request)),
     inl (ValueError (StateNotFound (req_state request)))).
Proof.
  intros Hs Hg. unfold compute_stats. apply known_stat in Hs. rewrite Hs.
  run. rewrite Hg. reflexivity.
Qed.

Lemma compute_stats_unknown_county self request stat w table :
  In stat (stat_names self) ->
  dict_get (geo_dict w) (req_state request) = Some table ->
  dict_get table (req_county request) = None ->
  compute_stats self request stat w
  = (printed w (Finding stat (req_distance request) (req_county request)
                  (req_state request)),
     inl (ValueError (CountyNotFound (req_county request) (req_state request)))).
Proof.
  intros Hs Hg Ht. unfold compute_stats. apply known_stat in Hs. rewrite Hs.
  run. rewrite Hg. simpl. rewrite Ht. reflexivity.
Qed.

(** C7. [compute_stats] raises one of its three lookup errors (the
    [ValueError]s for an unknown statistic, state or county) exactly when the
    statistic is not among the names read from the header, or the state is
    not a key of the geocode table, or the county is not a key of the state's
    table. The statistic is checked first: that error leaves the process
    state untouched, nothing printed and no distance computed; the other two
    come after the first line of output and before the scan. *)
Theorem compute_stats_lookup_errors (self : CovidData) (request : Request)
    (stat : string) (w : World) :
  let state := req_state request in
  let county := req_county request in
  let finding := Finding stat (req_distance request) county state in
  ((exists w' e, compute_stats self request stat w = (w', inl e)
                 /\ lookup_error e = true)
   <-> (~ In stat (stat_names self)
        \/ dict_get (geo_dict w) state = None
        \/ exists table, dict_get (geo_dict w) state = Some table
                         /\ dict_get table county = None))
  /\ (~ In stat (stat_names self) ->
      compute_stats self request stat w
      = (w, inl (ValueError (StatisticNotFound stat))))
  /\ (In stat (stat_names self) -> dict_get (geo_dict w) state = None ->
      compute_stats self request stat w
      = (printed w finding, inl (ValueError (StateNotFound state))))
  /\ (forall table,
      In stat (stat_names self) -> dict_get (geo_dict w) state = Some table ->
      dict_get table county = None ->
      compute_stats self request stat w
      = (printed w finding, inl (ValueError (CountyNotFound county state)))).
Proof.
  intros state county finding.
  pose proof (compute_stats_unknown_stat self request stat w) as A.
  pose proof (compute_stats_unknown_state self request stat w) as B.
  pose proof (compute_stats_unknown_county self request stat w) as C.
  split; [| auto].
  split.
  - intros (w' & e & Hrun & He).
    destruct (in_dec string_dec stat (stat_names self)) as [Hs | Hs]; [| auto].
    destruct (dict_get (geo_dict w) state) as [table |] eqn:Hg; [| auto].
    destruct (dict_get table county) as [rec |] eqn:Ht; [| eauto].
    exfalso. rewrite (compute_stats_scan Hs Hg Ht) in Hrun.
    unfold bind in Hrun.
    match type of Hrun with
    | context [scan_states ?a ?b ?c ?d ?o ?g ?acc ?w0] =>
        destruct (scan_states a b c d o g acc w0) as [w1 [e1 | acc1]] eqn:E1
    end.
    + destruct (scan_states_frame E1) as (_ & _ & Hno).
      inv Hrun. rewrite (Hno _ eq_refl) in He. discriminate.
    + unfold print, ret in Hrun. inv Hrun.
  - intros [Hs | [Hg | (table & Hg & Ht)]].
    + exists w, (ValueError (StatisticNotFound stat)). split; [auto | reflexivity].
    + destruct (in_dec string_dec stat (stat_names self)) as [Hs | Hs].
      * eexists _, _. split; [apply (B Hs Hg) | reflexivity].
      * eexists _, _. split; [apply (A Hs) | reflexivity].
    + destruct (in_dec string_dec stat (stat_names self)) as [Hs | Hs].
      * eexists _, _. split; [apply (C table Hs Hg Ht) | reflexivity].
      * eexists _, _. split; [apply (A Hs) | reflexivity].
Qed.

(** C2, where the code departs from it. When the request is valid and the
    geocode table has a named entry within the radius whose state is not a key
    of the statistics table, [compute_stats] raises instead of returning a
    result: the membership test [new_county in self.covid_dict[new_state]]
    indexes the statistics table by a state it does not have. *)
Theorem compute_stats_uncovered_state (self : CovidData) (request : Request)
    (stat : string) (w : World) (table : dict GeoRecord) (rec : GeoRecord)
    (new_state : string) (entries : dict GeoRecord) (entry : string * GeoRecord) :
  In stat (stat_names self) ->
  dict_get (geo_dict w) (req_state request) = Some table ->
  dict_get table (req_county request) = Some rec ->
  In (new_state, entries) (geo_dict w) -> In entry entries ->
  uncovered_state (covid_dict w) (lat rec, lon rec) (req_distance request)
    new_state entry ->
  exists w' e, compute_stats self request stat w = (w', inl e).
Proof.
  intros Hs Hg Ht Hin Hin' Hu.
  rewrite (compute_stats_scan Hs Hg Ht). unfold bind.
  match goal with
  | |- context [scan_states ?a ?b ?c ?d ?o ?g ?acc ?w0] =>
      destruct (scan_states_uncovered a b c d o g new_state entries entry acc w0
                  Hin Hin' Hu) as (w1 & e & E)
  end.
  rewrite E. eauto.
Qed.

Lemma dict_get_set_same {V} (d : dict V) k v : dict_get (dict_set d k v) k = Some v.
Proof.
  induction d as [| [k' v'] d IH]; simpl.
  - rewrite String.eqb_refl. reflexivity.
  - destruct (String.eqb k k') eqn:E; simpl; rewrite E; auto.
Qed.

Lemma dict_get_set_other {V} (d : dict V) k k' v :
  k' <> k -> dict_get (dict_set d k v) k' = dict_get d k'.
Proof.
  intros Hne. induction d as [| [k0 v0] d IH]; simpl.
  - apply String.eqb_neq in Hne. rewrite Hne. reflexivity.
  - destruct (String.eqb k k0) eqn:E; simpl.
    + apply String.eqb_eq in E. subst k0.
      apply String.eqb_neq in Hne. rewrite Hne. reflexivity.
    + destruct (String.eqb k' k0); auto.
Qed.

Lemma dict_set_keys_incl {V} (d : dict V) k v k' :
  In k' (dict_keys d) -> In k' (dict_keys (dict_set d k v)).
Proof.
  unfold dict_keys. induction d as [| [k0 v0] d IH]; simpl; [tauto |].
  destruct (String.eqb k k0); simpl; tauto.
Qed.

Lemma dict_set_NoDup {V} (d : dict V) k v :
  NoDup (dict_keys d) -> NoDup (dict_keys (dict_set d k v)).
Proof.
  unfold dict_keys. induction d as [| [k0 v0] d IH]; simpl; intros H.
  - constructor; [intros [] | constructor].
  - inv H. destruct (String.eqb k k0) eqn:E; simpl.
    + constructor; auto.
    + constructor; auto. intros Hin.
      assert (In k0 (map fst d) \/ k0 = k) as [? | ?]; [| contradiction |].
      { clear -Hin. induction d as [| [k1 v1] d IH]; simpl in *.
        - destruct Hin as [-> | []]; auto.
        - destruct (String.eqb k k1); simpl in *; [tauto |].
          destruct Hin as [-> | Hin]; [tauto |]. destruct (IH Hin); tauto. }
      subst. rewrite String.eqb_refl in E. discriminate.
Qed.

Lemma lookup2_set_same {V} (d : dict (dict V)) k1 t k2 :
  lookup2 (dict_set d k1 t) k1 k2 = dict_get t k2.
Proof. unfold lookup2. rewrite dict_get_set_same. reflexivity. Qed.

Lemma lookup2_set_other {V} (d : dict (dict V)) k1 t k1' k2 :
  k1' <> k1 -> lookup2 (dict_set d k1 t) k1' k2 = lookup2 d k1' k2.
Proof. intros H. unfold lookup2. rewrite dict_get_set_other by auto. reflexivity. Qed.

Lemma geo_enter_same geo c :
  lookup2 (geo_enter geo c) (city_state c) (city_county c)
  = Some (absorb (lookup2 geo (city_state c) (city_county c)) c).
Proof.
  unfold geo_enter, absorb, lookup2, dict_mem.
  destruct (dict_get geo (city_state c)) as [table |] eqn:E.
  - rewrite E. destruct (dict_get table (city_county c)) eqn:E2;
      rewrite dict_get_set_same, dict_get_set_same; reflexivity.
  - rewrite dict_get_set_same. simpl.
    rewrite dict_get_set_same. simpl. rewrite String.eqb_refl. reflexivity.
Qed.

Lemma geo_enter_other geo c state county :
  (state, county) <> (city_state c, city_county c) ->
  lookup2 (geo_enter geo c) state county = lookup2 geo state county.
Proof.
  intros Hne. unfold geo_enter, dict_mem.
  destruct (string_dec state (city_state c)) as [-> | Hs].
  - assert (Hc : county <> city_county c) by congruence.
    destruct (dict_get geo (city_state c)) as [table |] eqn:E.
    + rewrite E. unfold lookup2 at 2. rewrite E.
      destruct (dict_get table (city_county c));
        rewrite lookup2_set_same, dict_get_set_other by auto; reflexivity.
    + rewrite dict_get_set_same. simpl.
      rewrite lookup2_set_same. unfold lookup2. rewrite E.
      simpl. apply String.eqb_neq in Hc. rewrite Hc. reflexivity.
  - destruct (dict_get geo (city_state c)) as [table |] eqn:E.
    + rewrite E. destruct (dict_get table (city_county c));
        rewrite lookup2_set_other by auto; reflexivity.
    + rewrite dict_get_set_same. simpl.
      rewrite !lookup2_set_other by auto. reflexivity.
Qed.

Lemma in_county_spec state county c :
  in_county state county c = true
  <-> (state, county) = (city_state c, city_county c).
Proof.
  unfold in_county. rewrite andb_true_iff, !String.eqb_eq.
  split; [intros [<- <-]; reflexivity | intros H; inv H; auto].
Qed.

Lemma lookup2_geo_enter_all cs : forall geo state county,
  lookup2 (fold_left geo_enter cs geo) state county
  = absorb_all (lookup2 geo state county) (filter (in_county state county) cs).
Proof.
  induction cs as [| c cs IH]; intros geo state county; simpl; [reflexivity |].
  rewrite IH. destruct (in_county state county c) eqn:E.
  - apply in_county_spec in E. inv E. simpl. rewrite geo_enter_same. reflexivity.
  - rewrite geo_enter_other; [reflexivity |].
    intros H. apply in_county_spec in H. congruence.
Qed.

Lemma total_population_app cs cs' :
  total_population (cs ++ cs') = total_population cs + total_population cs'.
Proof. induction cs; simpl; lia. Qed.

Lemma merged_first c : merged [c] (absorb None c).
Proof.
  split; [simpl; lia |]. exists 0%nat, c. simpl. repeat split; auto.
  - intros [| [| j]] c' H; simpl in H; inv H. lia.
  - intros j c' H. lia.
Qed.

Lemma merged_next cs rec c :
  merged cs rec -> merged (cs ++ [c]) (absorb (Some rec) c).
Proof.
  intros (Hp & i & c0 & Hi & Hla & Hlo & Hl & Hmax & Hfirst).
  assert (Hlen : (i < List.length cs)%nat) by (apply nth_error_Some; congruence).
  split.
  - rewrite total_population_app. simpl. unfold geo_update.
    destruct (city_population c >? largest_city rec); simpl; lia.
  - simpl. unfold geo_update.
    destruct (city_population c >? largest_city rec) eqn:E; simpl.
    + apply Z.gtb_lt in E. exists (List.length cs), c.
      rewrite nth_error_app2, Nat.sub_diag by lia. simpl.
      repeat split; auto.
      * intros j c' Hj. destruct (Nat.lt_ge_cases j (List.length cs)) as [Hlt | Hge].
        -- rewrite nth_error_app1 in Hj by lia. specialize (Hmax _ _ Hj). lia.
        -- rewrite nth_error_app2 in Hj by lia.
           destruct (j - List.length cs)%nat as [| [| k]]; simpl in Hj; inv Hj. lia.
      * intros j c' Hlt Hj. rewrite nth_error_app1 in Hj by lia.
        specialize (Hmax _ _ Hj). lia.
    + assert (Hle : city_population c <= largest_city rec).
      { destruct (Z.gtb_spec (city_population c) (largest_city rec)); [discriminate | lia]. }
      exists i, c0. rewrite nth_error_app1 by lia.
      repeat split; auto.
      * intros j c' Hj. destruct (Nat.lt_ge_cases j (List.length cs)) as [Hlt | Hge].
        -- rewrite nth_error_app1 in Hj by lia. eauto.
        -- rewrite nth_error_app2 in Hj by lia.
           destruct (j - List.length cs)%nat as [| [| k]]; simpl in Hj; inv Hj. lia.
      * intros j c' Hlt Hj. rewrite nth_error_app1 in Hj by lia. eauto.
Qed.

Lemma merged_all rest : forall cs rec,
  merged cs rec ->
  exists rec', absorb_all (Some rec) rest = Some rec' /\ merged (cs ++ rest) rec'.
Proof.
  induction rest as [| c rest IH]; intros cs rec H; simpl.
  - exists rec. rewrite app_nil_r. auto.
  - destruct (IH (cs ++ [c])%list _ (merged_next _ _ c H)) as (rec' & E & Hm).
    exists rec'. split; [exact E |]. rewrite <- app_assoc in Hm. exact Hm.
Qed.

(** From no record at all. *)
Lemma merged_fresh cs :
  cs <> [] -> exists rec, absorb_all None cs = Some rec /\ merged cs rec.
Proof.
  destruct cs as [| c cs]; [congruence | intros _].
  simpl. apply (merged_all cs [c]). apply merged_first.
Qed.

(** On top of a record already there, the populations add up. *)
Lemma absorb_all_population cs : forall rec,
  exists rec', absorb_all (Some rec) cs = Some rec'
               /\ population rec' = population rec + total_population cs.
Proof.
  induction cs as [| c cs IH]; intros rec; simpl.
  - exists rec. split; [reflexivity | lia].
  - destruct (IH (geo_update rec (city_lat c) (city_lon c) (city_population c)))
      as (rec' & E & Hp).
    exists rec'. split; [exact E |]. rewrite Hp. unfold geo_update.
    destruct (city_population c >? largest_city rec); simpl; lia.
Qed.

Lemma nth_error_nth_lt {A} (l : list A) (i : nat) (d : A) :
  (i < List.length l)%nat -> nth_error l i = Some (nth i l d).
Proof. intros H. apply nth_error_nth'. exact H. Qed.

Lemma geocodes_row_spec line linenum w :
  geocodes_row line linenum w
  = match read_geo_row line with
    | ShortRow => (warned w linenum line, inr (linenum + 1))
    | BadRow e => (w, inl e)
    | CityRow c => (with_geo (geo_enter (geo_dict w) c) w, inr (linenum + 1))
    end.
Proof.
  unfold geocodes_row, read_geo_row.
  destruct (List.length (split comma (rstrip line)) <? List.length geo_data_types)%nat eqn:E.
  - reflexivity.
  - apply Nat.ltb_ge in E. simpl in E.
    set (ld := split comma (rstrip line)) in *.
    unfold list_index.
    rewrite (nth_error_nth_lt ld 2 ""), (nth_error_nth_lt ld 5 ""),
      (nth_error_nth_lt ld 3 ""), (nth_error_nth_lt ld 4 ""),
      (nth_error_nth_lt ld 10 "") by lia.
    unfold float_, int_. run.
    destruct (py_float (nth 3 ld "")); [| reflexivity].
    destruct (py_float (nth 4 ld "")); [| reflexivity].
    destruct (py_int (nth 10 ld "")); [| reflexivity].
    simpl. unfold geo_enter, with_geo, dict_mem. simpl.
    destruct (dict_get (geo_dict w) (nth 2 ld "")) as [table |] eqn:Eg; simpl.
    + rewrite Eg. destruct (dict_get table (nth 5 ld "")); reflexivity.
    + rewrite dict_get_set_same. simpl. reflexivity.
Qed.

(** Whatever the rows, the loop leaves the statistics table alone and the
    geocode table as a run of cities entered into it. *)
Lemma read_geo_rows_any rows : forall linenum w,
  exists cs out r,
    read_rows geocodes_row rows linenum w
    = (mkWorld (covid_dict w) (fold_left geo_enter cs (geo_dict w))
               (stdout w ++ out), r).
Proof.
  induction rows as [| line rows IH]; intros linenum w; simpl; unfold bind.
  - rewrite geocodes_row_spec. destruct (read_geo_row "") as [| e | c].
    + exists [], [WarnIncomplete linenum; SkippingLine ""], (inr tt).
      unfold warned, ret. simpl. rewrite <- app_assoc. reflexivity.
    + exists [], [], (inl e). simpl. rewrite app_nil_r. destruct w; reflexivity.
    + exists [c], [], (inr tt). simpl. rewrite app_nil_r. reflexivity.
  - rewrite geocodes_row_spec. destruct (read_geo_row line) as [| e | c].
    + destruct (String.eqb line "").
      * exists [], [WarnIncomplete linenum; SkippingLine line], (inr tt).
        unfold warned, ret. simpl. rewrite <- app_assoc. reflexivity.
      * destruct (IH (linenum + 1) (warned w linenum line)) as (cs & out & r & E).
        exists cs, ([WarnIncomplete linenum; SkippingLine line] ++ out)%list, r.
        rewrite E. unfold warned. simpl. rewrite <- !app_assoc. reflexivity.
    + exists [], [], (inl e). simpl. rewrite app_nil_r. destruct w; reflexivity.
    + destruct (String.eqb line "").
      * exists [c], [], (inr tt). simpl. rewrite app_nil_r. reflexivity.
      * destruct (IH (linenum + 1) (with_geo (geo_enter (geo_dict w) c) w))
          as (cs & out & r & E).
        exists (c :: cs), out, r. rewrite E. reflexivity.
Qed.

Lemma read_geo_row_eof : read_geo_row "" = ShortRow.
Proof. reflexivity. Qed.

(** When every row is a line of the file and none fails to parse, the loop
    ends well with all the cities of the rows entered. *)
Lemma read_geo_rows_ok rows : forall linenum w,
  Forall (fun line => line <> "") rows ->
  (forall line e, In line rows -> read_geo_row line <> BadRow e) ->
  exists out,
    read_rows geocodes_row rows linenum w
    = (mkWorld (covid_dict w)
               (fold_left geo_enter (cities_of_rows rows) (geo_dict w))
               (stdout w ++ out), inr tt).
Proof.
  induction rows as [| line rows IH]; intros linenum w Hne Hok; simpl; unfold bind.
  - rewrite geocodes_row_spec, read_geo_row_eof.
    exists [WarnIncomplete linenum; SkippingLine ""].
    unfold warned, ret. simpl. rewrite <- app_assoc. reflexivity.
  - inv Hne. rewrite geocodes_row_spec.
    assert (Hl : String.eqb line "" = false) by (apply String.eqb_neq; auto).
    rewrite Hl.
    assert (Hok' : forall l e, In l rows -> read_geo_row l <> BadRow e)
      by (intros; apply Hok; right; auto).
    destruct (read_geo_row line) as [| e | c] eqn:E.
    + destruct (IH (linenum + 1) (warned w linenum line) H2 Hok') as (out & E').
      exists ([WarnIncomplete linenum; SkippingLine line] ++ out)%list.
      rewrite E'. unfold warned. simpl. rewrite <- !app_assoc. reflexivity.
    + exfalso. apply (Hok line e); [left; reflexivity | exact E].
    + destruct (IH (linenum + 1) (with_geo (geo_enter (geo_dict w) c) w) H2 Hok')
        as (out & E').
      exists out. rewrite E'. reflexivity.
Qed.

Lemma load_geocodes_data_rows fs self header rows w :
  exists_ fs (counties_path self) = true ->
  fs (geocodes_path self) = Some (header :: rows) ->
  header <> "" ->
  load_geocodes_data fs self w = read_rows geocodes_row rows 1 w.
Proof.
  intros Hc Hg Hh. unfold load_geocodes_data, open. rewrite Hc, Hg.
  destruct header as [| c header]; [congruence | reflexivity].
Qed.

(** C3. When the geocode file loads, every key (state, county) that was not
    in the table before and has at least one city among the rows ends with a
    record whose population is the sum of the populations of its cities and
    whose latitude and longitude are those of the city of the largest
    population, the first such city on ties. *)
Theorem geocode_cities_merged (fs : FileSystem) (self : CovidData)
    (header : string) (rows : list string) (w : World) :
  exists_ fs (counties_path self) = true ->
  fs (geocodes_path self) = Some (header :: rows) ->
  header <> "" ->
  Forall (fun line => line <> "") rows ->
  (forall line e, In line rows -> read_geo_row line <> BadRow e) ->
  exists w',
    load_geocodes_data fs self w = (w', inr tt)
    /\ forall state county,
         lookup2 (geo_dict w) state county = None ->
         let cities := filter (in_county state county) (cities_of_rows rows) in
         cities <> [] ->
         exists rec,
           lookup2 (geo_dict w') state county = Some rec
           /\ population rec = total_population cities
           /\ exists i c,
                nth_error cities i = Some c
                /\ lat rec = city_lat c /\ lon rec = city_lon c
                /\ (forall j c', nth_error cities j = Some c' ->
                      city_population c' <= city_population c)
                /\ (forall j c', (j < i)%nat -> nth_error cities j = Some c' ->
                      city_population c' < city_population c).
Proof.
  intros Hc Hg Hh Hne Hok.
  rewrite (load_geocodes_data_rows _ _ _ _ w Hc Hg Hh).
  destruct (read_geo_rows_ok rows 1 w Hne Hok) as (out & E).
  eexists. split; [exact E |]. simpl.
  intros state county Hfresh Hcs.
  rewrite lookup2_geo_enter_all, Hfresh.
  destruct (merged_fresh _ Hcs) as (rec & Ea & Hp & i & c & Hi & Hla & Hlo & _ & Hmax & Hfirst).
  exists rec. split; [exact Ea |]. split; [exact Hp |].
  exists i, c. auto.
Qed.

Lemma dict_get_named_only geo state :
  dict_get (named_only geo) state = option_map (filter named) (dict_get geo state).
Proof.
  induction geo as [| [s t] geo IH]; simpl; [reflexivity |].
  destruct (String.eqb state s); auto.
Qed.

Lemma dict_get_named table county :
  county <> "" -> dict_get (filter named table) county = dict_get table county.
Proof.
  intros Hc. induction table as [| [c r] table IH]; simpl; [reflexivity |].
  unfold named at 1. simpl. destruct (String.eqb c "") eqn:E; simpl.
  - apply String.eqb_eq in E. subst c.
    apply String.eqb_neq in Hc. rewrite Hc. exact IH.
  - destruct (String.eqb county c); auto.
Qed.

(** The scan does not read the geocode table of the world: it is handed the
    table it walks. *)
Lemma scan_county_with_geo g county state stat distance origin new_state entry acc w :
  scan_county county state stat distance origin new_state entry acc (with_geo g w)
  = on_world (with_geo g)
      (scan_county county state stat distance origin new_state entry acc w).
Proof.
  unfold scan_county, on_world, with_geo. destruct entry as [new_county rec]. run.
  repeat (break_match; simpl; try reflexivity; try congruence).
Qed.

Lemma scan_counties_with_geo g county state stat distance origin new_state entries :
  forall acc w,
  scan_counties county state stat distance origin new_state entries acc (with_geo g w)
  = on_world (with_geo g)
      (scan_counties county state stat distance origin new_state entries acc w).
Proof.
  induction entries as [| entry entries IH]; intros acc w; simpl; [reflexivity |].
  unfold bind. rewrite scan_county_with_geo. unfold on_world at 1.
  destruct (scan_county county state stat distance origin new_state entry acc w)
    as [w1 [e | acc1]]; simpl; [reflexivity | apply IH].
Qed.

Lemma scan_states_with_geo g county state stat distance origin geo :
  forall acc w,
  scan_states county state stat distance origin geo acc (with_geo g w)
  = on_world (with_geo g)
      (scan_states county state stat distance origin geo acc w).
Proof.
  induction geo as [| [new_state entries] geo IH]; intros acc w; simpl; [reflexivity |].
  unfold bind. rewrite scan_counties_with_geo. unfold on_world at 1.
  destruct (scan_counties county state stat distance origin new_state entries acc w)
    as [w1 [e | acc1]]; simpl; [reflexivity | apply IH].
Qed.

Lemma scan_counties_named county state stat distance origin new_state entries :
  forall acc w,
  scan_counties county state stat distance origin new_state (filter named entries) acc w
  = scan_counties county state stat distance origin new_state entries acc w.
Proof.
  induction entries as [| [new_county rec] entries IH]; intros acc w; [reflexivity |].
  destruct new_county as [| ch name].
  - simpl. unfold bind, ret. apply IH.
  - change (filter named ((String ch name, rec) :: entries))
      with ((String ch name, rec) :: filter named entries).
    cbn [scan_counties]. unfold bind.
    destruct (scan_county county state stat distance origin new_state
                (String ch name, rec) acc w)
      as [w1 [e | acc1]]; [reflexivity | apply IH].
Qed.

Lemma scan_states_named county state stat distance origin geo :
  forall acc w,
  scan_states county state stat distance origin (named_only geo) acc w
  = scan_states county state stat distance origin geo acc w.
Proof.
  induction geo as [| [new_state entries] geo IH]; intros acc w; simpl; [reflexivity |].
  unfold bind. rewrite scan_counties_named.
  destruct (scan_counties county state stat distance origin new_state entries acc w)
    as [w1 [e | acc1]]; [reflexivity | apply IH].
Qed.

Lemma compute_stats_named_only self request stat w :
  req_county request <> "" ->
  compute_stats self request stat (with_geo (named_only (geo_dict w)) w)
  = on_world (with_geo (named_only (geo_dict w))) (compute_stats self request stat w).
Proof.
  intros Hc.
  set (g' := named_only (geo_dict w)).
  destruct (in_dec string_dec stat (stat_names self)) as [Hs | Hs].
  2: { rewrite !compute_stats_unknown_stat by exact Hs. reflexivity. }
  assert (Hg' : dict_get (geo_dict (with_geo g' w)) (req_state request)
                = option_map (filter named) (dict_get (geo_dict w) (req_state request)))
    by apply dict_get_named_only.
  destruct (dict_get (geo_dict w) (req_state request)) as [table |] eqn:Eg.
  2: { rewrite (compute_stats_unknown_state _ _ _ w Hs Eg).
       rewrite (compute_stats_unknown_state _ _ _ _ Hs Hg'). reflexivity. }
  cbn [option_map] in Hg'.
  assert (Ht' : dict_get (filter named table) (req_county request)
                = dict_get table (req_county request))
    by (apply dict_get_named; exact Hc).
  destruct (dict_get table (req_county request)) as [rec |] eqn:Et.
  2: { rewrite (compute_stats_unknown_county _ _ _ w _ Hs Eg Et).
       rewrite (compute_stats_unknown_county _ _ _ _ _ Hs Hg' Ht'). reflexivity. }
  rewrite (compute_stats_scan Hs Eg Et), (compute_stats_scan Hs Hg' Ht').
  unfold bind. cbn [geo_dict with_geo]. fold g'. subst g'.
  rewrite scan_states_named.
  change (printed (with_geo (named_only (geo_dict w)) w)
            (Finding stat (req_distance request) (req_county request)
               (req_state request)))
    with (with_geo (named_only (geo_dict w))
            (printed w (Finding stat (req_distance request) (req_county request)
                          (req_state request)))).
  rewrite scan_states_with_geo. unfold on_world.
  match goal with
  | |- context [scan_states ?a ?b ?c ?d ?o ?g ?acc ?w0] =>
      destruct (scan_states a b c d o g acc w0) as [w1 [e | acc1]]
  end; reflexivity.
Qed.

(** C1, as the code has it. A geocode row with an empty county name is entered
    like any other row: it creates or updates the record keyed by its state
    and the empty name, and leaves every record of a named county as it was.
    It is [compute_stats] that passes over such records: for a request that
    names a county, the result, the exception and the output are those
    computed on the table with the unnamed records taken out. *)
Theorem unnamed_county_rows (line : string) (linenum : Z) (c : City)
    (self : CovidData) (request : Request) (stat : string) (w : World) :
  (read_geo_row line = CityRow c -> city_county c = "" ->
   let w' := fst (geocodes_row line linenum w) in
   lookup2 (geo_dict w') (city_state c) ""
   = Some (absorb (lookup2 (geo_dict w) (city_state c) "") c)
   /\ forall state county,
        county <> "" ->
        lookup2 (geo_dict w') state county = lookup2 (geo_dict w) state county)
  /\ (req_county request <> "" ->
      compute_stats self request stat (with_geo (named_only (geo_dict w)) w)
      = on_world (with_geo (named_only (geo_dict w)))
          (compute_stats self request stat w)).
Proof.
  split.
  - intros Hrow Hc. rewrite geocodes_row_spec, Hrow. simpl. split.
    + rewrite <- Hc. apply geo_enter_same.
    + intros state county Hne. apply geo_enter_other. rewrite Hc. congruence.
  - apply compute_stats_named_only.
Qed.

Lemma dict_set_set {V} (d : dict V) k v v' :
  dict_set (dict_set d k v) k v' = dict_set d k v'.
Proof.
  induction d as [| [k0 v0] d IH]; simpl.
  - rewrite String.eqb_refl. reflexivity.
  - destruct (String.eqb k k0) eqn:E; simpl; rewrite E; [reflexivity | f_equal; exact IH].
Qed.

Lemma dict_set_same {V} (d : dict V) k v :
  dict_get d k = Some v -> dict_set d k v = d.
Proof.
  induction d as [| [k0 v0] d IH]; simpl; [discriminate |].
  destruct (String.eqb k k0) eqn:E.
  - intros H; inv H. reflexivity.
  - intros H. f_equal. auto.
Qed.

Lemma dict_set_In {V} (d : dict V) k v k' v' :
  In (k', v') (dict_set d k v) -> (k' = k /\ v' = v) \/ In (k', v') d.
Proof.
  induction d as [| [k0 v0] d IH]; simpl.
  - intros [H | []]; inv H; auto.
  - destruct (String.eqb k k0) eqn:E; simpl.
    + apply String.eqb_eq in E. subst k0. intros [H | H]; [inv H; auto | auto].
    + intros [H | H]; [auto |]. destruct (IH H); auto.
Qed.

Lemma dict_get_In {V} (d : dict V) k v : dict_get d k = Some v -> In (k, v) d.
Proof.
  induction d as [| [k0 v0] d IH]; simpl; [discriminate |].
  destruct (String.eqb k k0) eqn:E.
  - apply String.eqb_eq in E. subst. intros H; inv H. auto.
  - auto.
Qed.

Lemma lookup2_set2_same {V} (d : dict (dict V)) k1 k2 v :
  lookup2 (set2 d k1 k2 v) k1 k2 = Some v.
Proof.
  unfold set2. destruct (dict_get d k1) eqn:E; rewrite lookup2_set_same.
  - apply dict_get_set_same.
  - simpl. rewrite String.eqb_refl. reflexivity.
Qed.

Lemma lookup2_set2_other {V} (d : dict (dict V)) k1 k2 v k1' k2' :
  (k1', k2') <> (k1, k2) -> lookup2 (set2 d k1 k2 v) k1' k2' = lookup2 d k1' k2'.
Proof.
  intros Hne. unfold set2. destruct (string_dec k1' k1) as [-> | H1].
  - assert (H2 : k2' <> k2) by congruence.
    destruct (dict_get d k1) eqn:E; rewrite lookup2_set_same; unfold lookup2; rewrite E.
    + apply dict_get_set_other. exact H2.
    + simpl. apply String.eqb_neq in H2. rewrite H2. reflexivity.
  - destruct (dict_get d k1); apply lookup2_set_other; exact H1.
Qed.

Lemma set2_set2 {V} (d : dict (dict V)) k1 k2 v v' :
  set2 (set2 d k1 k2 v) k1 k2 v' = set2 d k1 k2 v'.
Proof.
  unfold set2. destruct (dict_get d k1) eqn:E; rewrite dict_get_set_same, dict_set_set.
  - rewrite dict_set_set. reflexivity.
  - simpl. rewrite String.eqb_refl. reflexivity.
Qed.

Lemma set2_one_record_per_key {V} (d : dict (dict V)) k1 k2 v :
  one_record_per_key d -> one_record_per_key (set2 d k1 k2 v).
Proof.
  intros [Hd Ht]. unfold set2. destruct (dict_get d k1) as [t |] eqn:E.
  - split; [apply dict_set_NoDup; exact Hd |].
    intros k t' Hin. apply dict_set_In in Hin. destruct Hin as [[-> ->] | Hin].
    + apply dict_set_NoDup. apply (Ht k1). apply dict_get_In. exact E.
    + eauto.
  - split; [apply dict_set_NoDup; exact Hd |].
    intros k t' Hin. apply dict_set_In in Hin. destruct Hin as [[-> ->] | Hin].
    + constructor; [intros [] | constructor].
    + eauto.
Qed.

Lemma set2_same {V} {d : dict (dict V)} {k1 k2 v} :
  lookup2 d k1 k2 = Some v -> set2 d k1 k2 v = d.
Proof.
  unfold lookup2, set2. destruct (dict_get d k1) as [t |] eqn:E; [| discriminate].
  intros H. rewrite (dict_set_same t k2 v H). apply dict_set_same. exact E.
Qed.

Lemma with_covid_same w : with_covid (covid_dict w) w = w.
Proof. destruct w; reflexivity. Qed.

Lemma nth_error_skipn_hd {A} (l : list A) : forall n,
  nth_error l n = match skipn n l with x :: _ => Some x | [] => None end.
Proof.
  induction l as [| a l IH]; intros [| n]; simpl; auto.
Qed.

Lemma skipn_S_tl {A} (n : nat) : forall l : list A,
  skipn (S n) l = match skipn n l with _ :: t => t | [] => [] end.
Proof.
  induction n as [| n IH]; intros [| a l]; try reflexivity.
  change (skipn (S (S n)) (a :: l)) with (skipn (S n) l).
  change (skipn (S n) (a :: l)) with (skipn n l). apply IH.
Qed.

Lemma covid_record_set_spec {state county} key v {w rec} :
  lookup2 (covid_dict w) state county = Some rec ->
  covid_record_set state county key v w
  = (with_covid (set2 (covid_dict w) state county (dict_set rec key v)) w, inr tt).
Proof.
  unfold lookup2, covid_record_set, set2. run.
  destruct (dict_get (covid_dict w) state) as [t |] eqn:E; [| discriminate].
  intros H. rewrite H. reflexivity.
Qed.

Lemma enter_stats_spec line_data state county names : forall i w rec,
  lookup2 (covid_dict w) state county = Some rec ->
  enter_stats line_data state county names i w
  = (with_covid
       (set2 (covid_dict w) state county
          (fst (enter_values rec names (skipn (i + num_fixed_types) line_data)))) w,
     match snd (enter_values rec names (skipn (i + num_fixed_types) line_data)) with
     | None => inr tt
     | Some e => inl e
     end).
Proof.
  induction names as [| stat names IH]; intros i w rec Hrec; simpl.
  - rewrite (set2_same Hrec), with_covid_same. reflexivity.
  - unfold bind at 1. unfold lift at 1, list_index.
    rewrite nth_error_skipn_hd.
    destruct (skipn (i + num_fixed_types) line_data) as [| field fields] eqn:Ef; simpl.
    + rewrite (set2_same Hrec), with_covid_same. reflexivity.
    + unfold bind at 1.
      replace (if String.eqb field "" then ret 0 else lift (int_ field))
        with (lift (stat_value field))
        by (unfold stat_value; destruct (String.eqb field ""); reflexivity).
      unfold lift at 1. destruct (stat_value field) as [e | v]; simpl.
      * rewrite (set2_same Hrec), with_covid_same. reflexivity.
      * unfold bind at 1. rewrite (covid_record_set_spec stat (VInt v) Hrec).
        rewrite (IH (S i) _ (dict_set rec stat (VInt v))).
        2: { simpl. apply lookup2_set2_same. }
        change (S i + num_fixed_types)%nat with (S (i + num_fixed_types)).
        rewrite skipn_S_tl, Ef. simpl. rewrite set2_set2. reflexivity.
Qed.

Lemma list_index_nth {A} (l : list A) (i : nat) (d : A) :
  (i < List.length l)%nat -> list_index l i = inr (nth i l d).
Proof. intros H. unfold list_index. rewrite (nth_error_nth_lt l i d H). reflexivity. Qed.

(** The turn from the state abbreviation on: lines 131-166. *)
Lemma counties_row_keyed self line_data linenum w county state fips date_field :
  (county <- lift (inr county) ;;
   state_name <- lift (inr (nth 2 line_data "")) ;;
   state <- lift (inr state) ;;
   fips <- lift (inr fips) ;;
   covid <- get_covid ;;
   (if negb (dict_mem covid state)
    then put_covid (dict_set covid state ([] : dict (dict value)))
    else ret tt) ;;
   covid <- get_covid ;;
   counties <- lift (dict_index covid state) ;;
   (if negb (dict_mem counties county)
    then put_covid (dict_set covid state
                      (dict_set counties county [("fips", VStr fips)]))
    else print (WarnAlreadyLoaded county state) ;;
         date_field <- lift (inr date_field) ;;
         print (ReplacingWith date_field) ;;
         covid_record_set state county "fips" (VStr fips)) ;;
   enter_stats line_data state county (stat_names self) 0 ;;
   ret (linenum + 1)) w
  = row_effect self
      (StatRow date_field county state fips (skipn num_fixed_types line_data))
      linenum "" w.
Proof.
  unfold row_effect.
  set (names := stat_names self).
  assert (Hstep : forall w1 rec1,
             lookup2 (covid_dict w1) state county = Some rec1 ->
             (enter_stats line_data state county names 0 ;; ret (linenum + 1)) w1
             = (with_covid (set2 (covid_dict w1) state county
                              (fst (enter_values rec1 names (skipn num_fixed_types line_data)))) w1,
                match snd (enter_values rec1 names (skipn num_fixed_types line_data)) with
                | None => inr (linenum + 1)
                | Some e => inl e
                end)).
  { intros w1 rec1 H1. unfold bind. rewrite (enter_stats_spec _ _ _ _ 0%nat _ _ H1).
    change (0 + num_fixed_types)%nat with num_fixed_types.
    destruct (snd (enter_values rec1 names (skipn num_fixed_types line_data)));
      reflexivity. }
  unfold bind at 1. unfold lift at 1. unfold bind at 1. unfold lift at 1.
  unfold bind at 1. unfold lift at 1. unfold bind at 1. unfold lift at 1.
  unfold bind at 1. unfold get_covid at 1. unfold dict_mem at 1.
  unfold lookup2, set2.
  destruct (dict_get (covid_dict w) state) as [table |] eqn:Es.
  - simpl negb. unfold bind at 1. unfold ret at 1. unfold bind at 1. unfold get_covid at 1.
    unfold bind at 1. unfold lift at 1, dict_index at 1. rewrite Es.
    unfold dict_mem. destruct (dict_get table county) as [rec |] eqn:Ec.
    + simpl negb. cbv iota.
      unfold bind at 1. unfold bind at 1. unfold print at 1.
      unfold bind at 1. unfold lift at 1. unfold bind at 1. unfold print at 1.
      cbn [covid_dict geo_dict stdout].
      rewrite (@covid_record_set_spec state county "fips" (VStr fips) _ rec).
      2: { unfold lookup2. cbn [covid_dict]. rewrite Es. exact Ec. }
      rewrite (Hstep _ (dict_set rec "fips" (VStr fips))).
      2: { cbn [covid_dict with_covid]. apply lookup2_set2_same. }
      unfold with_covid. cbn [covid_dict geo_dict stdout fips_entered].
      rewrite set2_set2. unfold set2. rewrite Es.
      rewrite <- app_assoc. reflexivity.
    + simpl negb. cbv iota. unfold bind at 1. unfold put_covid at 1.
      rewrite (Hstep _ [("fips", VStr fips)]).
      2: { cbn [covid_dict]. rewrite lookup2_set_same. apply dict_get_set_same. }
      unfold with_covid. cbn [covid_dict geo_dict stdout fips_entered].
      unfold set2. rewrite dict_get_set_same, !dict_set_set.
      rewrite app_nil_r. reflexivity.
  - simpl negb. cbv iota. unfold bind at 1. unfold put_covid at 1.
    unfold bind at 1. unfold get_covid at 1. cbn [covid_dict].
    unfold bind at 1. unfold lift at 1, dict_index at 1.
    rewrite dict_get_set_same. cbn [dict_mem dict_get negb].
    unfold bind at 1. unfold put_covid at 1. cbn [covid_dict geo_dict stdout].
    rewrite dict_set_set. cbn [dict_set].
    rewrite (Hstep _ [("fips", VStr fips)]).
    2: { cbn [covid_dict]. rewrite lookup2_set_same. simpl.
         rewrite String.eqb_refl. reflexivity. }
    unfold with_covid. cbn [covid_dict geo_dict stdout fips_entered].
    unfold set2 at 1. rewrite dict_get_set_same, dict_set_set.
    cbn [dict_set]. rewrite String.eqb_refl. rewrite app_nil_r. reflexivity.
Qed.

Lemma counties_row_spec self line linenum w :
  counties_row self line linenum w
  = row_effect self (read_counties_row self line) linenum line w.
Proof.
  unfold counties_row, read_counties_row.
  set (line_data := split comma (rstrip line)).
  destruct (Nat.eqb (List.length line_data)
                    (num_fixed_types + List.length (stat_names self))) eqn:El;
    [| reflexivity].
  apply Nat.eqb_eq in El. change num_fixed_types with 4%nat in El.
  cbn [negb].
  rewrite (list_index_nth line_data 0 ""), (list_index_nth line_data 1 ""),
    (list_index_nth line_data 2 ""), (list_index_nth line_data 3 "") by lia.
  assert (K : forall w0,
             (county <- lift (inr (nth 1 line_data "")) ;;
              state_name <- lift (inr (nth 2 line_data "")) ;;
              state <- lift (dict_index us_state_abbrev state_name) ;;
              fips <- lift (inr (nth 3 line_data "")) ;;
              covid <- get_covid ;;
              (if negb (dict_mem covid state)
               then put_covid (dict_set covid state ([] : dict (dict value)))
               else ret tt) ;;
              covid <- get_covid ;;
              counties <- lift (dict_index covid state) ;;
              (if negb (dict_mem counties county)
               then put_covid (dict_set covid state
                                 (dict_set counties county [("fips", VStr fips)]))
               else print (WarnAlreadyLoaded county state) ;;
                    date_field <- lift (inr (nth 0 line_data "")) ;;
                    print (ReplacingWith date_field) ;;
                    covid_record_set state county "fips" (VStr fips)) ;;
              enter_stats line_data state county (stat_names self) 0 ;;
              ret (linenum + 1)) w0
             = row_effect self
                 match dict_get us_state_abbrev (nth 2 line_data "") with
                 | None => Failing (KeyError (nth 2 line_data ""))
                 | Some state =>
                     StatRow (nth 0 line_data "") (nth 1 line_data "") state
                       (nth 3 line_data "") (skipn num_fixed_types line_data)
                 end linenum line w0).
  { intros w0. unfold bind at 1. unfold lift at 1. unfold bind at 1.
    unfold lift at 1. unfold bind at 1. unfold lift at 1. unfold dict_index at 1.
    destruct (dict_get us_state_abbrev (nth 2 line_data "")) as [state |];
      [| reflexivity].
    etransitivity;
      [| apply (counties_row_keyed self line_data linenum w0 (nth 1 line_data "")
                  state (nth 3 line_data "") (nth 0 line_data ""))].
    reflexivity. }
  destruct (target_date self) as [t |].
  - unfold bind at 1. unfold bind at 1. unfold lift at 1. unfold bind at 1.
    unfold lift at 1. destruct (parse_date (nth 0 line_data "")) as [e | d];
      [reflexivity |].
    unfold ret at 1. destruct (negb (date_eqb d t)); [reflexivity | apply K].
  - unfold bind at 1. unfold ret at 1. apply K.
Qed.

Lemma set2_all_app {V} (us us' : list (string * string * V)) d :
  set2_all (us ++ us') d = set2_all us' (set2_all us d).
Proof. apply fold_left_app. Qed.

(** A turn of the loop leaves the geocode table alone, adds to the output and
    enters at most one record. *)
Lemma counties_row_shape self line linenum w :
  exists updates out r,
    counties_row self line linenum w
    = (mkWorld (set2_all updates (covid_dict w)) (geo_dict w) (stdout w ++ out), r).
Proof.
  rewrite counties_row_spec.
  destruct (read_counties_row self line) as [| | e | d c s f fields]; simpl.
  - exists [], [WarnIncomplete linenum; SkippingLine line], (inr (linenum + 1)).
    unfold warned. simpl. rewrite <- app_assoc. reflexivity.
  - exists [], [], (inr (linenum + 1)). simpl. rewrite app_nil_r. destruct w; reflexivity.
  - exists [], [], (inl e). simpl. rewrite app_nil_r. destruct w; reflexivity.
  - eexists [(s, c, _)], _, _. simpl. reflexivity.
Qed.

Lemma read_counties_rows_shape self rows : forall linenum w,
  exists updates out r,
    read_rows (counties_row self) rows linenum w
    = (mkWorld (set2_all updates (covid_dict w)) (geo_dict w) (stdout w ++ out), r).
Proof.
  induction rows as [| line rows IH]; intros linenum w; simpl; unfold bind.
  - destruct (counties_row_shape self "" linenum w) as (us & out & r & E).
    rewrite E. destruct r as [e | n]; [exists us, out, (inl e) | exists us, out, (inr tt)];
      reflexivity.
  - destruct (counties_row_shape self line linenum w) as (us & out & r & E).
    rewrite E. destruct r as [e | n]; [exists us, out, (inl e); reflexivity |].
    destruct (String.eqb line ""); [exists us, out, (inr tt); reflexivity |].
    match goal with
    | |- context [read_rows _ rows n ?w1] =>
        destruct (IH n w1) as (us' & out' & r' & E')
    end.
    rewrite E'. exists (us ++ us')%list, (out ++ out')%list, r'. simpl.
    rewrite set2_all_app, app_assoc. reflexivity.
Qed.

Lemma load_counties_data_shape fs self w :
  exists updates out r,
    load_counties_data fs self w
    = (mkWorld (set2_all updates (covid_dict w)) (geo_dict w) (stdout w ++ out), r).
Proof.
  assert (Same : forall r : exn + CovidData,
             exists updates out r',
               (w, r) = (mkWorld (set2_all updates (covid_dict w)) (geo_dict w)
                                 (stdout w ++ out), r')).
  { intros r. exists [], [], r. simpl. rewrite app_nil_r. destruct w; reflexivity. }
  unfold load_counties_data.
  destruct (exists_ fs (counties_path self)); simpl; [| apply Same].
  unfold bind at 1. unfold lift at 1.
  destruct (open fs (counties_path self)) as [e | f]; [apply Same |].
  destruct (readline f) as [line rest].
  unfold bind at 1. unfold lift at 1.
  destruct (validate_header line counties_data_types) as [e | names]; [apply Same |].
  unfold bind at 1. destruct (String.eqb line ""); [apply Same |].
  destruct (read_counties_rows_shape (with_stat_names self names) rest 1 w)
    as (us & out & r & E).
  rewrite E. destruct r as [e | []]; [exists us, out, (inl e) | eexists us, out, _];
    reflexivity.
Qed.

Lemma set2_all_keeps {V} (updates : list (string * string * V)) : forall d k1 k2,
  lookup2 d k1 k2 <> None -> lookup2 (set2_all updates d) k1 k2 <> None.
Proof.
  induction updates as [| [[s c] r] us IH]; intros d k1 k2 H; simpl; [exact H |].
  apply IH. destruct (string_dec k1 s) as [-> | Hs].
  - destruct (string_dec k2 c) as [-> | Hc].
    + rewrite lookup2_set2_same. discriminate.
    + rewrite lookup2_set2_other by congruence. exact H.
  - rewrite lookup2_set2_other by congruence. exact H.
Qed.

Lemma set2_all_one_record_per_key {V} (updates : list (string * string * V)) :
  forall d, one_record_per_key d -> one_record_per_key (set2_all updates d).
Proof.
  induction updates as [| [[s c] r] us IH]; intros d H; simpl; [exact H |].
  apply IH. apply set2_one_record_per_key. exact H.
Qed.

(** When every statistic of the row parses, the record ends with the row's
    value under each statistic name, whatever it held before; keys on which
    two records agreed before stay agreed. *)
Lemma enter_values_agree names : forall fields r1 r2 (K : list string),
  (forall k, In k K -> dict_get r1 k = dict_get r2 k) ->
  snd (enter_values r1 names fields) = None ->
  forall k, In k K \/ In k names ->
    dict_get (fst (enter_values r1 names fields)) k
    = dict_get (fst (enter_values r2 names fields)) k.
Proof.
  induction names as [| stat names IH]; intros fields r1 r2 K HK Hok k Hk; simpl in *.
  - destruct Hk as [Hk | []]. auto.
  - destruct fields as [| field fields]; [discriminate |].
    destruct (stat_value field) as [e | v]; [discriminate |].
    apply (IH fields _ _ (stat :: K)); [| exact Hok |].
    + intros k' [<- | Hk'].
      * rewrite !dict_get_set_same. reflexivity.
      * destruct (string_dec k' stat) as [-> | Hne].
        -- rewrite !dict_get_set_same. reflexivity.
        -- rewrite !dict_get_set_other by exact Hne. auto.
    + simpl. tauto.
Qed.

Lemma enter_values_error names : forall fields r1 r2,
  snd (enter_values r1 names fields) = snd (enter_values r2 names fields).
Proof.
  induction names as [| stat names IH]; intros fields r1 r2; simpl; [reflexivity |].
  destruct fields as [| field fields]; [reflexivity |].
  destruct (stat_value field); [reflexivity | apply IH].
Qed.

(** A qualifying row leaves the row's values in the record of its key. *)
Lemma counties_row_wins self line linenum w w' n date_field county state fips fields :
  read_counties_row self line = StatRow date_field county state fips fields ->
  counties_row self line linenum w = (w', inr n) ->
  exists rec,
    lookup2 (covid_dict w') state county = Some rec
    /\ forall k, In k ("fips" :: stat_names self) ->
         dict_get rec k = dict_get (row_record (stat_names self) fips fields) k.
Proof.
  intros Hrow. rewrite counties_row_spec, Hrow. simpl.
  set (old := lookup2 (covid_dict w) state county).
  destruct (snd (enter_values (fips_entered old fips) (stat_names self) fields))
    as [e |] eqn:Hok; intros H; inv H.
  eexists. split; [apply lookup2_set2_same |].
  intros k Hk. unfold row_record.
  apply (enter_values_agree _ _ _ _ ["fips"]); [| exact Hok | simpl in *; tauto].
  intros k' [<- | []]. destruct old; simpl.
  - rewrite dict_get_set_same. reflexivity.
  - reflexivity.
Qed.

(** A row that is not a qualifying row of the key leaves its record alone. *)
Lemma counties_row_frame self line linenum w w' r state county :
  (forall d f fl, read_counties_row self line <> StatRow d county state f fl) ->
  counties_row self line linenum w = (w', r) ->
  lookup2 (covid_dict w') state county = lookup2 (covid_dict w) state county.
Proof.
  intros Hother. rewrite counties_row_spec.
  destruct (read_counties_row self line) as [| | e | d c s f fields]; simpl;
    intros H; inv H; simpl; try reflexivity.
  apply lookup2_set2_other. intros E. inv E. eapply Hother; reflexivity.
Qed.

Lemma read_counties_rows_frame self rows state county : forall linenum w w' r,
  (forall line d f fl, In line rows ->
     read_counties_row self line <> StatRow d county state f fl) ->
  read_rows (counties_row self) rows linenum w = (w', r) ->
  lookup2 (covid_dict w') state county = lookup2 (covid_dict w) state county.
Proof.
  assert (Eof : forall d f fl, read_counties_row self "" <> StatRow d county state f fl).
  { intros d f fl. unfold read_counties_row. simpl. discriminate. }
  induction rows as [| line rows IH]; intros linenum w w' r Hother; simpl; unfold bind.
  - destruct (counties_row self "" linenum w) as [w1 [e | n]] eqn:E; intros H; inv H;
      eapply counties_row_frame; eauto.
  - destruct (counties_row self line linenum w) as [w1 [e | n]] eqn:E.
    + intros H; inv H. eapply counties_row_frame; [| exact E].
      intros d f fl. apply Hother. left; reflexivity.
    + assert (F : lookup2 (covid_dict w1) state county
                  = lookup2 (covid_dict w) state county).
      { eapply counties_row_frame; [| exact E].
        intros d f fl. apply Hother. left; reflexivity. }
      destruct (String.eqb line ""); intros H.
      * inv H. exact F.
      * rewrite <- F. eapply IH; [| exact H].
        intros l d f fl Hin. apply Hother. right; exact Hin.
Qed.

(** The loop that ends well has gone through every line before [rest]. *)
Lemma read_rows_through (row : string -> Z -> M Z) pre : forall rest linenum w w',
  Forall (fun line => line <> "") pre ->
  read_rows row (pre ++ rest) linenum w = (w', inr tt) ->
  exists linenum1 w1, read_rows row rest linenum1 w1 = (w', inr tt).
Proof.
  induction pre as [| line pre IH]; intros rest linenum w w' Hne; simpl.
  - eauto.
  - inv Hne. unfold bind. destruct (row line linenum w) as [w1 [e | n]]; [discriminate |].
    assert (El : String.eqb line "" = false) by (apply String.eqb_neq; auto).
    rewrite El. apply IH. exact H2.
Qed.

Lemma load_counties_data_rows fs self header rows w w' self' :
  fs (counties_path self) = Some (header :: rows) ->
  load_counties_data fs self w = (w', inr self') ->
  validate_header header counties_data_types = inr (stat_names self')
  /\ self' = with_stat_names self (stat_names self')
  /\ read_rows (counties_row self') rows 1 w = (w', inr tt).
Proof.
  intros Hf. unfold load_counties_data, exists_, open. rewrite Hf.
  cbn [negb]. unfold bind at 1. unfold lift at 1. cbn [readline].
  unfold bind at 1. unfold lift at 1.
  destruct (validate_header header counties_data_types) as [e | names] eqn:Ev;
    [discriminate |].
  unfold bind at 1. destruct header as [| ch header]; [cbv in Ev; discriminate Ev |].
  change (String.eqb (String ch header) "") with false. cbv iota.
  destruct (read_rows (counties_row (with_stat_names self names)) rows 1 w)
    as [w1 [e | []]] eqn:E; [discriminate |].
  unfold ret. intros H; inv H. simpl. auto.
Qed.

(** C5. After a load that succeeds from a table with one record per key, the
    table still has one record per key; the record of a key holds, under fips
    and under every statistic name, the values of the last qualifying row of
    the file for that key; and whenever a qualifying row meets a key already
    in the table, the two warning lines are printed and, all its statistics
    parsing, the loop goes on to the next line. *)
Theorem last_statistics_row_wins (fs : FileSystem) (self self' : CovidData)
    (header : string) (pre post : list string) (last : string) (w w' : World)
    (date_field county state fips : string) (fields : list string) :
  one_record_per_key (covid_dict w) ->
  fs (counties_path self) = Some (header :: pre ++ last :: post) ->
  Forall (fun line => line <> "") (pre ++ [last]) ->
  load_counties_data fs self w = (w', inr self') ->
  read_counties_row self' last = StatRow date_field county state fips fields ->
  (forall line d f fl, In line post ->
     read_counties_row self' line <> StatRow d county state f fl) ->
  one_record_per_key (covid_dict w')
  /\ (exists rec,
        lookup2 (covid_dict w') state county = Some rec
        /\ forall k, In k ("fips" :: stat_names self') ->
             dict_get rec k = dict_get (row_record (stat_names self') fips fields) k)
  /\ (forall linenum w0 w1 r,
        lookup2 (covid_dict w0) state county <> None ->
        counties_row self' last linenum w0 = (w1, r) ->
        stdout w1 = (stdout w0 ++ [WarnAlreadyLoaded county state;
                                   ReplacingWith date_field])%list
        /\ (snd (enter_values [] (stat_names self') fields) = None ->
            r = inr (linenum + 1))).
Proof.
  intros Hwf Hf Hne Hload Hlast Hpost.
  split; [| split].
  - destruct (load_counties_data_shape fs self w) as (us & out & r & E).
    rewrite E in Hload. inv Hload. simpl.
    apply set2_all_one_record_per_key. exact Hwf.
  - destruct (load_counties_data_rows _ _ _ _ _ _ _ Hf Hload) as (_ & _ & Hrows).
    apply Forall_app in Hne. destruct Hne as [Hpre Hl]. inv Hl.
    destruct (read_rows_through _ _ _ _ _ _ Hpre Hrows) as (n1 & w1 & Hrest).
    simpl in Hrest. unfold bind in Hrest.
    destruct (counties_row self' last n1 w1) as [w2 [e | n2]] eqn:E2; [discriminate |].
    destruct (counties_row_wins _ _ _ _ _ _ _ _ _ _ _ Hlast E2) as (rec & Hrec & Hval).
    assert (El : String.eqb last "" = false) by (apply String.eqb_neq; auto).
    rewrite El in Hrest.
    exists rec. split; [| exact Hval].
    rewrite <- Hrec. eapply read_counties_rows_frame; [| exact Hrest]. exact Hpost.
  - intros linenum w0 w1 r Hocc. rewrite counties_row_spec, Hlast. simpl.
    destruct (lookup2 (covid_dict w0) state county) as [old |] eqn:Eo; [| congruence].
    intros H; inv H. simpl. split; [reflexivity |].
    intros Hok.
    rewrite (enter_values_error _ _ (fips_entered (Some old) fips) []), Hok.
    reflexivity.
Qed.

Lemma load_geocodes_data_shape fs self w :
  exists cs out r,
    load_geocodes_data fs self w
    = (mkWorld (covid_dict w) (fold_left geo_enter cs (geo_dict w))
               (stdout w ++ out), r).
Proof.
  assert (Same : forall r : exn + unit,
             exists cs out r',
               (w, r) = (mkWorld (covid_dict w) (fold_left geo_enter cs (geo_dict w))
                                 (stdout w ++ out), r')).
  { intros r. exists [], [], r. simpl. rewrite app_nil_r. destruct w; reflexivity. }
  unfold load_geocodes_data.
  destruct (exists_ fs (counties_path self)); cbn [negb]; [| apply Same].
  unfold bind at 1. unfold lift at 1.
  destruct (open fs (geocodes_path self)) as [e | f]; [apply Same |].
  destruct (readline f) as [line rest].
  destruct (String.eqb line ""); [apply Same |].
  apply read_geo_rows_any.
Qed.

Lemma geo_enter_all_keeps cs geo state county :
  lookup2 geo state county <> None ->
  lookup2 (fold_left geo_enter cs geo) state county <> None.
Proof.
  rewrite lookup2_geo_enter_all.
  destruct (lookup2 geo state county) as [rec |]; [intros _ | congruence].
  destruct (absorb_all_population (filter (in_county state county) cs) rec)
    as (rec' & E & _).
  rewrite E. discriminate.
Qed.

Lemma read_geo_rows_no_bad rows : forall linenum w w',
  Forall (fun line => line <> "") rows ->
  read_rows geocodes_row rows linenum w = (w', inr tt) ->
  forall line e, In line rows -> read_geo_row line <> BadRow e.
Proof.
  induction rows as [| line rows IH]; intros linenum w w' Hne Hrun l e Hin;
    [destruct Hin |].
  inv Hne. assert (Hl : String.eqb line "" = false) by (apply String.eqb_neq; auto).
  cbn [read_rows] in Hrun. unfold bind at 1 in Hrun.
  rewrite geocodes_row_spec, Hl in Hrun.
  destruct Hin as [<- | Hin].
  - intros E. rewrite E in Hrun. discriminate Hrun.
  - destruct (read_geo_row line) as [| e0 | c]; [| discriminate Hrun |];
      eapply IH; eauto.
Qed.

(** Construction is the statistics load followed by the geocode load. *)
Lemma init_loads fs counties_path_ geocodes_path_ target w w' self' :
  init fs counties_path_ geocodes_path_ target w = (w', inr self') ->
  exists w1,
    load_counties_data fs
      (mkCovidData counties_path_ geocodes_path_ target []) w = (w1, inr self')
    /\ load_geocodes_data fs self' w1 = (w', inr tt)
    /\ geo_dict w1 = geo_dict w
    /\ covid_dict w' = covid_dict w1.
Proof.
  unfold init. set (self0 := mkCovidData counties_path_ geocodes_path_ target []).
  unfold bind at 1.
  destruct (load_counties_data fs self0 w) as [w1 [e | self1]] eqn:E1;
    [discriminate |].
  unfold bind at 1.
  destruct (load_geocodes_data fs self1 w1) as [w2 [e | []]] eqn:E2;
    [discriminate |].
  unfold ret. intros H; inv H. exists w1.
  destruct (load_counties_data_shape fs self0 w) as (us & out & r & Ec).
  destruct (load_geocodes_data_shape fs self' w1) as (cs & out' & r' & Eg).
  rewrite E1 in Ec. rewrite E2 in Eg. inv Ec. inv Eg. simpl. auto.
Qed.

(** C4. The two tables belong to the class, not to an instance: constructing
    an instance starts from the tables as they are and works on them. Every
    key (state, county) already in either table is still there afterwards,
    whether construction succeeds or raises. When it succeeds, the record of
    a key of the statistics table is overwritten with the values of the last
    qualifying row the file has for it, or added when the key was not there;
    the record of a key the file has no qualifying row for is what it was;
    and the population of a key of the geocode table is the population
    already there plus the populations of the file's cities for it. Two
    instances with the same statistic names compute the same from the
    tables, whichever of them loaded the data. *)
Theorem tables_are_class_attributes (fs : FileSystem)
    (counties_path_ geocodes_path_ : string) (target : option date) (w : World) :
  let w' := fst (init fs counties_path_ geocodes_path_ target w) in
  (forall state county,
      lookup2 (covid_dict w) state county <> None ->
      lookup2 (covid_dict w') state county <> None)
  /\ (forall state county,
         lookup2 (geo_dict w) state county <> None ->
         lookup2 (geo_dict w') state county <> None)
  /\ (forall self' header pre last post date_field county state fips fields,
         snd (init fs counties_path_ geocodes_path_ target w) = inr self' ->
         fs counties_path_ = Some (header :: pre ++ last :: post) ->
         Forall (fun line => line <> "") (pre ++ [last]) ->
         read_counties_row self' last = StatRow date_field county state fips fields ->
         (forall line d f fl, In line post ->
            read_counties_row self' line <> StatRow d county state f fl) ->
         exists rec,
           lookup2 (covid_dict w') state county = Some rec
           /\ forall k, In k ("fips" :: stat_names self') ->
                dict_get rec k
                = dict_get (row_record (stat_names self') fips fields) k)
  /\ (forall self' header rows state county,
         snd (init fs counties_path_ geocodes_path_ target w) = inr self' ->
         fs counties_path_ = Some (header :: rows) ->
         (forall line d f fl, In line rows ->
            read_counties_row self' line <> StatRow d county state f fl) ->
         lookup2 (covid_dict w') state county = lookup2 (covid_dict w) state county)
  /\ (forall self' header rows state county rec,
         snd (init fs counties_path_ geocodes_path_ target w) = inr self' ->
         fs geocodes_path_ = Some (header :: rows) ->
         header <> "" ->
         Forall (fun line => line <> "") rows ->
         lookup2 (geo_dict w) state county = Some rec ->
         exists rec',
           lookup2 (geo_dict w') state county = Some rec'
           /\ population rec'
              = population rec
                + total_population
                    (filter (in_county state county) (cities_of_rows rows)))
  /\ (forall self1 self2 request stat,
         stat_names self1 = stat_names self2 ->
         compute_stats self1 request stat w' = compute_stats self2 request stat w').
Proof.
  intros w'.
  assert (Hw : exists us cs out,
             w' = mkWorld (set2_all us (covid_dict w))
                          (fold_left geo_enter cs (geo_dict w)) (stdout w ++ out)).
  { subst w'. unfold init.
    set (self0 := mkCovidData counties_path_ geocodes_path_ target []).
    destruct (load_counties_data_shape fs self0 w) as (us & out & r & E).
    unfold bind at 1. rewrite E. destruct r as [e | self1].
    - exists us, [], out. reflexivity.
    - cbv beta iota. unfold bind at 1.
      match goal with
      | |- context [load_geocodes_data fs self1 ?w1] =>
          destruct (load_geocodes_data_shape fs self1 w1) as (cs & out' & r' & E')
      end.
      unfold bind. rewrite E'. exists us, cs, (out ++ out')%list.
      simpl. rewrite app_assoc. destruct r'; reflexivity. }
  assert (Hinit : forall self',
             snd (init fs counties_path_ geocodes_path_ target w) = inr self' ->
             init fs counties_path_ geocodes_path_ target w = (w', inr self')).
  { intros self' H. subst w'.
    destruct (init fs counties_path_ geocodes_path_ target w) as [w2 r].
    simpl in H |- *. rewrite H. reflexivity. }
  split; [| split; [| split; [| split; [| split]]]].
  - destruct Hw as (us & cs & out & Hw). rewrite Hw. simpl.
    intros state county H. apply set2_all_keeps. exact H.
  - destruct Hw as (us & cs & out & Hw). rewrite Hw. simpl.
    intros state county H. apply geo_enter_all_keeps. exact H.
  - intros self' header pre last post date_field county state fips fields
      Hok Hf Hne Hlast Hpost.
    destruct (init_loads _ _ _ _ _ _ _ (Hinit _ Hok)) as (w1 & Hc & _ & _ & Hcov).
    rewrite Hcov.
    destruct (load_counties_data_rows fs
                (mkCovidData counties_path_ geocodes_path_ target []) header _
                w w1 self' Hf Hc)
      as (_ & _ & Hrows).
    apply Forall_app in Hne. destruct Hne as [Hpre Hl]. inv Hl.
    destruct (read_rows_through _ _ _ _ _ _ Hpre Hrows) as (n1 & w0 & Hrest).
    simpl in Hrest. unfold bind in Hrest.
    destruct (counties_row self' last n1 w0) as [w2 [e | n2]] eqn:E2; [discriminate |].
    destruct (counties_row_wins _ _ _ _ _ _ _ _ _ _ _ Hlast E2) as (rec & Hrec & Hval).
    assert (El : String.eqb last "" = false) by (apply String.eqb_neq; auto).
    rewrite El in Hrest.
    exists rec. split; [| exact Hval].
    rewrite <- Hrec. eapply read_counties_rows_frame; [| exact Hrest]. exact Hpost.
  - intros self' header rows state county Hok Hf Hnone.
    destruct (init_loads _ _ _ _ _ _ _ (Hinit _ Hok)) as (w1 & Hc & _ & _ & Hcov).
    rewrite Hcov.
    destruct (load_counties_data_rows fs
                (mkCovidData counties_path_ geocodes_path_ target []) header _
                w w1 self' Hf Hc)
      as (_ & _ & Hrows).
    eapply read_counties_rows_frame; [| exact Hrows]. exact Hnone.
  - intros self' header rows state county rec Hok Hg Hh Hne Hrec.
    destruct (init_loads _ _ _ _ _ _ _ (Hinit _ Hok)) as (w1 & Hc & Hgl & Hgeo & _).
    assert (Hself : geocodes_path self' = geocodes_path_).
    { revert Hc. unfold load_counties_data.
      destruct (exists_ fs _); cbn [negb]; [| discriminate].
      unfold bind at 1. unfold lift at 1.
      destruct (open fs _) as [e | f]; [discriminate |].
      destruct (readline f) as [line rest].
      unfold bind at 1. unfold lift at 1.
      destruct (validate_header line counties_data_types) as [e | names];
        [discriminate |].
      unfold bind at 1.
      destruct (if String.eqb line "" then _ else _) as [w2 [e | []]];
        [discriminate |].
      unfold ret. intros H; inv H. reflexivity. }
    assert (Hex : exists_ fs (counties_path self') = true).
    { revert Hgl. unfold load_geocodes_data.
      destruct (exists_ fs (counties_path self')); [reflexivity | discriminate]. }
    rewrite <- Hself in Hg.
    rewrite (load_geocodes_data_rows _ _ _ _ w1 Hex Hg Hh) in Hgl.
    pose proof (read_geo_rows_no_bad rows 1 w1 w' Hne Hgl) as Hnobad.
    destruct (read_geo_rows_ok rows 1 w1 Hne Hnobad) as (out1 & E1).
    rewrite E1 in Hgl. injection Hgl as Hw'. rewrite <- Hw'. cbn [geo_dict].
    destruct (absorb_all_population
                (filter (in_county state county) (cities_of_rows rows)) rec)
      as (rec' & Ea & Hp).
    exists rec'. rewrite lookup2_geo_enter_all, Hgeo, Hrec. auto.
  - intros self1 self2 request stat Hs. unfold compute_stats. rewrite Hs. reflexivity.
Qed.


End Proofs.

(** ** The header check and the paths *)

Section HeaderAndPaths.
Context {RT : Runtime}.

Lemma load_counties_data_bad_header fs self header rows e w :
  fs (counties_path self) = Some (header :: rows) ->
  validate_header header counties_data_types = inl e ->
  load_counties_data fs self w = (w, inl e).
Proof.
  intros Hf Hv. unfold load_counties_data, exists_, open. rewrite Hf.
  cbn [negb]. unfold bind at 1. unfold lift at 1. cbn [readline].
  unfold bind at 1. unfold lift at 1. rewrite Hv. reflexivity.
Qed.

(** The header check on a header of at least four columns: when the first
    four, lowered, are date, county, state and fips, the statistic names are
    the columns after them; otherwise the first column that differs is named
    in a [ValueError] with the name expected in its place, and a load stops
    there with the process state untouched. *)
Theorem validate_header_schema (header : string) (data_names : list string)
    (c0 c1 c2 c3 : string) (rest : list string) :
  split comma (rstrip header) = c0 :: c1 :: c2 :: c3 :: rest ->
  (map lower [c0; c1; c2; c3] = counties_data_types ->
   validate_header header data_names = inr rest)
  /\ (map lower [c0; c1; c2; c3] <> counties_data_types ->
      exists i col expected,
        nth_error [c0; c1; c2; c3] i = Some col
        /\ nth_error counties_data_types i = Some expected
        /\ lower col <> expected
        /\ firstn i (map lower [c0; c1; c2; c3]) = firstn i counties_data_types
        /\ validate_header header data_names
           = inl (ValueError (ColumnMismatch col expected))
        /\ forall fs self rows w,
             fs (counties_path self) = Some (header :: rows) ->
             load_counties_data fs self w
             = (w, inl (ValueError (ColumnMismatch col expected)))).
Proof.
  intros Hs.
  assert (Hv : forall names, validate_header header names
               = if negb (String.eqb (lower c0) "date")
                 then inl (ValueError (ColumnMismatch c0 "date"))
                 else if negb (String.eqb (lower c1) "county")
                 then inl (ValueError (ColumnMismatch c1 "county"))
                 else if negb (String.eqb (lower c2) "state")
                 then inl (ValueError (ColumnMismatch c2 "state"))
                 else if negb (String.eqb (lower c3) "fips")
                 then inl (ValueError (ColumnMismatch c3 "fips"))
                 else inr rest).
  { intros names. unfold validate_header. rewrite Hs. simpl.
    repeat (match goal with
            | |- context [String.eqb ?a ?b] => destruct (String.eqb a b)
            end; simpl; try reflexivity). }
  split.
  - intros Hm. simpl in Hm. injection Hm as H0 H1 H2 H3.
    rewrite Hv, H0, H1, H2, H3. reflexivity.
  - intros Hm.
    assert (Hstops : forall col expected,
               validate_header header counties_data_types
               = inl (ValueError (ColumnMismatch col expected)) ->
               forall fs self rows w,
                 fs (counties_path self) = Some (header :: rows) ->
                 load_counties_data fs self w
                 = (w, inl (ValueError (ColumnMismatch col expected)))).
    { intros col expected Hbad fs self rows w Hf.
      eapply load_counties_data_bad_header; eauto. }
    pose proof (Hv data_names) as Hd. pose proof (Hv counties_data_types) as Hc.
    destruct (String.eqb (lower c0) "date") eqn:E0; simpl in Hd, Hc.
    2: { apply String.eqb_neq in E0. exists 0%nat, c0, "date". simpl. repeat split; auto. apply Hstops. exact Hc. }
    destruct (String.eqb (lower c1) "county") eqn:E1; simpl in Hd, Hc.
    2: { apply String.eqb_eq in E0. apply String.eqb_neq in E1.
         exists 1%nat, c1, "county". simpl. rewrite E0. repeat split; auto. apply Hstops. exact Hc. }
    destruct (String.eqb (lower c2) "state") eqn:E2; simpl in Hd, Hc.
    2: { apply String.eqb_eq in E0, E1. apply String.eqb_neq in E2.
         exists 2%nat, c2, "state". simpl. rewrite E0, E1. repeat split; auto. apply Hstops. exact Hc. }
    destruct (String.eqb (lower c3) "fips") eqn:E3; simpl in Hd, Hc.
    2: { apply String.eqb_eq in E0, E1, E2. apply String.eqb_neq in E3.
         exists 3%nat, c3, "fips". simpl. rewrite E0, E1, E2. repeat split; auto. apply Hstops. exact Hc. }
    apply String.eqb_eq in E0, E1, E2, E3. exfalso. apply Hm. simpl.
    rewrite E0, E1, E2, E3. reflexivity.
Qed.


End HeaderAndPaths.

(** ** Where the code departs from the specification *)

Section Departures.
Context {RT : Runtime}.

(** C6, where the code departs from it. A header of three matching columns
    is no schema error naming a column: [validate_header] indexes the fourth
    column, which is not there, and the load ends in [IndexError]. No row is
    read and the process state is untouched. *)
Theorem short_header_index_error (w : World) :
  load_counties_data Sample.files
    (mkCovidData "counties_short.csv" "geocodes.csv" None []) w
  = (w, inl IndexError).
Proof. reflexivity. Qed.

(** C8, where the code departs from it. [load_geocodes_data] tests the path
    of the statistics file. A geocode path that does not exist is met by
    [open], as [FileNotFoundError]; and with the statistics path missing the
    loader reports the geocode file as not found although it is there. *)
Theorem geocode_path_not_checked (w : World) :
  load_geocodes_data Sample.files
    (mkCovidData "counties.csv" "nowhere.csv" None []) w
  = (w, inl (FileNotFoundError "nowhere.csv"))
  /\ load_geocodes_data Sample.files
       (mkCovidData "nowhere.csv" "geocodes.csv" None []) w
     = (w, inl (RuntimeError (GeocodesFileNotFound "nowhere.csv"))).
Proof. split; reflexivity. Qed.

(** C10, where the code departs from it. The sum under the square roots is
    rounded, and nothing keeps it at or below 1: whenever the binary64 value
    of [1 - a] is negative, [math.sqrt] refuses it and [haversine] raises a
    math domain error where the formula has a distance. This happens at
    valid points that are nearly antipodal. *)
Theorem haversine_rounding_domain_error (lat1 lon1 lat2 lon2 : float)
    (s c1 c2 s' : float) :
  math_sin (radians (lat2 - lat1) / 2)%float = Some s ->
  math_cos (radians lat1) = Some c1 ->
  math_cos (radians lat2) = Some c2 ->
  math_sin (radians (lon2 - lon1) / 2)%float = Some s' ->
  PrimFloat.ltb (1 - (s * s + c1 * c2 * s' * s'))%float 0%float = true ->
  haversine (lat1, lon1) (lat2, lon2) = inl (ValueError MathDomainError).
Proof.
  intros Hs Hc1 Hc2 Hs' Hneg. unfold haversine.
  rewrite Hs, Hc1, Hc2, Hs'. cbn [math_result ebind].
  unfold math_sqrt at 1.
  destruct (PrimFloat.ltb (s * s + c1 * c2 * s' * s')%float 0%float);
    [reflexivity |].
  cbn [ebind]. unfold math_sqrt at 1. rewrite Hneg. reflexivity.
Qed.

End Departures.

(** * The properties on the sample files *)

Section OnSampleFiles.
Import Sample.
#[local] Existing Instance runtime.

(** C1, on a file: after the load, the table holds a record under the empty
    county name, made from the row that names no county. *)
Lemma unnamed_county_record_created :
  load_geocodes_data files
    (mkCovidData "counties.csv" "geocodes_unnamed.csv" None []) empty_world
  = (mkWorld []
       [("CA", [("Alameda", mkGeo 37.77 (-122.27) 100 100);
                ("", mkGeo 37.5 (-122.5) 50 50)])]
       [WarnIncomplete 3; SkippingLine ""],
     inr tt).
Proof. vm_compute. reflexivity. Qed.

Lemma unnamed_county_rows_witness :
  lookup2 (geo_dict (fst (geocodes_row unnamed_city 2 loaded))) "CA" ""
  = Some (mkGeo 37.5 (-122.5) 50 50)
  /\ lookup2 (geo_dict (fst (geocodes_row unnamed_city 2 loaded))) "CA" "Alameda"
     = lookup2 (geo_dict loaded) "CA" "Alameda".
Proof.
  destruct (unnamed_county_rows unnamed_city 2
              (mkCity "CA" "" 37.5 (-122.5) 50) data
              (mkRequest "CA" "Alameda" 30) "cases" loaded) as [Hrow _].
  destruct (Hrow ltac:(vm_compute; reflexivity) eq_refl) as [Hnew Hold].
  split.
  - exact Hnew.
  - apply Hold. discriminate.
Defined.

(** C2, on files: Reno lies within 500 miles of Alameda and the statistics
    file has no row of Nevada; the request for Alameda ends in [KeyError]. *)
Lemma uncovered_state_key_error :
  snd (main files "counties.csv" "geocodes_nevada.csv" "requests_wide.csv" None
         "cases" empty_world)
  = inl (KeyError "NV").
Proof. vm_compute. reflexivity. Qed.

Lemma compute_stats_uncovered_state_witness :
  exists w' e,
    compute_stats data (mkRequest "CA" "Alameda" 500) "cases" loaded_nevada
    = (w', inl e).
Proof.
  apply (compute_stats_uncovered_state data (mkRequest "CA" "Alameda" 500) "cases"
           loaded_nevada
           [("Alameda", mkGeo 37.78 (-122.22) 400 300)]
           (mkGeo 37.78 (-122.22) 400 300)
           "NV" [("Washoe", mkGeo 39.52 (-119.81) 250 250)]
           ("Washoe", mkGeo 39.52 (-119.81) 250 250)).
  - simpl. auto.
  - vm_compute. reflexivity.
  - vm_compute. reflexivity.
  - vm_compute. right. left. reflexivity.
  - left. reflexivity.
  - split; [discriminate | split].
    + eexists. split; vm_compute; reflexivity.
    + vm_compute. reflexivity.
Defined.

(** C3, on a file: Alameda has a city of 100 and a city of 300 people; its
    record has 400 people and the coordinates of the city of 300. *)
Lemma geocode_cities_merged_witness :
  exists w' rec,
    load_geocodes_data files data empty_world = (w', inr tt)
    /\ lookup2 (geo_dict w') "CA" "Alameda" = Some rec
    /\ population rec = 400
    /\ lat rec = 37.78%float /\ lon rec = (-122.22)%float.
Proof.
  destruct (geocode_cities_merged files data geo_header
              [alameda_city; oakland_city; concord_city] empty_world)
    as (w' & Hload & Hall).
  - reflexivity.
  - reflexivity.
  - discriminate.
  - repeat constructor; discriminate.
  - intros line e [<- | [<- | [<- | []]]]; vm_compute; discriminate.
  - specialize (Hall "CA" "Alameda" eq_refl).
    assert (Hcs : filter (in_county "CA" "Alameda")
                    (cities_of_rows [alameda_city; oakland_city; concord_city])
                  = [mkCity "CA" "Alameda" 37.77 (-122.27) 100;
                     mkCity "CA" "Alameda" 37.78 (-122.22) 300])
      by (vm_compute; reflexivity).
    cbv zeta in Hall. rewrite Hcs in Hall.
    destruct (Hall ltac:(discriminate))
      as (rec & Hrec & Hpop & i & c & Hi & Hlat & Hlon & Hmax & _).
    exists w', rec. split; [exact Hload |]. split; [exact Hrec |].
    split; [rewrite Hpop; reflexivity |].
    destruct i as [| [| i]]; simpl in Hi.
    + exfalso. injection Hi as <-.
      specialize (Hmax 1%nat _ eq_refl). simpl in Hmax. lia.
    + injection Hi as <-. split; assumption.
    + destruct i; discriminate.
Defined.

(** C4, on files: a second instance constructed from the file with Alameda
    on two dates, on top of the tables the first instance left. Alameda's
    1636 cases are overwritten with the 1700 of the later row, and its 400
    people are counted twice. *)
Lemma tables_are_class_attributes_witness :
  (exists rec,
      lookup2 (covid_dict loaded) "CA" "Alameda" = Some rec
      /\ dict_get rec "cases" = Some (VInt 1636))
  /\ (exists rec,
         lookup2
           (covid_dict
              (fst (init files "counties_twice.csv" "geocodes.csv" None loaded)))
           "CA" "Alameda" = Some rec
         /\ dict_get rec "cases" = Some (VInt 1700))
  /\ (exists rec',
         lookup2
           (geo_dict
              (fst (init files "counties_twice.csv" "geocodes.csv" None loaded)))
           "CA" "Alameda" = Some rec'
         /\ population rec' = 800).
Proof.
  destruct (tables_are_class_attributes files "counties_twice.csv" "geocodes.csv"
              None loaded) as (_ & _ & Hover & _ & Hadd & _).
  split; [eexists; split; vm_compute; reflexivity |]. split.
  - destruct (Hover (mkCovidData "counties_twice.csv" "geocodes.csv" None
                       ["cases"; "deaths"])
                counties_header [alameda_may1] alameda_may2 [contra_costa_may1]
                "2020-05-02" "Alameda" "CA" "06001" ["1700"; "65"])
      as (rec & Hrec & Hval).
    + vm_compute. reflexivity.
    + reflexivity.
    + repeat constructor; discriminate.
    + vm_compute. reflexivity.
    + intros line d f fl [<- | []]. vm_compute. intros H. discriminate H.
    + exists rec. split; [exact Hrec |].
      rewrite Hval; [vm_compute; reflexivity | simpl; auto].
  - destruct (Hadd (mkCovidData "counties_twice.csv" "geocodes.csv" None
                      ["cases"; "deaths"])
                geo_header [alameda_city; oakland_city; concord_city]
                "CA" "Alameda" (mkGeo 37.78 (-122.22) 400 300))
      as (rec' & Hrec & Hpop).
    + vm_compute. reflexivity.
    + reflexivity.
    + discriminate.
    + repeat constructor; discriminate.
    + vm_compute. reflexivity.
    + exists rec'. split; [exact Hrec |]. rewrite Hpop. vm_compute. reflexivity.
Defined.

(** C5, on a file with Alameda on two dates: the later row's counts are the
    ones in the table. *)
Lemma last_statistics_row_wins_witness :
  exists rec,
    lookup2
      (covid_dict
         (fst (load_counties_data files
                 (mkCovidData "counties_twice.csv" "geocodes.csv" None [])
                 empty_world)))
      "CA" "Alameda" = Some rec
    /\ dict_get rec "fips" = Some (VStr "06001")
    /\ dict_get rec "cases" = Some (VInt 1700)
    /\ dict_get rec "deaths" = Some (VInt 65).
Proof.
  destruct (last_statistics_row_wins files
              (mkCovidData "counties_twice.csv" "geocodes.csv" None [])
              (mkCovidData "counties_twice.csv" "geocodes.csv" None ["cases"; "deaths"])
              counties_header [alameda_may1] [contra_costa_may1] alameda_may2
              empty_world
              (fst (load_counties_data files
                      (mkCovidData "counties_twice.csv" "geocodes.csv" None [])
                      empty_world))
              "2020-05-02" "Alameda" "CA" "06001" ["1700"; "65"])
    as (_ & (rec & Hrec & Hval) & _).
  - split; [constructor | intros k t []].
  - reflexivity.
  - repeat constructor; discriminate.
  - vm_compute. reflexivity.
  - vm_compute. reflexivity.
  - intros line d f fl [<- | []]. vm_compute. intros H. discriminate H.
  - exists rec. split; [exact Hrec |].
    split; [| split]; (rewrite Hval; [vm_compute; reflexivity | simpl; auto]).
Defined.

(** C7, on the loaded sample: the made-up county and the made-up state of
    the unit tests, and a statistic the header does not have. *)
Lemma compute_stats_lookup_errors_witness :
  snd (compute_stats data (mkRequest "CA" "Notreal" 100) "cases" loaded)
  = inl (ValueError (CountyNotFound "Notreal" "CA"))
  /\ snd (compute_stats data (mkRequest "CAJON" "Notreal" 100) "cases" loaded)
     = inl (ValueError (StateNotFound "CAJON"))
  /\ compute_stats data (mkRequest "CA" "Alameda" 100) "recoveries" loaded
     = (loaded, inl (ValueError (StatisticNotFound "recoveries"))).
Proof.
  split; [| split].
  - destruct (compute_stats_lookup_errors data (mkRequest "CA" "Notreal" 100)
                "cases" loaded) as (_ & _ & _ & Hcounty).
    rewrite (Hcounty [("Alameda", mkGeo 37.78 (-122.22) 400 300);
                      ("Contra Costa", mkGeo 37.98 (-122.03) 200 200)]).
    + reflexivity.
    + simpl. auto.
    + vm_compute. reflexivity.
    + reflexivity.
  - destruct (compute_stats_lookup_errors data (mkRequest "CAJON" "Notreal" 100)
                "cases" loaded) as (_ & _ & Hstate & _).
    rewrite Hstate.
    + reflexivity.
    + simpl. auto.
    + vm_compute. reflexivity.
  - destruct (compute_stats_lookup_errors data (mkRequest "CA" "Alameda" 100)
                "recoveries" loaded) as (_ & Hstat & _).
    apply Hstat. simpl. intros [H | [H | []]]; discriminate H.
Defined.

(** C9, on files: a radius of 30 and a radius of exactly 1000 are taken; a
    radius of 1000.5 stops the run before anything is loaded. *)
Lemma radius_limit_witness :
  get_requests files "requests.csv" empty_world
  = (empty_world,
     inr [mkRequest "CA" "Alameda" 30; mkRequest "CA" "Contra Costa" 1000])
  /\ main files "counties.csv" "geocodes.csv" "requests_far.csv" None "cases"
       empty_world
     = (empty_world, inl too_large).
Proof.
  split.
  - destruct (radius_limit files "requests.csv" requests_header empty_world)
      as (_ & Haccept & _).
    apply (Haccept ["Alameda,CA,30" ++ nl; "Contra Costa,CA,1000" ++ nl]).
    + reflexivity.
    + constructor; [| constructor; [| constructor]].
      * exists "Alameda", "CA", "30", 30%float.
        repeat split; vm_compute; reflexivity.
      * exists "Contra Costa", "CA", "1000", 1000%float.
        repeat split; vm_compute; reflexivity.
  - destruct (radius_limit files "requests_far.csv" requests_header empty_world)
      as (Hreject & _).
    apply (Hreject ["Alameda,CA,30" ++ nl] [mkRequest "CA" "Alameda" 30]
             ("Alameda,CA,1000.5" ++ nl) ["Contra Costa,CA,10" ++ nl]).
    + reflexivity.
    + constructor; [| constructor].
      exists "Alameda", "CA", "30", 30%float.
      repeat split; vm_compute; reflexivity.
    + exists "Alameda", "CA", "1000.5", 1000.5%float.
      repeat split; vm_compute; reflexivity.
Defined.

Lemma validate_header_schema_witness :
  exists col expected,
    validate_header ("date,county,state,zip,cases" ++ nl) counties_data_types
    = inl (ValueError (ColumnMismatch col expected)).
Proof.
  destruct (validate_header_schema ("date,county,state,zip,cases" ++ nl)
              counties_data_types "date" "county" "state" "zip" ["cases"])
    as [_ Hbad].
  - reflexivity.
  - destruct Hbad as (i & col & expected & _ & _ & _ & _ & Hv & _).
    + discriminate.
    + exists col, expected. exact Hv.
Defined.


End OnSampleFiles.

(** C10, at two points a quarter of a degree of arc short of antipodal, with
    libm's values of sine and cosine: the sum is 1.0000000000000002. *)
Lemma haversine_rounding_domain_error_witness :
  @haversine Sample.runtime_libm (0.01215, 0)%float (-0.01215, 180)%float
  = inl (ValueError MathDomainError)
  /\ (let s := (-0.0002120575025279971)%float in
      let c := 0.9999999775158076%float in
      (s * s + c * c * 1 * 1)%float = 1.0000000000000002%float).
Proof.
  split; [| vm_compute; reflexivity].
  apply (@haversine_rounding_domain_error Sample.runtime_libm
           0.01215 0 (-0.01215) 180
           (-0.0002120575025279971) 0.9999999775158076 0.9999999775158076 1)%float;
    vm_compute; reflexivity.
Defined.


(** * Further properties of the code *)

(** ** What [compute_stats] returns *)

Section RegionProofs.
Context {RT : Runtime}.

Lemma sum_app l l' : sum (l ++ l') = sum l + sum l'.
Proof. unfold sum. induction l as [| x l IH]; simpl; lia. Qed.

Lemma totals_extended_nil covid stat acc : totals_extended covid stat [] acc acc.
Proof.
  unfold totals_extended. simpl. rewrite app_nil_r. split; [reflexivity |].
  split; [unfold sum; simpl; lia |]. exists [], []. simpl.
  repeat split; try constructor.
  - unfold sum; simpl; lia.
  - rewrite app_nil_r. reflexivity.
Qed.

Lemma totals_extended_app covid stat items items' acc acc' acc'' :
  totals_extended covid stat items acc acc' ->
  totals_extended covid stat items' acc' acc'' ->
  totals_extended covid stat (items ++ items') acc acc''.
Proof.
  intros (Hc & Hp & ns & fs & Hn & Hf & Hs & Hfi)
         (Hc' & Hp' & ns' & fs' & Hn' & Hf' & Hs' & Hfi').
  unfold totals_extended. rewrite Hc', Hc, Hp', Hp, !map_app, <- app_assoc, sum_app.
  split; [reflexivity |]. split; [lia |].
  exists (ns ++ ns')%list, (fs ++ fs')%list.
  split; [apply Forall2_app; assumption |].
  split; [apply Forall2_app; assumption |].
  rewrite Hs', Hs, Hfi', Hfi, <- app_assoc, sum_app. split; [lia | reflexivity].
Qed.

(** A turn of the scan that ends well has added the entry when it is in the
    region, and nothing otherwise. *)
Lemma scan_county_region county state stat distance origin new_state entry acc w w' acc' :
  scan_county county state stat distance origin new_state entry acc w = (w', inr acc') ->
  totals_extended (covid_dict w) stat
    (map (fun e => (new_state, fst e, snd e))
         (filter (in_region (covid_dict w) origin distance new_state) [entry]))
    acc acc'.
Proof.
  destruct entry as [new_county rec].
  assert (Out : in_region (covid_dict w) origin distance new_state (new_county, rec) = false ->
                w' = w -> acc' = acc ->
                totals_extended (covid_dict w) stat
                  (map (fun e => (new_state, fst e, snd e))
                     (filter (in_region (covid_dict w) origin distance new_state)
                        [(new_county, rec)])) acc acc').
  { intros Hb _ ->. simpl. rewrite Hb. apply totals_extended_nil. }
  unfold scan_county.
  destruct (String.eqb new_county "") eqn:En.
  - unfold ret. intros H; inv H. apply Out; auto.
    unfold in_region. simpl. rewrite En. reflexivity.
  - unfold bind at 1. unfold lift at 1.
    destruct (haversine origin (lat rec, lon rec)) as [e | dist] eqn:Eh; [discriminate |].
    destruct (PrimFloat.leb dist distance) eqn:El.
    2: { unfold ret. intros H; inv H. apply Out; auto.
         unfold in_region. simpl. rewrite En, Eh, El. reflexivity. }
    unfold bind at 1. unfold get_covid at 1. unfold bind at 1. unfold lift at 1.
    unfold dict_index at 1.
    destruct (dict_get (covid_dict w) new_state) as [table |] eqn:Es; [| discriminate].
    unfold dict_mem.
    destruct (dict_get table new_county) as [crec |] eqn:Ec.
    2: { unfold ret. intros H; inv H. apply Out; auto.
         unfold in_region, dict_mem. simpl. rewrite En, Eh, El. rewrite Es, Ec. reflexivity. }
    run. rewrite Ec.
    destruct (dict_get crec stat) as [[s | n] |] eqn:Ev; try discriminate.
    destruct (dict_get crec "fips") as [f |] eqn:Ef; try discriminate.
    intros H; inv H. simpl.
    assert (Hb : in_region (covid_dict w) origin distance new_state (new_county, rec) = true).
    { unfold in_region, dict_mem. simpl. rewrite En, Eh, El, Es, Ec. reflexivity. }
    rewrite Hb. simpl.
    unfold totals_extended, sum. simpl. split; [reflexivity |]. split; [lia |].
    assert (Hrec : lookup2 (covid_dict w) new_state new_county = Some crec)
      by (unfold lookup2; rewrite Es; exact Ec).
    exists [n], [f]. simpl. repeat split.
    + constructor; [exists crec; simpl; auto | constructor].
    + constructor; [exists crec; simpl; auto | constructor].
    + lia.
Qed.

Lemma scan_counties_region county state stat distance origin new_state entries :
  forall acc w w' acc',
  scan_counties county state stat distance origin new_state entries acc w = (w', inr acc') ->
  totals_extended (covid_dict w) stat
    (map (fun e => (new_state, fst e, snd e))
         (filter (in_region (covid_dict w) origin distance new_state) entries))
    acc acc'.
Proof.
  induction entries as [| entry entries IH]; intros acc w w' acc'.
  - simpl. unfold ret. intros H; inv H. apply totals_extended_nil.
  - cbn [scan_counties]. unfold bind.
    destruct (scan_county county state stat distance origin new_state entry acc w)
      as [w1 [e | acc1]] eqn:E1; [discriminate |].
    intros H. pose proof (scan_county_region _ _ _ _ _ _ _ _ _ _ _ E1) as H1.
    destruct (scan_county_frame E1) as (Hc & _).
    apply IH in H. rewrite Hc in H.
    change (entry :: entries) with ([entry] ++ entries)%list.
    rewrite filter_app, map_app.
    eapply totals_extended_app; eassumption.
Qed.

Lemma scan_states_region county state stat distance origin geo :
  forall acc w w' acc',
  scan_states county state stat distance origin geo acc w = (w', inr acc') ->
  totals_extended (covid_dict w) stat (region (covid_dict w) origin distance geo) acc acc'.
Proof.
  induction geo as [| [new_state entries] geo IH]; intros acc w w' acc'.
  - simpl. unfold ret. intros H; inv H. apply totals_extended_nil.
  - cbn [scan_states]. unfold bind.
    destruct (scan_counties county state stat distance origin new_state entries acc w)
      as [w1 [e | acc1]] eqn:E1; [discriminate |].
    intros H. pose proof (scan_counties_region _ _ _ _ _ _ _ _ _ _ _ E1) as H1.
    destruct (scan_counties_frame E1) as (Hc & _).
    apply IH in H. rewrite Hc in H.
    unfold region. cbn [flat_map fst snd]. fold (region (covid_dict w) origin distance geo).
    eapply totals_extended_app; eassumption.
Qed.

(** The result of a request that is served: the request echoed, the point of
    its county, and the totals over the region, which is the named entries of
    the geocode table within the radius whose county the statistics table
    has, in the order of the geocode table. *)
Theorem compute_stats_region (self : CovidData) (request : Request) (stat : string)
    (w w' : World) (res : Result) :
  compute_stats self request stat w = (w', inr res) ->
  exists rec,
    lookup2 (geo_dict w) (req_state request) (req_county request) = Some rec
    /\ res_state res = req_state request
    /\ res_county res = req_county request
    /\ res_stat res = stat
    /\ res_cords res = (lat rec, lon rec)
    /\ let items := region (covid_dict w) (lat rec, lon rec) (req_distance request)
                      (geo_dict w) in
       res_counties res = map (fun i => (snd (fst i), fst (fst i))) items
       /\ res_population res = sum (map (fun i => population (snd i)) items)
       /\ List.length (res_fips res) = List.length (res_counties res)
       /\ Forall2 (fun i f => exists crec,
                      lookup2 (covid_dict w) (fst (fst i)) (snd (fst i)) = Some crec
                      /\ dict_get crec "fips" = Some f) items (res_fips res)
       /\ exists ns,
            Forall2 (fun i n => exists crec,
                         lookup2 (covid_dict w) (fst (fst i)) (snd (fst i)) = Some crec
                         /\ dict_get crec stat = Some (VInt n)) items ns
            /\ res_stat_total res = sum ns.
Proof.
  intros Hrun.
  destruct (in_dec string_dec stat (stat_names self)) as [Hs | Hs].
  2: { rewrite (compute_stats_unknown_stat _ _ _ _ Hs) in Hrun. discriminate. }
  destruct (dict_get (geo_dict w) (req_state request)) as [table |] eqn:Hg.
  2: { rewrite (compute_stats_unknown_state _ _ _ _ Hs Hg) in Hrun. discriminate. }
  destruct (dict_get table (req_county request)) as [rec |] eqn:Ht.
  2: { rewrite (compute_stats_unknown_county _ _ _ _ _ Hs Hg Ht) in Hrun. discriminate. }
  rewrite (compute_stats_scan Hs Hg Ht) in Hrun. unfold bind in Hrun.
  match type of Hrun with
  | context [scan_states ?a ?b ?c ?d ?o ?g ?acc ?w0] =>
      destruct (scan_states a b c d o g acc w0) as [w1 [e | acc1]] eqn:E1
  end; [discriminate |].
  unfold print, ret in Hrun. inv Hrun.
  apply scan_states_region in E1. simpl covid_dict in E1.
  destruct E1 as (Hc & Hp & ns & fs & Hn & Hf & Hst & Hfi). simpl in Hc, Hp, Hst, Hfi.
  exists rec. unfold lookup2. rewrite Hg. simpl.
  repeat split; auto.
  - rewrite Hfi, Hc, length_map. symmetry. eapply Forall2_length. exact Hf.
  - rewrite Hfi. exact Hf.
  - exists ns. split; [exact Hn | exact Hst].
Qed.

End RegionProofs.

(** ** What [compute_stats] leaves alone *)

Section ReadsOnly.
Context {RT : Runtime}.

(** On given tables a turn of the scan prints the same lines and ends the
    same way whatever was printed before. *)
Lemma scan_county_reads_only county state stat distance origin new_state entry acc
    covid geo :
  exists out r, forall so,
    scan_county county state stat distance origin new_state entry acc
      (mkWorld covid geo so)
    = (mkWorld covid geo (so ++ out), r).
Proof.
  unfold scan_county. destruct entry as [new_county rec].
  assert (Quiet : forall r : exn + Totals,
             exists out r', forall so,
               (mkWorld covid geo so, r) = (mkWorld covid geo (so ++ out), r')).
  { intros r. exists [], r. intros so. rewrite app_nil_r. reflexivity. }
  destruct (String.eqb new_county ""); [apply Quiet |].
  unfold bind at 1. unfold lift at 1.
  destruct (haversine origin (lat rec, lon rec)) as [e | dist]; [apply Quiet |].
  destruct (PrimFloat.leb dist distance); [| apply Quiet].
  unfold bind at 1. unfold get_covid at 1. cbn [covid_dict].
  unfold bind at 1. unfold lift at 1. unfold dict_index at 1.
  destruct (dict_get covid new_state) as [table |]; [| apply Quiet].
  unfold dict_mem. destruct (dict_get table new_county) as [crec |] eqn:Ec;
    [| apply Quiet].
  run. rewrite Ec.
  destruct (dict_get crec stat) as [[s | n] |].
  - eexists [_], _. intros so. reflexivity.
  - destruct (dict_get crec "fips") as [f |].
    + eexists [_; _], _. intros so. simpl. rewrite <- app_assoc. reflexivity.
    + eexists [_; _], _. intros so. simpl. rewrite <- app_assoc. reflexivity.
  - eexists [_], _. intros so. reflexivity.
Qed.

Lemma scan_counties_reads_only county state stat distance origin new_state entries
    covid geo :
  forall acc, exists out r, forall so,
    scan_counties county state stat distance origin new_state entries acc
      (mkWorld covid geo so)
    = (mkWorld covid geo (so ++ out), r).
Proof.
  induction entries as [| entry entries IH]; intros acc; simpl.
  - exists [], (inr acc). intros so. rewrite app_nil_r. reflexivity.
  - destruct (scan_county_reads_only county state stat distance origin new_state
                entry acc covid geo) as (out & r & E).
    destruct r as [e | acc1].
    + exists out, (inl e). intros so. unfold bind. rewrite E. reflexivity.
    + destruct (IH acc1) as (out' & r' & E').
      exists (out ++ out')%list, r'. intros so. unfold bind. rewrite E, E', app_assoc.
      reflexivity.
Qed.

Lemma scan_states_reads_only county state stat distance origin geo0 covid geo :
  forall acc, exists out r, forall so,
    scan_states county state stat distance origin geo0 acc (mkWorld covid geo so)
    = (mkWorld covid geo (so ++ out), r).
Proof.
  induction geo0 as [| [new_state entries] geo0 IH]; intros acc; simpl.
  - exists [], (inr acc). intros so. rewrite app_nil_r. reflexivity.
  - destruct (scan_counties_reads_only county state stat distance origin new_state
                entries covid geo acc) as (out & r & E).
    destruct r as [e | acc1].
    + exists out, (inl e). intros so. unfold bind. rewrite E. reflexivity.
    + destruct (IH acc1) as (out' & r' & E').
      exists (out ++ out')%list, r'. intros so. unfold bind. rewrite E, E', app_assoc.
      reflexivity.
Qed.

Lemma compute_stats_reads_only self request stat covid geo :
  exists out r, forall so,
    compute_stats self request stat (mkWorld covid geo so)
    = (mkWorld covid geo (so ++ out), r).
Proof.
  destruct (in_dec string_dec stat (stat_names self)) as [Hs | Hs].
  2: { exists [], (inl (ValueError (StatisticNotFound stat))). intros so.
       rewrite (compute_stats_unknown_stat _ _ _ _ Hs), app_nil_r. reflexivity. }
  destruct (dict_get geo (req_state request)) as [table |] eqn:Hg.
  2: { eexists [_], _. intros so.
       rewrite (compute_stats_unknown_state _ _ _ (mkWorld covid geo so) Hs Hg).
       reflexivity. }
  destruct (dict_get table (req_county request)) as [rec |] eqn:Ht.
  2: { eexists [_], _. intros so.
       rewrite (compute_stats_unknown_county _ _ _ (mkWorld covid geo so) _ Hs Hg Ht).
       reflexivity. }
  destruct (scan_states_reads_only (req_county request) (req_state request) stat
              (req_distance request) (lat rec, lon rec) geo covid geo
              (mkTotals 0 0 [] [])) as (out & r & E).
  destruct r as [e | acc].
  - eexists (_ :: out), (inl e). intros so.
    rewrite (@compute_stats_scan _ self request stat (mkWorld covid geo so) table rec Hs Hg Ht).
    unfold bind, printed. cbn [covid_dict geo_dict stdout]. rewrite E.
    rewrite <- app_assoc. reflexivity.
  - eexists (_ :: out ++ [_])%list, (inr _). intros so.
    rewrite (@compute_stats_scan _ self request stat (mkWorld covid geo so) table rec Hs Hg Ht).
    unfold bind, printed. cbn [covid_dict geo_dict stdout]. rewrite E.
    unfold print, ret. cbn [covid_dict geo_dict stdout].
    rewrite <- !app_assoc. reflexivity.
Qed.

(** [compute_stats] reads the tables and writes only to the output: both
    tables are afterwards what they were, the output has only grown, and the
    same request asked again of the state it left gets the same result or the
    same exception. *)
Theorem compute_stats_leaves_tables (self : CovidData) (request : Request)
    (stat : string) (w : World) :
  let w1 := fst (compute_stats self request stat w) in
  covid_dict w1 = covid_dict w
  /\ geo_dict w1 = geo_dict w
  /\ (exists out, stdout w1 = (stdout w ++ out)%list)
  /\ snd (compute_stats self request stat w1) = snd (compute_stats self request stat w).
Proof.
  destruct w as [covid geo so].
  destruct (compute_stats_reads_only self request stat covid geo) as (out & r & E).
  cbv zeta. rewrite (E so). cbn [fst snd covid_dict geo_dict stdout].
  rewrite (E (so ++ out)%list). cbn [snd]. eauto.
Qed.

End ReadsOnly.

(** ** Complete records, and the exceptions of [compute_stats] *)

Section Complete.
Context {RT : Runtime}.

Lemma enter_values_complete names : forall fields rec (K : list string),
  dict_get rec "fips" <> None ->
  (forall k, In k K -> exists n, dict_get rec k = Some (VInt n)) ->
  snd (enter_values rec names fields) = None ->
  dict_get (fst (enter_values rec names fields)) "fips" <> None
  /\ forall k, In k K \/ In k names ->
       exists n, dict_get (fst (enter_values rec names fields)) k = Some (VInt n).
Proof.
  induction names as [| stat names IH]; intros fields rec K Hf HK Hok; simpl in *.
  - split; [exact Hf |]. intros k [Hk | []]. auto.
  - destruct fields as [| field fields]; [discriminate |].
    destruct (stat_value field) as [e | v]; [discriminate |].
    destruct (IH fields (dict_set rec stat (VInt v)) (stat :: K)) as [Hf' HK'].
    + destruct (string_dec "fips" stat) as [<- | Hne].
      * rewrite dict_get_set_same. discriminate.
      * rewrite dict_get_set_other by exact Hne. exact Hf.
    + intros k [<- | Hk].
      * exists v. apply dict_get_set_same.
      * destruct (string_dec k stat) as [-> | Hne].
        -- exists v. apply dict_get_set_same.
        -- rewrite dict_get_set_other by exact Hne. auto.
    + exact Hok.
    + split; [exact Hf' |]. intros k Hk. apply HK'. simpl. tauto.
Qed.

Lemma fips_entered_has_fips old fips : dict_get (fips_entered old fips) "fips" <> None.
Proof.
  destruct old; simpl; [rewrite dict_get_set_same |]; discriminate.
Qed.

Lemma counties_row_complete self line linenum w w' n :
  counties_row self line linenum w = (w', inr n) ->
  complete_table (stat_names self) (covid_dict w) ->
  complete_table (stat_names self) (covid_dict w').
Proof.
  rewrite counties_row_spec.
  destruct (read_counties_row self line) as [| | e | d c s f fields]; simpl;
    intros H; try (inv H; auto; fail).
  set (old := lookup2 (covid_dict w) s c) in *.
  destruct (snd (enter_values (fips_entered old f) (stat_names self) fields))
    as [e |] eqn:Hok; inv H.
  intros Hall state county rec. simpl.
  destruct (string_dec state s) as [-> | Hs].
  - destruct (string_dec county c) as [-> | Hc].
    + rewrite lookup2_set2_same. intros E; inv E.
      destruct (enter_values_complete (stat_names self) fields
                  (fips_entered old f) [] (fips_entered_has_fips old f)) as [Hf HK].
      * intros k [].
      * exact Hok.
      * split; [exact Hf |]. intros k Hk. apply HK. right; exact Hk.
    + rewrite lookup2_set2_other by congruence. apply Hall.
  - rewrite lookup2_set2_other by congruence. apply Hall.
Qed.

Lemma read_counties_rows_complete self rows : forall linenum w w',
  read_rows (counties_row self) rows linenum w = (w', inr tt) ->
  complete_table (stat_names self) (covid_dict w) ->
  complete_table (stat_names self) (covid_dict w').
Proof.
  induction rows as [| line rows IH]; intros linenum w w'; simpl; unfold bind.
  - destruct (counties_row self "" linenum w) as [w1 [e | n]] eqn:E; [discriminate |].
    unfold ret. intros H; inv H. eapply counties_row_complete; eauto.
  - destruct (counties_row self line linenum w) as [w1 [e | n]] eqn:E; [discriminate |].
    destruct (String.eqb line "").
    + unfold ret. intros H; inv H. eapply counties_row_complete; eauto.
    + intros H Hall. eapply IH; [exact H |]. eapply counties_row_complete; eauto.
Qed.

(** A load that succeeds keeps the records of the statistics table complete:
    when every record had a fips entry and an integer under every statistic
    name of the header, so has every record afterwards; from empty tables,
    every record of the table has them. *)
Theorem loaded_records_complete (fs : FileSystem) (self self' : CovidData)
    (w w' : World) :
  load_counties_data fs self w = (w', inr self') ->
  complete_table (stat_names self') (covid_dict w) ->
  complete_table (stat_names self') (covid_dict w').
Proof.
  intros Hload Hall.
  destruct (fs (counties_path self)) as [[| header rows] |] eqn:Hf.
  - exfalso. unfold load_counties_data, exists_, open in Hload. rewrite Hf in Hload.
    simpl in Hload. discriminate Hload.
  - destruct (load_counties_data_rows _ _ _ _ _ _ _ Hf Hload) as (_ & _ & Hrows).
    eapply read_counties_rows_complete; eauto.
  - exfalso. unfold load_counties_data, exists_ in Hload. rewrite Hf in Hload.
    simpl in Hload. discriminate Hload.
Qed.

(** On complete records the scan cannot miss a statistic or a fips entry nor
    meet a string where it adds: what a turn raises is a math domain error,
    or the [KeyError] of a state that the statistics table does not have. *)
Lemma scan_county_errors county state stat distance origin new_state entry acc w w' e
    names :
  complete_table names (covid_dict w) -> In stat names ->
  scan_county county state stat distance origin new_state entry acc w = (w', inl e) ->
  e = ValueError MathDomainError
  \/ (e = KeyError new_state /\ dict_get (covid_dict w) new_state = None).
Proof.
  intros Hall Hs. unfold scan_county. destruct entry as [new_county rec].
  destruct (String.eqb new_county ""); [discriminate |].
  unfold bind at 1. unfold lift at 1.
  destruct (haversine origin (lat rec, lon rec)) as [e0 | dist] eqn:Eh.
  { intros H; inv H. left. eapply haversine_error; eauto. }
  destruct (PrimFloat.leb dist distance); [| discriminate].
  unfold bind at 1. unfold get_covid at 1. unfold bind at 1. unfold lift at 1.
  unfold dict_index at 1.
  destruct (dict_get (covid_dict w) new_state) as [table |] eqn:Es.
  2: { intros H; inv H. right. auto. }
  unfold dict_mem. destruct (dict_get table new_county) as [crec |] eqn:Ec;
    [| discriminate].
  assert (Hc : complete_record names crec).
  { apply (Hall new_state new_county). unfold lookup2. rewrite Es. exact Ec. }
  destruct Hc as [Hfips Hstats]. destruct (Hstats stat Hs) as (n & Hn).
  run. rewrite Ec, Hn.
  destruct (dict_get crec "fips"); [discriminate | congruence].
Qed.

Lemma scan_counties_errors county state stat distance origin new_state entries names :
  forall acc w w' e,
  complete_table names (covid_dict w) -> In stat names ->
  scan_counties county state stat distance origin new_state entries acc w = (w', inl e) ->
  e = ValueError MathDomainError
  \/ (e = KeyError new_state /\ dict_get (covid_dict w) new_state = None).
Proof.
  induction entries as [| entry entries IH]; intros acc w w' e Hall Hs; simpl;
    [discriminate |].
  unfold bind.
  destruct (scan_county county state stat distance origin new_state entry acc w)
    as [w1 [e1 | acc1]] eqn:E1.
  - intros H; inv H. eapply scan_county_errors; eauto.
  - destruct (scan_county_frame E1) as (Hc & _). intros H.
    rewrite <- Hc. eapply IH; [rewrite Hc; exact Hall | exact Hs | exact H].
Qed.

Lemma scan_states_errors county state stat distance origin geo names :
  forall acc w w' e,
  complete_table names (covid_dict w) -> In stat names ->
  scan_states county state stat distance origin geo acc w = (w', inl e) ->
  e = ValueError MathDomainError
  \/ exists new_state,
       e = KeyError new_state
       /\ dict_get geo new_state <> None
       /\ dict_get (covid_dict w) new_state = None.
Proof.
  induction geo as [| [new_state entries] geo IH]; intros acc w w' e Hall Hs; simpl;
    [discriminate |].
  unfold bind.
  destruct (scan_counties county state stat distance origin new_state entries acc w)
    as [w1 [e1 | acc1]] eqn:E1.
  - intros H; inv H.
    destruct (scan_counties_errors _ _ _ _ _ _ _ _ _ _ _ _ Hall Hs E1) as [-> | [-> Hn]];
      [left; reflexivity |].
    right. exists new_state. rewrite String.eqb_refl. repeat split; auto. discriminate.
  - destruct (scan_counties_frame E1) as (Hc & _). intros H.
    destruct (IH acc1 w1 w' e) as [-> | (s & -> & Hg & Hn)];
      [rewrite Hc; exact Hall | exact Hs | exact H | left; reflexivity |].
    right. exists s. rewrite <- Hc. repeat split; auto.
    destruct (String.eqb s new_state); [discriminate | exact Hg].
Qed.

(** Every exception of [compute_stats] on a table of complete records: one
    of the three lookup errors, a math domain error of the distance, or the
    [KeyError] of a state that is in the geocode table and not in the
    statistics table. It raises no [TypeError] and no [KeyError] for a
    statistic or for fips. *)
Theorem compute_stats_exceptions (self : CovidData) (request : Request)
    (stat : string) (w w' : World) (e : exn) :
  complete_table (stat_names self) (covid_dict w) ->
  compute_stats self request stat w = (w', inl e) ->
  lookup_error e = true
  \/ e = ValueError MathDomainError
  \/ exists new_state,
       e = KeyError new_state
       /\ dict_get (geo_dict w) new_state <> None
       /\ dict_get (covid_dict w) new_state = None.
Proof.
  intros Hall Hrun.
  destruct (in_dec string_dec stat (stat_names self)) as [Hs | Hs].
  2: { rewrite (compute_stats_unknown_stat _ _ _ _ Hs) in Hrun. inv Hrun. left; reflexivity. }
  destruct (dict_get (geo_dict w) (req_state request)) as [table |] eqn:Hg.
  2: { rewrite (compute_stats_unknown_state _ _ _ _ Hs Hg) in Hrun. inv Hrun.
       left; reflexivity. }
  destruct (dict_get table (req_county request)) as [rec |] eqn:Ht.
  2: { rewrite (compute_stats_unknown_county _ _ _ _ _ Hs Hg Ht) in Hrun. inv Hrun.
       left; reflexivity. }
  rewrite (compute_stats_scan Hs Hg Ht) in Hrun. unfold bind in Hrun.
  match type of Hrun with
  | context [scan_states ?a ?b ?c ?d ?o ?g ?acc ?w0] =>
      destruct (scan_states a b c d o g acc w0) as [w1 [e1 | acc1]] eqn:E1
  end.
  - inv Hrun. right.
    eapply scan_states_errors in E1; [exact E1 | exact Hall | exact Hs].
  - unfold print, ret in Hrun. inv Hrun.
Qed.

End Complete.

(** ** Rows the statistics loader passes over, and rows it fails on *)

Section ReplayProofs.
Context {RT : Runtime}.

Lemma read_counties_row_eof self : read_counties_row self "" = Malformed.
Proof. reflexivity. Qed.

Lemma read_counties_rows_replay self rows : forall linenum w,
  covid_dict (fst (read_rows (counties_row self) rows linenum w))
  = fst (counties_after self rows (covid_dict w))
  /\ geo_dict (fst (read_rows (counties_row self) rows linenum w)) = geo_dict w
  /\ snd (read_rows (counties_row self) rows linenum w)
     = outcome (snd (counties_after self rows (covid_dict w))).
Proof.
  induction rows as [| line rows IH]; intros linenum w;
    cbn [read_rows counties_after]; unfold bind at 1 2 3;
    rewrite counties_row_spec.
  - rewrite read_counties_row_eof. simpl. auto.
  - destruct (read_counties_row self line) as [| | e | d c s f fields];
      cbn [row_effect fst snd].
    + destruct (String.eqb line ""); [simpl; auto |].
      apply (IH (linenum + 1) (warned w linenum line)).
    + destruct (String.eqb line ""); [simpl; auto |]. apply IH.
    + simpl. auto.
    + cbv zeta.
      destruct (snd (enter_values (fips_entered (lookup2 (covid_dict w) s c) f)
                       (stat_names self) fields)); [simpl; auto |].
      destruct (String.eqb line ""); [simpl; auto |].
      match goal with
      | |- context [read_rows _ rows ?n ?w1] =>
          destruct (IH n w1) as (H1 & H2 & H3)
      end.
      simpl in H1, H2, H3 |- *. auto.
Qed.

Lemma counties_after_counts self rows : forall covid,
  Forall (fun line => line <> "") rows ->
  counties_after self (filter (row_counts self) rows) covid
  = counties_after self rows covid.
Proof.
  induction rows as [| line rows IH]; intros covid Hne; [reflexivity |].
  inv Hne. assert (El : String.eqb line "" = false) by (apply String.eqb_neq; auto).
  cbn [filter]. unfold row_counts at 1.
  destruct (read_counties_row self line) as [| | e | d c s f fields] eqn:E;
    cbn [counties_after]; rewrite ?E, ?El; auto.
  destruct (snd (enter_values (fips_entered (lookup2 covid s c) f)
                   (stat_names self) fields)); auto.
Qed.

Lemma load_counties_data_replay fs self header rows names w :
  fs (counties_path self) = Some (header :: rows) ->
  validate_header header counties_data_types = inr names ->
  let self' := with_stat_names self names in
  covid_dict (fst (load_counties_data fs self w))
  = fst (counties_after self' rows (covid_dict w))
  /\ snd (load_counties_data fs self w)
     = match snd (counties_after self' rows (covid_dict w)) with
       | None => inr self'
       | Some e => inl e
       end.
Proof.
  intros Hf Hv self'.
  assert (E : load_counties_data fs self w
              = (let x := read_rows (counties_row self') rows 1 w in
                 (fst x, match snd x with inl e => inl e | inr _ => inr self' end))).
  { unfold load_counties_data, exists_, open. rewrite Hf.
    cbn [negb]. unfold bind at 1. unfold lift at 1. cbn [readline].
    unfold bind at 1. unfold lift at 1. rewrite Hv.
    destruct header as [| ch header]; [cbv in Hv; discriminate Hv |].
    change (String.eqb (String ch header) "") with false. cbv iota.
    fold self'. unfold bind.
    destruct (read_rows (counties_row self') rows 1 w) as [w1 [e | []]]; reflexivity. }
  rewrite E. cbv zeta. cbn [fst snd].
  destruct (read_counties_rows_replay self' rows 1 w) as (Hc & _ & Hr).
  rewrite Hc, Hr. split; [reflexivity |].
  destruct (snd (counties_after self' rows (covid_dict w))); reflexivity.
Qed.

(** Rows of a wrong number of fields and rows of another date than the
    target leave no trace in the table: a file loads to the same table, and
    ends the same way, as the file without those rows. *)
Theorem skipped_rows_leave_no_trace (fs1 fs2 : FileSystem) (self : CovidData)
    (header : string) (rows : list string) (names : list string) (w : World) :
  validate_header header counties_data_types = inr names ->
  fs1 (counties_path self) = Some (header :: rows) ->
  fs2 (counties_path self)
  = Some (header :: filter (row_counts (with_stat_names self names)) rows) ->
  Forall (fun line => line <> "") rows ->
  covid_dict (fst (load_counties_data fs1 self w))
  = covid_dict (fst (load_counties_data fs2 self w))
  /\ snd (load_counties_data fs1 self w) = snd (load_counties_data fs2 self w).
Proof.
  intros Hv H1 H2 Hne.
  destruct (load_counties_data_replay fs1 self header rows names w H1 Hv) as [Hc1 Hr1].
  destruct (load_counties_data_replay fs2 self header _ names w H2 Hv) as [Hc2 Hr2].
  rewrite Hc1, Hc2, Hr1, Hr2, counties_after_counts by exact Hne. auto.
Qed.

Lemma counties_after_app self pre : forall rest covid,
  Forall (fun line => line <> "") pre ->
  snd (counties_after self pre covid) = None ->
  counties_after self (pre ++ rest) covid
  = counties_after self rest (fst (counties_after self pre covid)).
Proof.
  induction pre as [| line pre IH]; intros rest covid Hne Hok; [reflexivity |].
  inv Hne. assert (El : String.eqb line "" = false) by (apply String.eqb_neq; auto).
  cbn [app counties_after] in *. rewrite El in *.
  destruct (read_counties_row self line) as [| | e | d c s f fields]; auto;
    try discriminate.
  cbv zeta in *.
  destruct (snd (enter_values (fips_entered (lookup2 covid s c) f)
                   (stat_names self) fields)); [discriminate | auto].
Qed.

(** A load that fails is not undone. When the rows before a row load well
    and that row names a state the table of state names does not have, or
    carries a date that does not parse, the load raises that row's exception
    and the table is the one the rows before it give. *)
Theorem failed_load_keeps_earlier_rows (fs1 fs2 : FileSystem) (self : CovidData)
    (header : string) (pre post : list string) (line : string)
    (names : list string) (e : exn) (w : World) (w1 : World) (self1 : CovidData) :
  validate_header header counties_data_types = inr names ->
  fs1 (counties_path self) = Some (header :: pre) ->
  fs2 (counties_path self) = Some (header :: pre ++ line :: post) ->
  Forall (fun l => l <> "") pre ->
  load_counties_data fs1 self w = (w1, inr self1) ->
  read_counties_row (with_stat_names self names) line = Failing e ->
  covid_dict (fst (load_counties_data fs2 self w)) = covid_dict w1
  /\ snd (load_counties_data fs2 self w) = inl e.
Proof.
  intros Hv H1 H2 Hne Hload Hrow.
  destruct (load_counties_data_replay fs1 self header pre names w H1 Hv) as [Hc1 Hr1].
  destruct (load_counties_data_replay fs2 self header _ names w H2 Hv) as [Hc2 Hr2].
  rewrite Hload in Hc1, Hr1. simpl in Hc1, Hr1.
  assert (Hok : snd (counties_after (with_stat_names self names) pre (covid_dict w)) = None).
  { destruct (snd (counties_after (with_stat_names self names) pre (covid_dict w)));
      [discriminate | reflexivity]. }
  rewrite counties_after_app in Hc2, Hr2 by assumption.
  cbn [counties_after] in Hc2, Hr2. rewrite Hrow in Hc2, Hr2. simpl in Hc2, Hr2.
  rewrite Hc2, Hr2, Hc1. auto.
Qed.

End ReplayProofs.

(** ** The geocode loader: failing rows and the order of the rows *)

Section GeocodeProofs.
Context {RT : Runtime}.

Lemma read_geo_rows_through pre : forall rest linenum w,
  Forall (fun line => line <> "") pre ->
  (forall line e, In line pre -> read_geo_row line <> BadRow e) ->
  exists linenum1 out,
    read_rows geocodes_row (pre ++ rest) linenum w
    = read_rows geocodes_row rest linenum1
        (mkWorld (covid_dict w)
                 (fold_left geo_enter (cities_of_rows pre) (geo_dict w))
                 (stdout w ++ out)).
Proof.
  induction pre as [| line pre IH]; intros rest linenum w Hne Hok.
  - exists linenum, []. simpl. rewrite app_nil_r. destruct w; reflexivity.
  - inv Hne. assert (Hl : String.eqb line "" = false) by (apply String.eqb_neq; auto).
    assert (Hok' : forall l e, In l pre -> read_geo_row l <> BadRow e)
      by (intros; apply Hok; right; auto).
    cbn [app read_rows]. unfold bind at 1. rewrite geocodes_row_spec, Hl.
    cbn [cities_of_rows flat_map].
    destruct (read_geo_row line) as [| e | c] eqn:E.
    + destruct (IH rest (linenum + 1) (warned w linenum line) H2 Hok') as (n & out & E').
      exists n, ([WarnIncomplete linenum; SkippingLine line] ++ out)%list.
      rewrite E'. unfold warned. simpl. rewrite <- !app_assoc. reflexivity.
    + exfalso. apply (Hok line e); [left; reflexivity | exact E].
    + destruct (IH rest (linenum + 1) (with_geo (geo_enter (geo_dict w) c) w) H2 Hok')
        as (n & out & E').
      exists n, out. rewrite E'. reflexivity.
Qed.


Lemma read_geo_row_bad line e :
  read_geo_row line = BadRow e -> exists field, e = ValueError (InvalidLiteral field).
Proof.
  unfold read_geo_row.
  destruct (_ <? _)%nat; [discriminate |].
  destruct (py_float _); [| intros H; inv H; eauto].
  destruct (py_float _); [| intros H; inv H; eauto].
  destruct (py_int _); [discriminate | intros H; inv H; eauto].
Qed.

(** A geocode load that fails is not undone either. A row that has at least
    the twelve fields of [geo_data_types] and whose latitude, longitude or
    population does not parse is not skipped: it ends the load with the
    [ValueError] of the conversion, and the geocode table is the one the rows
    before it give. A row of fewer than twelve fields is skipped with a
    warning, whatever its fields hold. *)
Theorem failed_geocode_load_keeps_earlier_rows (fs1 fs2 : FileSystem)
    (self : CovidData) (header : string) (pre post : list string)
    (line : string) (e : exn) (w w1 : World) :
  exists_ fs1 (counties_path self) = true ->
  exists_ fs2 (counties_path self) = true ->
  fs1 (geocodes_path self) = Some (header :: pre) ->
  fs2 (geocodes_path self) = Some (header :: pre ++ line :: post) ->
  header <> "" ->
  Forall (fun l => l <> "") pre ->
  load_geocodes_data fs1 self w = (w1, inr tt) ->
  read_geo_row line = BadRow e ->
  geo_dict (fst (load_geocodes_data fs2 self w)) = geo_dict w1
  /\ covid_dict (fst (load_geocodes_data fs2 self w)) = covid_dict w
  /\ snd (load_geocodes_data fs2 self w) = inl e
  /\ (exists field, e = ValueError (InvalidLiteral field))
  /\ (12 <= List.length (split comma (rstrip line)))%nat.
Proof.
  intros Hc1 Hc2 H1 H2 Hh Hne Hload Hrow.
  rewrite (load_geocodes_data_rows fs1 self header pre w Hc1 H1 Hh) in Hload.
  rewrite (load_geocodes_data_rows fs2 self header _ w Hc2 H2 Hh).
  pose proof (read_geo_rows_no_bad pre 1 w w1 Hne Hload) as Hok.
  destruct (read_geo_rows_ok pre 1 w Hne Hok) as (out1 & E1).
  rewrite E1 in Hload. inv Hload.
  destruct (read_geo_rows_through pre (line :: post) 1 w Hne Hok) as (n & out & E).
  rewrite E. cbn [read_rows]. unfold bind at 1 2 3.
  rewrite geocodes_row_spec, Hrow. cbn [fst snd geo_dict covid_dict].
  repeat split; auto; [eapply read_geo_row_bad; eauto |].
  revert Hrow. unfold read_geo_row.
  destruct (List.length (split comma (rstrip line)) <? List.length geo_data_types)%nat
    eqn:El; [discriminate |].
  intros _. apply Nat.ltb_ge in El. exact El.
Qed.

Lemma absorb_all_population_from cs : forall r,
  option_map population (absorb_all r cs)
  = match r, cs with
    | None, [] => None
    | None, _ => Some (total_population cs)
    | Some rec, _ => Some (population rec + total_population cs)
    end.
Proof.
  intros [rec |].
  - destruct (absorb_all_population cs rec) as (rec' & E & Hp).
    rewrite E. simpl. rewrite Hp. reflexivity.
  - destruct cs as [| c cs]; [reflexivity |].
    cbn [absorb_all fold_left absorb].
    destruct (absorb_all_population cs
                (mkGeo (city_lat c) (city_lon c) (city_population c) (city_population c)))
      as (rec' & E & Hp).
    unfold absorb_all in E. rewrite E. simpl. rewrite Hp. reflexivity.
Qed.

Lemma total_population_perm cs cs' :
  Permutation cs cs' -> total_population cs = total_population cs'.
Proof. induction 1; simpl; lia. Qed.

Lemma filter_perm {A} (f : A -> bool) l l' :
  Permutation l l' -> Permutation (filter f l) (filter f l').
Proof.
  induction 1; simpl.
  - constructor.
  - destruct (f x); [constructor |]; assumption.
  - destruct (f x), (f y); try constructor; try apply Permutation_refl.
  - eapply Permutation_trans; eauto.
Qed.

Lemma cities_of_rows_perm rows rows' :
  Permutation rows rows' -> Permutation (cities_of_rows rows) (cities_of_rows rows').
Proof.
  induction 1; unfold cities_of_rows in *; cbn [flat_map].
  - constructor.
  - apply Permutation_app_head. assumption.
  - rewrite !app_assoc. apply Permutation_app_tail. apply Permutation_app_comm.
  - eapply Permutation_trans; eauto.
Qed.

(** The population of a county does not depend on the order of the rows of
    the geocode file (its coordinates can): two files whose rows are the same
    up to order, none failing to parse, leave every county with the same
    population. *)
Theorem county_population_order_free (fs1 fs2 : FileSystem) (self : CovidData)
    (header1 header2 : string) (rows1 rows2 : list string) (w : World)
    (state county : string) :
  exists_ fs1 (counties_path self) = true ->
  exists_ fs2 (counties_path self) = true ->
  fs1 (geocodes_path self) = Some (header1 :: rows1) ->
  fs2 (geocodes_path self) = Some (header2 :: rows2) ->
  header1 <> "" -> header2 <> "" ->
  Permutation rows1 rows2 ->
  Forall (fun l => l <> "") rows1 ->
  (forall line e, In line rows1 -> read_geo_row line <> BadRow e) ->
  snd (load_geocodes_data fs1 self w) = inr tt
  /\ snd (load_geocodes_data fs2 self w) = inr tt
  /\ option_map population
       (lookup2 (geo_dict (fst (load_geocodes_data fs1 self w))) state county)
     = option_map population
         (lookup2 (geo_dict (fst (load_geocodes_data fs2 self w))) state county).
Proof.
  intros Hc1 Hc2 H1 H2 Hh1 Hh2 Hperm Hne Hok.
  assert (Hne2 : Forall (fun l => l <> "") rows2).
  { apply Forall_forall. intros l Hin. rewrite Forall_forall in Hne. apply Hne.
    eapply Permutation_in; [apply Permutation_sym; exact Hperm | exact Hin]. }
  assert (Hok2 : forall line e, In line rows2 -> read_geo_row line <> BadRow e).
  { intros l e Hin. apply Hok.
    eapply Permutation_in; [apply Permutation_sym; exact Hperm | exact Hin]. }
  rewrite (load_geocodes_data_rows fs1 self header1 rows1 w Hc1 H1 Hh1).
  rewrite (load_geocodes_data_rows fs2 self header2 rows2 w Hc2 H2 Hh2).
  destruct (read_geo_rows_ok rows1 1 w Hne Hok) as (out1 & E1).
  destruct (read_geo_rows_ok rows2 1 w Hne2 Hok2) as (out2 & E2).
  rewrite E1, E2. cbn [fst snd geo_dict]. repeat split.
  rewrite !lookup2_geo_enter_all, !absorb_all_population_from.
  pose proof (filter_perm (in_county state county) _ _
                (cities_of_rows_perm _ _ Hperm)) as Hp.
  rewrite (total_population_perm _ _ Hp).
  destruct (filter (in_county state county) (cities_of_rows rows1)) as [| c cs] eqn:F1.
  - apply Permutation_nil in Hp. rewrite Hp. reflexivity.
  - destruct (filter (in_county state county) (cities_of_rows rows2)) as [| c2 cs2] eqn:F2.
    + apply Permutation_sym, Permutation_nil in Hp. discriminate Hp.
    + reflexivity.
Qed.

End GeocodeProofs.

(** ** The request file and the batch *)

Section BatchProofs.
Context {RT : Runtime}.

Lemma requests_from_blank blank post pre : forall acc w,
  rstrip blank = "" ->
  requests_from (pre ++ blank :: post) acc w = requests_from pre acc w.
Proof.
  induction pre as [| l pre IH]; intros acc w Hb.
  - cbn [app requests_from]. rewrite Hb. destruct post; reflexivity.
  - cbn [app requests_from].
    destruct pre as [| l' pre'].
    + cbn [app requests_loop]. destruct (String.eqb (rstrip l) ""); [reflexivity |].
      unfold bind. destruct (try_except _ _ w) as [w1 [e | req]]; [reflexivity |].
      rewrite Hb. destruct post; reflexivity.
    + cbn [app requests_loop]. destruct (String.eqb (rstrip l) ""); [reflexivity |].
      unfold bind. destruct (try_except _ _ w) as [w1 [e | req]]; [reflexivity |].
      apply (IH (acc ++ [req])%list w1 Hb).
Qed.

(** A blank line ends the batch: the rows after the first line that is empty
    once stripped are never read, well formed or not. *)
Theorem blank_line_ends_requests (fs1 fs2 : FileSystem) (path header : string)
    (pre post : list string) (blank : string) (w : World) :
  fs1 path = Some (header :: pre ++ blank :: post) ->
  fs2 path = Some (header :: pre) ->
  rstrip blank = "" ->
  get_requests fs1 path w = get_requests fs2 path w.
Proof.
  intros H1 H2 Hb.
  rewrite (get_requests_rows w H1), (get_requests_rows w H2).
  apply requests_from_blank. exact Hb.
Qed.

Lemma request_of_line_accepted line r :
  request_of_line line = inr r -> accepted r.
Proof.
  unfold request_of_line.
  destruct (split comma line) as [| a [| b [| c [| d l]]]]; try discriminate.
  unfold float_, ebind.
  destruct (py_float c) as [x |]; [| discriminate].
  destruct (PrimFloat.ltb 1000 x) eqn:E; [discriminate |].
  intros H; inv H. exact E.
Qed.

Lemma requests_loop_outcome rest : forall line acc w,
  Forall accepted acc ->
  fst (requests_loop line rest acc w) = w
  /\ match snd (requests_loop line rest acc w) with
     | inl e => exists m, e = RuntimeError (InvalidInputData m)
     | inr reqs => Forall accepted reqs
     end.
Proof.
  induction rest as [| l rest IH]; intros line acc w Hacc; cbn [requests_loop].
  - destruct (String.eqb line ""); [simpl; auto |].
    unfold bind, try_except.
    destruct (request_of_line line) as [e | r] eqn:E; simpl; [eauto |].
    split; [reflexivity |]. apply Forall_app. split; [exact Hacc |].
    constructor; [| constructor]. eapply request_of_line_accepted; eauto.
  - destruct (String.eqb line ""); [simpl; auto |].
    unfold bind, try_except.
    destruct (request_of_line line) as [e | r] eqn:E; simpl; [eauto |].
    apply IH. apply Forall_app. split; [exact Hacc |].
    constructor; [| constructor]. eapply request_of_line_accepted; eauto.
Qed.

(** [get_requests] on a path that names no file raises the [RuntimeError]
    of the missing input file. On a file that opens and reads as text it
    leaves the process state as it was; whatever goes wrong in a row, the
    exception is the [RuntimeError] of invalid input data; and it returns
    only requests whose radius is not above 1000. *)
Theorem get_requests_outcome (fs : FileSystem) (path : string) (w : World) :
  (fs path = None ->
   get_requests fs path w = (w, inl (RuntimeError (InputFileMissing path))))
  /\ (forall lines,
        fs path = Some lines ->
        fst (get_requests fs path w) = w
        /\ match snd (get_requests fs path w) with
           | inl e => exists m, e = RuntimeError (InvalidInputData m)
           | inr reqs => Forall accepted reqs
           end).
Proof.
  split.
  - intros Hf. unfold get_requests, exists_, open. rewrite Hf. reflexivity.
  - intros [| header rows] Hf.
    + unfold get_requests, exists_, open. rewrite Hf. simpl. auto.
    + rewrite (get_requests_rows w Hf). destruct rows as [| line rest].
      * simpl. auto.
      * cbn [requests_from].
        apply (requests_loop_outcome rest (rstrip line) [] w (Forall_nil _)).
Qed.

Lemma serve_reads_only data statistic covid geo : forall requests,
  exists out r,
    (forall so, serve data requests statistic (mkWorld covid geo so)
                = (mkWorld covid geo (so ++ out), r))
    /\ (forall results,
          r = inr results
          <-> Forall2 (fun request res =>
                         snd (compute_stats data request statistic
                                (mkWorld covid geo [])) = inr res)
                      requests results)
    /\ (forall e, r = inl e ->
          exists request,
            In request requests
            /\ snd (compute_stats data request statistic (mkWorld covid geo []))
               = inl e).
Proof.
  induction requests as [| q qs IH].
  - exists [], (inr []). split; [| split].
    + intros so. simpl. rewrite app_nil_r. reflexivity.
    + intros results. split; [intros H; inv H; constructor |].
      intros H; inv H. reflexivity.
    + discriminate.
  - destruct (compute_stats_reads_only data q statistic covid geo) as (out1 & r1 & E1).
    destruct IH as (out2 & r2 & E2 & Hok & Herr).
    destruct r1 as [e | res1].
    + exists out1, (inl e). split; [| split].
      * intros so. cbn [serve]. unfold bind at 1. rewrite (E1 so). reflexivity.
      * intros results. split; [discriminate |].
        intros H; inv H. rewrite (E1 []) in H2. discriminate H2.
      * intros e0 H; inv H. exists q. split; [left; reflexivity |].
        rewrite (E1 []). reflexivity.
    + destruct r2 as [e | rs].
      * exists (out1 ++ out2)%list, (inl e). split; [| split].
        -- intros so. cbn [serve]. unfold bind at 1. rewrite (E1 so).
           unfold bind at 1. rewrite (E2 (so ++ out1)%list).
           rewrite <- app_assoc. reflexivity.
        -- intros results. split; [discriminate |].
           intros H; inv H. apply Hok in H4. discriminate H4.
        -- intros e0 H; inv H. destruct (Herr e0 eq_refl) as (q' & Hin & Hq).
           exists q'. split; [right; exact Hin | exact Hq].
      * exists (out1 ++ out2)%list, (inr (res1 :: rs)). split; [| split].
        -- intros so. cbn [serve]. unfold bind at 1. rewrite (E1 so).
           unfold bind at 1. rewrite (E2 (so ++ out1)%list).
           rewrite <- app_assoc. reflexivity.
        -- intros results. split.
           ++ intros H; inv H. constructor; [rewrite (E1 []); reflexivity |].
              apply Hok. reflexivity.
           ++ intros H; inv H. rewrite (E1 []) in H2. inv H2.
              apply Hok in H4. inv H4. reflexivity.
        -- discriminate.
Qed.

Lemma compute_stats_any_output data q statistic covid geo so so' :
  snd (compute_stats data q statistic (mkWorld covid geo so))
  = snd (compute_stats data q statistic (mkWorld covid geo so')).
Proof.
  destruct (compute_stats_reads_only data q statistic covid geo) as (out & r & E).
  rewrite (E so), (E so'). reflexivity.
Qed.

(** The requests of a batch do not bear on one another. The loop of [main]
    leaves both tables as they were; it returns a list of results exactly
    when every request, computed on its own against the tables, gives the
    result at its place in the list; and when it raises, the exception is
    the one a request of the batch raises on its own, with no result
    returned for the requests before it. *)
Theorem batch_requests_independent (data : CovidData) (requests : list Request)
    (statistic : string) (w : World) :
  covid_dict (fst (serve data requests statistic w)) = covid_dict w
  /\ geo_dict (fst (serve data requests statistic w)) = geo_dict w
  /\ (forall results,
        snd (serve data requests statistic w) = inr results
        <-> Forall2 (fun request res =>
                       snd (compute_stats data request statistic w) = inr res)
                    requests results)
  /\ (forall e,
        snd (serve data requests statistic w) = inl e ->
        exists request,
          In request requests
          /\ snd (compute_stats data request statistic w) = inl e).
Proof.
  destruct w as [covid geo so].
  destruct (serve_reads_only data statistic covid geo requests)
    as (out & r & E & Hok & Herr).
  rewrite (E so). cbn [fst snd covid_dict geo_dict].
  split; [reflexivity |]. split; [reflexivity |]. split.
  - intros results. rewrite Hok. split; intros H;
      (eapply Forall2_impl; [| exact H]); cbv beta; intros q res Hq;
      rewrite <- Hq; apply compute_stats_any_output.
  - intros e He. destruct (Herr e He) as (q & Hin & Hq). exists q.
    split; [exact Hin |]. rewrite <- Hq. apply compute_stats_any_output.
Qed.

End BatchProofs.

(** ** The data of the totals figure *)

Section PlotProofs.

Lemma totals_loop_from results : forall acc,
  let out := fold_left
    (fun acc result =>
       mkTotalsData
         (Z.max (biggest_stat_value acc) (res_stat_total result))
         (plot_fips acc ++ res_fips result)
         (plot_values acc
          ++ repeat (res_stat_total result) (List.length (res_fips result))))
    results acc in
  plot_fips out = (plot_fips acc ++ flat_map res_fips results)%list
  /\ plot_values out
     = (plot_values acc
        ++ flat_map (fun r => repeat (res_stat_total r) (List.length (res_fips r)))
             results)%list
  /\ biggest_stat_value acc <= biggest_stat_value out
  /\ (forall r, In r results -> res_stat_total r <= biggest_stat_value out)
  /\ (biggest_stat_value out = biggest_stat_value acc
      \/ exists r, In r results /\ res_stat_total r = biggest_stat_value out).
Proof.
  induction results as [| r results IH]; intros acc; cbv zeta.
  - simpl. rewrite !app_nil_r.
    split; [reflexivity |]. split; [reflexivity |]. split; [lia |].
    split; [intros r [] | left; reflexivity].
  - cbn [fold_left flat_map].
    specialize (IH (mkTotalsData
         (Z.max (biggest_stat_value acc) (res_stat_total r))
         (plot_fips acc ++ res_fips r)
         (plot_values acc ++ repeat (res_stat_total r) (List.length (res_fips r))))).
    cbv zeta in IH. cbn [biggest_stat_value plot_fips plot_values] in IH.
    destruct IH as (Hf & Hv & Hb & Hall & Hex).
    rewrite Hf, Hv, <- !app_assoc.
    split; [reflexivity |]. split; [reflexivity |]. split; [lia |]. split.
    + intros r' [<- | Hin]; [lia | auto].
    + destruct Hex as [Heq | (r' & Hin & Hr')].
      * rewrite Heq. destruct (Z.max_spec (biggest_stat_value acc) (res_stat_total r))
          as [[_ ->] | [_ ->]]; [right; exists r; split; [left |]; auto | left; auto].
      * right. exists r'. split; [right |]; auto.
Qed.

(** The totals figure is drawn from one value per county of each region, the
    region's total, in the order of the results, with a county that lies in
    two regions listed twice; its five binning endpoints are the multiples
    [b], [2b], ..., [5b] of a fifth of the largest total, rounded down, and
    never negative. When no total reaches 5, and so for no result at all, the
    five endpoints are all 0. *)
Theorem totals_figure_data (results : list Result) :
  plot_fips (totals_loop results) = flat_map res_fips results
  /\ plot_values (totals_loop results)
     = flat_map (fun r => repeat (res_stat_total r) (List.length (res_fips r)))
         results
  /\ List.length (plot_values (totals_loop results))
     = List.length (plot_fips (totals_loop results))
  /\ (forall r, In r results ->
        res_stat_total r <= biggest_stat_value (totals_loop results))
  /\ (biggest_stat_value (totals_loop results) = 0
      \/ exists r, In r results
                   /\ res_stat_total r = biggest_stat_value (totals_loop results))
  /\ exists b,
       total_bins (biggest_stat_value (totals_loop results))
       = [b; 2 * b; 3 * b; 4 * b; 5 * b]
       /\ 0 <= b
       /\ 5 * b <= biggest_stat_value (totals_loop results) < 5 * b + 5
       /\ ((forall r, In r results -> res_stat_total r < 5) -> b = 0).
Proof.
  destruct (totals_loop_from results (mkTotalsData 0 [] []))
    as (Hf & Hv & Hb & Hall & Hex).
  fold (totals_loop results) in Hf, Hv, Hb, Hall, Hex.
  cbn [plot_fips plot_values biggest_stat_value app] in Hf, Hv, Hb, Hex.
  split; [exact Hf |]. split; [exact Hv |]. split.
  { rewrite Hf, Hv. clear. induction results as [| r rs IH]; [reflexivity |].
    cbn [flat_map]. rewrite !length_app, repeat_length, IH. reflexivity. }
  split; [exact Hall |]. split; [exact Hex |].
  set (biggest := biggest_stat_value (totals_loop results)) in *.
  exists (biggest / 5). split; [| split; [| split]].
  - unfold total_bins. cbv zeta. cbn [seq repeat fold_left list_set].
    change (Z.of_nat 0) with 0. change (Z.of_nat 1) with 1.
    change (Z.of_nat 2) with 2. change (Z.of_nat 3) with 3.
    change (Z.of_nat 4) with 4.
    change ((0 + 1) * (biggest / 5)) with (1 * (biggest / 5)).
    rewrite Z.mul_1_l. reflexivity.
  - apply Z.div_pos; lia.
  - pose proof (Z.mul_div_le biggest 5 ltac:(lia)).
    pose proof (Z.mul_succ_div_gt biggest 5 ltac:(lia)). lia.
  - intros Hsmall. apply Z.div_small. split; [lia |].
    destruct Hex as [-> | (r & Hin & <-)]; [lia | auto].
Qed.

End PlotProofs.

(** * The further properties on the sample files *)

Section OnMoreSampleFiles.
Import Sample.
#[local] Existing Instance runtime.

(** On the loaded sample: Alameda and Contra Costa lie within 30 miles of
    Alameda; the region has their 600 people. *)
Lemma compute_stats_region_witness :
  exists res,
    snd (compute_stats data (mkRequest "CA" "Alameda" 30) "cases" loaded) = inr res
    /\ res_counties res = [("Alameda", "CA"); ("Contra Costa", "CA")]
    /\ res_population res = 600.
Proof.
  destruct (compute_stats data (mkRequest "CA" "Alameda" 30) "cases" loaded)
    as [w' [e | res]] eqn:E; [vm_compute in E; discriminate E |].
  destruct (compute_stats_region data (mkRequest "CA" "Alameda" 30) "cases"
              loaded w' res E) as (rec & Hrec & _ & _ & _ & _ & Hc & Hp & _).
  assert (Hr : rec = mkGeo 37.78 (-122.22) 400 300)
    by (vm_compute in Hrec; injection Hrec as <-; reflexivity).
  subst rec. exists res. split; [reflexivity |].
  split; [rewrite Hc | rewrite Hp]; vm_compute; reflexivity.
Defined.

(** On the sample statistics file, loaded into empty tables. *)
Lemma loaded_records_complete_witness :
  complete_table ["cases"; "deaths"]
    (covid_dict (fst (load_counties_data files
                        (mkCovidData "counties.csv" "geocodes.csv" None [])
                        empty_world))).
Proof.
  apply (loaded_records_complete files
           (mkCovidData "counties.csv" "geocodes.csv" None [])
           (mkCovidData "counties.csv" "geocodes.csv" None ["cases"; "deaths"])
           empty_world).
  - vm_compute. reflexivity.
  - intros state county rec H. discriminate H.
Defined.

(** On the sample with Reno: the request of 500 miles around Alameda ends in
    the [KeyError] of Nevada, the third kind. *)
Lemma compute_stats_exceptions_witness :
  exists e,
    snd (compute_stats data (mkRequest "CA" "Alameda" 500) "cases" loaded_nevada)
    = inl e
    /\ (lookup_error e = true
        \/ e = ValueError MathDomainError
        \/ exists new_state,
             e = KeyError new_state
             /\ dict_get (geo_dict loaded_nevada) new_state <> None
             /\ dict_get (covid_dict loaded_nevada) new_state = None).
Proof.
  destruct (compute_stats data (mkRequest "CA" "Alameda" 500) "cases" loaded_nevada)
    as [w' [e | res]] eqn:E; [| vm_compute in E; discriminate E].
  exists e. split; [reflexivity |].
  apply (compute_stats_exceptions data (mkRequest "CA" "Alameda" 500) "cases"
           loaded_nevada w' e); [| exact E].
  intros state county rec H.
  assert (Hc : covid_dict loaded_nevada
               = [("CA", [("Alameda", [("fips", VStr "06001"); ("cases", VInt 1636);
                                       ("deaths", VInt 63)]);
                          ("Contra Costa", [("fips", VStr "06013"); ("cases", VInt 907);
                                            ("deaths", VInt 28)])])])
    by (vm_compute; reflexivity).
  rewrite Hc in H. unfold lookup2 in H. cbn [dict_get] in H.
  destruct (String.eqb state "CA"); [| discriminate H].
  cbn [dict_get] in H.
  destruct (String.eqb county "Alameda");
    [| destruct (String.eqb county "Contra Costa"); [| discriminate H]];
    injection H as <-;
    (split; [discriminate |]);
    intros k [<- | [<- | []]]; eexists; reflexivity.
Defined.

(** On the sample statistics file with a torn line in it. *)
Lemma skipped_rows_leave_no_trace_witness :
  covid_dict
    (fst (load_counties_data
            (files_with "counties.csv"
               [counties_header; alameda_may1; torn_line; contra_costa_may1])
            (mkCovidData "counties.csv" "geocodes.csv" None []) empty_world))
  = covid_dict
      (fst (load_counties_data files
              (mkCovidData "counties.csv" "geocodes.csv" None []) empty_world)).
Proof.
  apply (skipped_rows_leave_no_trace
           (files_with "counties.csv"
              [counties_header; alameda_may1; torn_line; contra_costa_may1])
           files (mkCovidData "counties.csv" "geocodes.csv" None [])
           counties_header [alameda_may1; torn_line; contra_costa_may1]
           ["cases"; "deaths"] empty_world).
  - vm_compute. reflexivity.
  - reflexivity.
  - vm_compute. reflexivity.
  - repeat constructor; discriminate.
Defined.

(** On the sample statistics file with a county of Washington before Contra
    Costa: the load ends in [KeyError] with Alameda's row loaded and Contra
    Costa's not read. *)
Lemma failed_load_keeps_earlier_rows_witness :
  snd (load_counties_data
         (files_with "counties.csv"
            [counties_header; alameda_may1; king_may1; contra_costa_may1])
         (mkCovidData "counties.csv" "geocodes.csv" None []) empty_world)
  = inl (KeyError "Washington")
  /\ covid_dict
       (fst (load_counties_data
               (files_with "counties.csv"
                  [counties_header; alameda_may1; king_may1; contra_costa_may1])
               (mkCovidData "counties.csv" "geocodes.csv" None []) empty_world))
     = [("CA", [("Alameda", [("fips", VStr "06001"); ("cases", VInt 1636);
                             ("deaths", VInt 63)])])].
Proof.
  destruct (failed_load_keeps_earlier_rows
              (files_with "counties.csv" [counties_header; alameda_may1])
              (files_with "counties.csv"
                 [counties_header; alameda_may1; king_may1; contra_costa_may1])
              (mkCovidData "counties.csv" "geocodes.csv" None [])
              counties_header [alameda_may1] [contra_costa_may1] king_may1
              ["cases"; "deaths"] (KeyError "Washington") empty_world
              (fst (load_counties_data
                      (files_with "counties.csv" [counties_header; alameda_may1])
                      (mkCovidData "counties.csv" "geocodes.csv" None [])
                      empty_world))
              (mkCovidData "counties.csv" "geocodes.csv" None ["cases"; "deaths"]))
    as [Hc He].
  - vm_compute. reflexivity.
  - reflexivity.
  - reflexivity.
  - repeat constructor; discriminate.
  - vm_compute. reflexivity.
  - vm_compute. reflexivity.
  - split; [exact He |]. rewrite Hc. vm_compute. reflexivity.
Defined.

(** On the sample geocode file with a latitude that is no number in its
    second row. *)
Lemma failed_geocode_load_keeps_earlier_rows_witness :
  snd (load_geocodes_data
         (files_with "geocodes.csv"
            [geo_header; alameda_city; lost_city; concord_city])
         data empty_world)
  = inl (ValueError (InvalidLiteral "north"))
  /\ geo_dict
       (fst (load_geocodes_data
               (files_with "geocodes.csv"
                  [geo_header; alameda_city; lost_city; concord_city])
               data empty_world))
     = [("CA", [("Alameda", mkGeo 37.77 (-122.27) 100 100)])].
Proof.
  destruct (failed_geocode_load_keeps_earlier_rows
              (files_with "geocodes.csv" [geo_header; alameda_city])
              (files_with "geocodes.csv"
                 [geo_header; alameda_city; lost_city; concord_city])
              data geo_header [alameda_city] [concord_city] lost_city
              (ValueError (InvalidLiteral "north")) empty_world
              (fst (load_geocodes_data
                      (files_with "geocodes.csv" [geo_header; alameda_city])
                      data empty_world)))
    as (Hg & _ & He & _ & _).
  - reflexivity.
  - reflexivity.
  - reflexivity.
  - reflexivity.
  - discriminate.
  - repeat constructor; discriminate.
  - vm_compute. reflexivity.
  - vm_compute. reflexivity.
  - split; [exact He |]. rewrite Hg. vm_compute. reflexivity.
Defined.

(** On the sample geocode file and the same file with Alameda's row moved to
    the end. *)
Lemma county_population_order_free_witness :
  option_map population
    (lookup2 (geo_dict (fst (load_geocodes_data files data empty_world)))
       "CA" "Alameda")
  = option_map population
      (lookup2
         (geo_dict
            (fst (load_geocodes_data
                    (files_with "geocodes.csv"
                       [geo_header; oakland_city; concord_city; alameda_city])
                    data empty_world)))
         "CA" "Alameda").
Proof.
  apply (county_population_order_free files
           (files_with "geocodes.csv"
              [geo_header; oakland_city; concord_city; alameda_city])
           data geo_header geo_header
           [alameda_city; oakland_city; concord_city]
           [oakland_city; concord_city; alameda_city] empty_world "CA" "Alameda").
  - reflexivity.
  - reflexivity.
  - reflexivity.
  - reflexivity.
  - discriminate.
  - discriminate.
  - apply (Permutation_cons_append [oakland_city; concord_city] alameda_city).
  - repeat constructor; discriminate.
  - intros line e [<- | [<- | [<- | []]]]; vm_compute; discriminate.
Defined.

(** On the sample request file followed by an empty line and a row that
    would be refused. *)
Lemma blank_line_ends_requests_witness :
  get_requests
    (files_with "requests.csv"
       [requests_header; "Alameda,CA,30" ++ nl; "Contra Costa,CA,1000" ++ nl;
        nl; "Alameda,CA,far" ++ nl])
    "requests.csv" empty_world
  = get_requests files "requests.csv" empty_world.
Proof.
  apply (blank_line_ends_requests
           (files_with "requests.csv"
              [requests_header; "Alameda,CA,30" ++ nl; "Contra Costa,CA,1000" ++ nl;
               nl; "Alameda,CA,far" ++ nl])
           files "requests.csv" requests_header
           ["Alameda,CA,30" ++ nl; "Contra Costa,CA,1000" ++ nl]
           ["Alameda,CA,far" ++ nl] nl empty_world).
  - reflexivity.
  - reflexivity.
  - reflexivity.
Defined.

(** On the sample request files: a path that names no file, and the file
    with a radius of 1000.5 in its second row. *)
Lemma get_requests_outcome_witness :
  get_requests files "nowhere.csv" empty_world
  = (empty_world, inl (RuntimeError (InputFileMissing "nowhere.csv")))
  /\ fst (get_requests files "requests_far.csv" empty_world) = empty_world.
Proof.
  split.
  - apply (proj1 (get_requests_outcome files "nowhere.csv" empty_world)).
    reflexivity.
  - apply (proj2 (get_requests_outcome files "requests_far.csv" empty_world)
             requests_far_csv).
    reflexivity.
Defined.

End OnMoreSampleFiles.
